(** * Media-download bot (main.py): classification, pipelines and cleanup

    A shallow embedding of [main.py].  Python [str] values are Rocq strings
    (exact for ASCII text; a non-ASCII character appears as its UTF-8 bytes,
    on which [strip], [lower] and [upper] act as the identity and which a
    slice [s[:n]] counts one by one).  The
    collaborators of the program (the chat transport, spotdl, yt-dlp, HTTP
    and the HTML parser) are fields of an environment record; the transient
    storage is a finite map from paths to nodes; every function that can
    raise or touch the storage lives in a state-and-exception monad. *)

From Stdlib Require Import ZArith QArith Ascii String List Bool Lia.
From Stdlib Require Import DecimalString DecimalZ.
From stdpp Require Import base option list gmap strings fin_maps.

Local Open Scope string_scope.
Local Open Scope Z_scope.
Local Open Scope list_scope.

(** ** Python string primitives *)

Module Py.

(** [s.startswith(p)] *)
Fixpoint startswith (p s : string) : bool :=
  match p, s with
  | EmptyString, _ => true
  | String a p', String b s' => if Ascii.eqb a b then startswith p' s' else false
  | String _ _, EmptyString => false
  end.

(** [needle in s] *)
Fixpoint contains (needle s : string) : bool :=
  startswith needle s ||
  match s with
  | EmptyString => false
  | String _ s' => contains needle s'
  end.

(** [c in s] for a one-character [c] *)
Fixpoint mem (c : ascii) (s : string) : bool :=
  match s with
  | EmptyString => false
  | String a s' => Ascii.eqb a c || mem c s'
  end.

Definition code (c : ascii) : N := N_of_ascii c.

(** [str.isspace] on one ASCII character: TAB, LF, VT, FF, CR, FS, GS,
    RS, US and the space. *)
Definition isspace (c : ascii) : bool :=
  let n := code c in
  ((9 <=? n) && (n <=? 13) || (28 <=? n) && (n <=? 32))%N.

Definition isupper (c : ascii) : bool :=
  let n := code c in ((65 <=? n) && (n <=? 90))%N.

Definition islower (c : ascii) : bool :=
  let n := code c in ((97 <=? n) && (n <=? 122))%N.

Definition isalpha (c : ascii) : bool := isupper c || islower c.

Definition isdigit (c : ascii) : bool :=
  let n := code c in ((48 <=? n) && (n <=? 57))%N.

Definition lower_char (c : ascii) : ascii :=
  if isupper c then ascii_of_N (code c + 32) else c.

Definition upper_char (c : ascii) : ascii :=
  if islower c then ascii_of_N (code c - 32) else c.

Fixpoint map_chars (f : ascii -> ascii) (s : string) : string :=
  match s with
  | EmptyString => EmptyString
  | String a s' => String (f a) (map_chars f s')
  end.

(** [s.lower()], [s.upper()] *)
Definition lower : string -> string := map_chars lower_char.
Definition upper : string -> string := map_chars upper_char.

(** [s.lstrip(chars)] with the set of characters given as a predicate *)
Fixpoint lstrip_by (p : ascii -> bool) (s : string) : string :=
  match s with
  | EmptyString => EmptyString
  | String a s' => if p a then lstrip_by p s' else s
  end.

Fixpoint rstrip_by (p : ascii -> bool) (s : string) : string :=
  match s with
  | EmptyString => EmptyString
  | String a s' =>
      match rstrip_by p s' with
      | EmptyString => if p a then EmptyString else String a EmptyString
      | r => String a r
      end
  end.

(** [s.strip()] *)
Definition strip (s : string) : string := rstrip_by isspace (lstrip_by isspace s).

(** [s.replace(old, new)] for one-character [old] and [new] *)
Definition replace (old new : ascii) : string -> string :=
  map_chars (fun c => if Ascii.eqb c old then new else c).

(** [s.replace(old, "")] for a one-character [old] *)
Fixpoint remove (old : ascii) (s : string) : string :=
  match s with
  | EmptyString => EmptyString
  | String a s' => if Ascii.eqb a old then remove old s' else String a (remove old s')
  end.

(** [s[:n]] *)
Fixpoint take (n : nat) (s : string) : string :=
  match n, s with
  | O, _ => EmptyString
  | S _, EmptyString => EmptyString
  | S n', String a s' => String a (take n' s')
  end.

(** [s[n:]] *)
Fixpoint drop (n : nat) (s : string) : string :=
  match n, s with
  | O, _ => s
  | S _, EmptyString => EmptyString
  | S n', String _ s' => drop n' s'
  end.

(** The part of [s] before the first character satisfying [p], and the
    rest (which starts with that character, or is empty). *)
Fixpoint break (p : ascii -> bool) (s : string) : string * string :=
  match s with
  | EmptyString => (EmptyString, EmptyString)
  | String a s' =>
      if p a then (EmptyString, s)
      else let '(l, r) := break p s' in (String a l, r)
  end.

(** [s.split(sep, maxsplit)] for a one-character [sep] *)
Fixpoint split (sep : ascii) (maxsplit : nat) (s : string) : list string :=
  match maxsplit with
  | O => [s]
  | S m =>
      match break (Ascii.eqb sep) s with
      | (l, String _ r) => l :: split sep m r
      | (l, EmptyString) => [l]
      end
  end.

(** [s.rsplit(sep, 1)[0]] for a one-character [sep]: everything before
    the last [sep], or all of [s] when [sep] does not occur. *)
Fixpoint rsplit1_head (sep : ascii) (s : string) : string :=
  match s with
  | EmptyString => EmptyString
  | String a s' =>
      if mem sep s' then String a (rsplit1_head sep s')
      else if Ascii.eqb a sep then EmptyString
      else s
  end.

(** [str(n)] and [f"{n}"] for an [int] *)
Definition str_of_int (n : Z) : string := NilZero.string_of_int (Z.to_int n).

End Py.

(** ** Exceptions and results *)

(** Python separates [Exception] and its subclasses, which [except Exception]
    catches, from the other [BaseException]s (KeyboardInterrupt, SystemExit,
    asyncio.CancelledError), which only a bare [except:] catches. *)
Inductive exn_class := Exception | BaseOnly.

Record exn := Exn { exn_cls : exn_class; exn_msg : string }.

Definition is_exception (e : exn) : bool :=
  match exn_cls e with Exception => true | BaseOnly => false end.

Inductive res (A : Type) :=
| Ret (a : A)
| Raise (e : exn).
Arguments Ret {A} a.
Arguments Raise {A} e.

Definition ValueError (msg : string) : exn := Exn Exception msg.

(** ** urllib.parse: the [netloc] of [urlparse(url)] *)

Module Url.

(** Characters allowed in a scheme: letters, digits, [+], [-] and [.]. *)
Definition scheme_char (c : ascii) : bool :=
  Py.isalpha c || Py.isdigit c || Py.mem c "+-.".

Fixpoint all_chars (p : ascii -> bool) (s : string) : bool :=
  match s with
  | EmptyString => true
  | String a s' => p a && all_chars p s'
  end.

(** C0 controls and the space, stripped from the front of the URL. *)
Definition c0_or_space (c : ascii) : bool := (Py.code c <=? 32)%N.

(** The URL with its scheme removed, when it has one: [url.find(':')] is
    positive, the first character is an ASCII letter, and everything
    before the colon is a scheme character. *)
Definition drop_scheme (url : string) : string :=
  match Py.break (Ascii.eqb ":") url with
  | (String a pre, String _ rest) =>
      if Py.isalpha a && all_chars scheme_char (String a pre) then rest else url
  | _ => url
  end.

Definition is_delim (c : ascii) : bool := Py.mem c "/?#".

(** [_splitnetloc(url, 2)[0]]: from index 2 to the first of [/], [?], [#]. *)
Definition splitnetloc (url : string) : string :=
  fst (Py.break is_delim (Py.drop 2 url)).

(** [urlsplit(url).netloc]; raises [ValueError] on an unbalanced bracket.
    (What recent interpreters check in addition, the address inside a pair
    of brackets and the normal form of a non-ASCII host, is not part of
    this model.) *)
Definition netloc (url : string) : res string :=
  let url := Py.lstrip_by c0_or_space url in
  let url := Py.remove "013" (Py.remove "010" (Py.remove "009" url)) in
  let url := drop_scheme url in
  if Py.startswith "//" url then
    let n := splitnetloc url in
    if xorb (Py.mem "[" n) (Py.mem "]" n)
    then Raise (ValueError "Invalid IPv6 URL")
    else Ret n
  else Ret "".

End Url.

(** ** Paths (pathlib on POSIX)

    A path is its list of components, relative to the working directory;
    an absolute path starts with the root component.  Components are
    compared literally: the model has no symbolic links and gives [..] no
    meaning. *)

Abbreviation path := (list string).

Module PyPath.

Fixpoint split_all (fuel : nat) (s : string) : list string :=
  match fuel with
  | O => [s]
  | S n =>
      match Py.break (Ascii.eqb "/") s with
      | (l, String _ r) => l :: split_all n r
      | (l, EmptyString) => [l]
      end
  end.

Definition plain (c : string) : bool :=
  negb (String.eqb c "") && negb (String.eqb c ".").

(** The components of the text [s] after any root: empty components and
    single dots disappear. *)
Definition components (s : string) : path :=
  List.filter plain (split_all (String.length s) s).

Definition root (s : string) : path :=
  if Py.startswith "//" s && negb (Py.startswith "///" s) then ["//"]
  else if Py.startswith "/" s then ["/"]
  else [].

(** [Path(s)] *)
Definition Path (s : string) : path := root s ++ components s.

(** [base / s] *)
Definition joinpath (base : path) (s : string) : path :=
  if Py.startswith "/" s then Path s else base ++ components s.

Definition is_root (c : string) : bool := Py.startswith "/" c.

(** [p.name] *)
Definition name (p : path) : string :=
  let c := List.last p "" in
  if is_root c then "" else c.

(** [p.parent] *)
Definition parent (p : path) : path :=
  match p with
  | [c] => if is_root c then p else []
  | _ => removelast p
  end.

(** Index-free form of [name.rfind(".")]: the text from the last dot on. *)
Fixpoint from_last_dot (s : string) : option string :=
  match s with
  | EmptyString => None
  | String a s' =>
      match from_last_dot s' with
      | Some r => Some r
      | None => if Ascii.eqb a "." then Some s else None
      end
  end.

(** [p.suffix]: the last dot of the name and what follows, unless the
    name starts with its only dot or ends with a dot. *)
Definition suffix (p : path) : string :=
  let n := name p in
  match from_last_dot n with
  | Some r =>
      if String.eqb r n || String.eqb r "." then "" else r
  | None => ""
  end.

End PyPath.

Infix "//" := PyPath.joinpath (at level 40, left associativity).

(** ** Transient storage *)

(** What a regular file holds: raw bytes, or a zip archive described by its
    members (name inside the archive, and the data of the member, [None]
    for a folder). *)
#[local] Unset Elimination Schemes.
Inductive fdata :=
| Bytes (b : string)
| Zip (members : list (path * option fdata)).
#[local] Set Elimination Schemes.

Inductive node :=
| Dir
| File (d : fdata).

Abbreviation storage := (gmap path node).

Module FS.

(** The working directory always exists. *)
Definition node_at (fs : storage) (p : path) : option node :=
  match p with
  | [] => Some Dir
  | _ => fs !! p
  end.

Definition is_dir (fs : storage) (p : path) : bool :=
  match node_at fs p with Some Dir => true | _ => false end.

Definition is_file (fs : storage) (p : path) : bool :=
  match node_at fs p with Some (File _) => true | _ => false end.

Definition exists_ (fs : storage) (p : path) : bool :=
  match node_at fs p with Some _ => true | None => false end.

(** The entries strictly below [d]. *)
Definition below (d : path) (fs : storage) : storage :=
  filter (fun kv => d `prefix_of` kv.1 ∧ kv.1 ≠ d) fs.

(** The entries at or below [d]. *)
Definition subtree (d : path) (fs : storage) : storage :=
  filter (fun kv => d `prefix_of` kv.1) fs.

Definition outside (d : path) (fs : storage) : storage :=
  filter (fun kv => ¬ d `prefix_of` kv.1) fs.

(** The entries directly inside [d]. *)
Definition children (d : path) (fs : storage) : storage :=
  filter (fun kv => kv.1 ≠ [] ∧ removelast kv.1 = d) fs.

Definition rebase (src dst : path) (kv : path * node) : path * node :=
  (dst ++ drop (length src) kv.1, kv.2).

Definition move_tree (src dst : path) (fs : storage) : storage :=
  list_to_map (rebase src dst <$> map_to_list (subtree src fs)) ∪ outside src fs.

Definition remove_tree (d : path) (fs : storage) : storage := outside d fs.

End FS.

(** ** Collaborators *)

(** A track descriptor as returned by [spotdl_client.search]. *)
Record Song := { artist : string; title : string }.

(** The options handed to [yt_dlp.YoutubeDL]. *)
Record postprocessor :=
  { key : string; preferredcodec : string; preferredquality : string }.

Record ydl_opts := {
  outtmpl : string;
  quiet : bool;
  no_warnings : bool;
  format : option string;
  postprocessors : list postprocessor
}.

(** An element of a parsed page: its name and its [src] attribute. *)
Record tag := { tag_name : string; src : option string }.

(** Telegram updates.  At most one optional field of an update is present:
    a text update carries [message]; a button press carries
    [callback_query] (the user who pressed, the payload of the button and
    the message the buttons were attached to) and has no [message]. *)
Record Message := { msg_chat : Z; msg_text : string }.
Record CallbackQuery := { cq_from : Z; cq_data : string; cq_message : option Message }.
Record Update := { message : option Message; callback_query : option CallbackQuery }.

Definition text_update (chat : Z) (text : string) : Update :=
  {| message := Some {| msg_chat := chat; msg_text := text |}; callback_query := None |}.

Definition button_update (chat : Z) (data : string) : Update :=
  {| message := None;
     callback_query :=
       Some {| cq_from := chat; cq_data := data;
               cq_message := Some {| msg_chat := chat; msg_text := "YouTube detected → choose format:" |} |} |}.

(** What the bot hands to the transport. *)
Inductive msg :=
| Text (t : string)
| Keyboard (t : string) (rows : list (list (string * string)))
| Photo (d : fdata)
| Video (d : fdata)
| Audio (d : fdata)
| Document (f : path) (d : option node) (caption : string)
| EditText (t : string)
| DeleteMessage
| Answer.

(** Observable history: every call of a collaborator, in order. *)
Inductive event :=
| Sent (chat : Z) (m : msg) (delivered : bool)
| Search (url : string)
| Download (s : Song)
| HttpGet (url : string)
| Extract (o : ydl_opts) (url : string)
| Spawn (url : string)
| Log (t : string).

(** What a downloading collaborator does: the files it leaves on the
    storage, and what it returns or raises. *)
Record outcome (A : Type) := { writes : list (path * string); result : res A }.
Arguments writes {A} _.
Arguments result {A} _.

Record Env := {
  (** [hash(s)] for a string, fixed for the life of the process *)
  hash : string -> Z;
  (** the chat transport: [None] delivers, [Some e] raises [e] *)
  transport : Z -> msg -> option exn;
  (** [spotdl_client.search([url])] *)
  search : string -> res (list Song);
  (** [spotdl_client.download_song(song)]: the returned [result[0]], with
      [None] standing for a falsy [result] or a falsy [result[0]] *)
  download_song : Song -> outcome (option string);
  (** the size in bytes of the deflated archive of the given members *)
  zip_size : list (path * option fdata) -> Z;
  (** [requests.get(url, ...)]: the body of the response *)
  http_get : string -> res string;
  (** [BeautifulSoup(text, "html.parser")]: the elements in document order *)
  html_parser : string -> res (list tag);
  (** [ydl.extract_info(url, download=True)] followed by
      [ydl.prepare_filename(info)] *)
  extract_info : ydl_opts -> string -> outcome string
}.

(** ** The world and the monad of effects *)

Record World := { fs : storage; trace : list event }.

Definition M (A : Type) : Type := World -> res A * World.

Definition ret {A} (a : A) : M A := fun w => (Ret a, w).

Definition raise {A} (e : exn) : M A := fun w => (Raise e, w).

Definition bind {A B} (m : M A) (k : A -> M B) : M B :=
  fun w => match m w with
           | (Ret a, w') => k a w'
           | (Raise e, w') => (Raise e, w')
           end.

Notation "'let!' x ':=' m 'in' k" := (bind m (fun x => k))
  (at level 10, x name, m at level 100, k at level 200).
Notation "m >> k" := (bind m (fun _ => k))
  (at level 100, k at level 200, right associativity).

(** [try: body / except Exception as e: handler(e)] *)
Definition try_except {A} (body : M A) (handler : exn -> M A) : M A :=
  fun w => match body w with
           | (Raise e, w') => if is_exception e then handler e w' else (Raise e, w')
           | r => r
           end.

(** [try: body / except: pass] *)
Definition try_pass (body : M unit) : M unit :=
  fun w => match body w with
           | (Raise _, w') => (Ret tt, w')
           | r => r
           end.

(** [try: body / finally: final] *)
Definition try_finally {A} (body : M A) (final : M unit) : M A :=
  fun w => match body w with
           | (r, w') =>
               match final w' with
               | (Ret _, w'') => (r, w'')
               | (Raise e, w'') => (Raise e, w'')
               end
           end.

(** [for x in xs: body(x)] *)
Fixpoint for_each {A} (xs : list A) (body : A -> M unit) : M unit :=
  match xs with
  | [] => ret tt
  | x :: xs' => body x >> for_each xs' body
  end.

Definition emit (e : event) : M unit :=
  fun w => (Ret tt, {| fs := fs w; trace := trace w ++ [e] |}).

Definition get_fs : M storage := fun w => (Ret (fs w), w).

Definition put_fs (s : storage) : M unit :=
  fun w => (Ret tt, {| fs := s; trace := trace w |}).

Definition lift {A} (r : res A) : M A := fun w => (r, w).

Definition OSError (what : string) (p : path) : exn :=
  Exn Exception (what +:+ ": " +:+ String.concat "/" p).

Definition AttributeError (attr : string) : exn :=
  Exn Exception ("'NoneType' object has no attribute '" +:+ attr +:+ "'").

(** ** Storage operations (os, pathlib, shutil) *)

Module Os.

(** [p.exists()] *)
Definition exists_ (p : path) : M bool :=
  let! s := get_fs in ret (FS.exists_ s p).

(** [p.mkdir(exist_ok=True)] *)
Definition mkdir_exist_ok (p : path) : M unit :=
  let! s := get_fs in
  match FS.node_at s p with
  | Some Dir => ret tt
  | Some (File _) => raise (OSError "FileExistsError" p)
  | None =>
      if FS.is_dir s (PyPath.parent p) then put_fs (<[p := Dir]> s)
      else raise (OSError "FileNotFoundError" p)
  end.

(** [src.rename(dst)] *)
Definition rename (src dst : path) : M unit :=
  let! s := get_fs in
  match FS.node_at s src with
  | None => raise (OSError "FileNotFoundError" src)
  | Some n =>
      if bool_decide (src = dst) then ret tt
      else if bool_decide (src = []) then raise (OSError "OSError" src)
      else if negb (FS.is_dir s (PyPath.parent dst)) then
        raise (OSError "FileNotFoundError" dst)
      else
        match n, FS.node_at s dst with
        | File _, Some Dir => raise (OSError "IsADirectoryError" dst)
        | File _, _ => put_fs (<[dst := n]> (delete src s))
        | Dir, Some (File _) => raise (OSError "NotADirectoryError" dst)
        | Dir, Some Dir =>
            if bool_decide (FS.below dst s = ∅) && negb (bool_decide (src `prefix_of` dst))
            then put_fs (FS.move_tree src dst s)
            else raise (OSError "OSError" dst)
        | Dir, None =>
            if bool_decide (src `prefix_of` dst) then raise (OSError "OSError" dst)
            else put_fs (FS.move_tree src dst s)
        end
  end.

(** [any(p.iterdir())] *)
Definition any_iterdir (p : path) : M bool :=
  let! s := get_fs in
  if FS.is_dir s p then ret (negb (bool_decide (FS.children p s = ∅)))
  else raise (OSError "NotADirectoryError" p).

(** [p.rglob("*")]: everything below [p], folders included *)
Definition rglob_all (p : path) : M (list (path * node)) :=
  let! s := get_fs in
  ret (if FS.is_dir s p then map_to_list (FS.below p s) else []).

(** [shutil.rmtree(p, ignore_errors=True)] *)
Definition rmtree_ignore_errors (p : path) : M unit :=
  let! s := get_fs in
  if FS.is_dir s p then put_fs (FS.remove_tree p s) else ret tt.

(** [p.unlink(missing_ok=True)] *)
Definition unlink_missing_ok (p : path) : M unit :=
  let! s := get_fs in
  match FS.node_at s p with
  | None => ret tt
  | Some (File _) => put_fs (delete p s)
  | Some Dir => raise (OSError "IsADirectoryError" p)
  end.

(** [open(p, "wb")]: the file exists and is empty afterwards *)
Definition open_wb (p : path) : M unit :=
  let! s := get_fs in
  if FS.is_dir s p then raise (OSError "IsADirectoryError" p)
  else if FS.is_dir s (PyPath.parent p) then put_fs (<[p := File (Bytes "")]> s)
  else raise (OSError "FileNotFoundError" p).

(** [f.write(b)] on the file opened at [p] *)
Definition write (p : path) (b : string) : M unit :=
  let! s := get_fs in put_fs (<[p := File (Bytes b)]> s).

(** [p.open("rb")], giving what the reader will see *)
Definition open_rb (p : path) : M fdata :=
  let! s := get_fs in
  match FS.node_at s p with
  | Some (File d) => ret d
  | Some Dir => raise (OSError "IsADirectoryError" p)
  | None => raise (OSError "FileNotFoundError" p)
  end.

(** The files a collaborator leaves behind. *)
Definition save_all (ws : list (path * string)) : M unit :=
  for_each ws (fun pb => write pb.1 pb.2).

Definition member_of (base : path) (kv : path * node) : path * option fdata :=
  (drop (length base) kv.1, match kv.2 with Dir => None | File d => Some d end).

(** [with zipfile.ZipFile(zip_path, "w", ZIP_DEFLATED) as zf:
       for file in temp_dir.rglob("*"): zf.write(file, file.relative_to(temp_dir))] *)
Definition zip_tree (zip_path temp_dir : path) : M unit :=
  let! s := get_fs in
  if FS.is_dir s zip_path then raise (OSError "IsADirectoryError" zip_path)
  else if negb (FS.is_dir s (PyPath.parent zip_path)) then
    raise (OSError "FileNotFoundError" zip_path)
  else
    put_fs (<[zip_path := File (Zip [])]> s) >>
    let! files := rglob_all temp_dir in
    let! s' := get_fs in
    put_fs (<[zip_path := File (Zip (map (member_of temp_dir) files))]> s').

End Os.

(** ** Helpers of main.py *)

Definition DOWNLOAD_DIR : path := PyPath.Path "downloads".

(** [str(p)] for a relative path *)
Definition str_of_path (p : path) : string := String.concat "/" p.

Definition is_spotify_url (url : string) : res bool :=
  match Url.netloc url with
  | Ret netloc => Ret (Py.contains "spotify.com" netloc)
  | Raise e => Raise e
  end.

Definition is_pinterest_url (url : string) : res bool :=
  match Url.netloc url with
  | Ret netloc =>
      let domain := Py.lower netloc in
      Ret (Py.contains "pinterest." domain || Py.contains "pin.it" domain)
  | Raise e => Raise e
  end.

Definition is_youtube_url (url : string) : res bool :=
  match Url.netloc url with
  | Ret netloc =>
      let domain := Py.lower netloc in
      Ret (Py.contains "youtube.com" domain || Py.contains "youtu.be" domain)
  | Raise e => Raise e
  end.

(** The branch of [handle_message] a text is dispatched to. *)
Inductive Platform := PlatformA | PlatformB | PlatformC | Unsupported.

Definition has_scheme (text : string) : bool :=
  Py.startswith "http://" text || Py.startswith "https://" text.

Definition classify (text : string) : res Platform :=
  if negb (has_scheme text) then Ret Unsupported
  else
    match is_spotify_url text with
    | Raise e => Raise e
    | Ret true => Ret PlatformA
    | Ret false =>
        match is_pinterest_url text with
        | Raise e => Raise e
        | Ret true => Ret PlatformB
        | Ret false =>
            match is_youtube_url text with
            | Raise e => Raise e
            | Ret true => Ret PlatformC
            | Ret false => Ret Unsupported
            end
        end
    end.

(** *** The size gate: megabytes and their one-decimal rendering

    [st_size / (1024 * 1024)] is a binary64 quotient of an integer by a
    power of two, hence exact for every size below 2^53 bytes; it is
    modelled as the rational it denotes.  [f"{x:.1f}"] prints the decimal
    with one fractional digit nearest to that value, ties to the even
    digit. *)

Definition file_size_mb (st_size : Z) : Q := st_size # 1048576.

Definition below_ceiling (mb : Q) : bool :=
  match (mb ?= 48)%Q with Lt => true | _ => false end.

(** The integer nearest to [n / d], ties to even, for [d > 0]. *)
Definition round_half_even (n d : Z) : Z :=
  let q := n / d in
  let r := n mod d in
  if 2 * r <? d then q
  else if d <? 2 * r then q + 1
  else if Z.even q then q else q + 1.

(** The tenths printed by [f"{mb:.1f}"]. *)
Definition tenths (mb : Q) : Z := round_half_even (10 * Qnum mb) (Zpos (Qden mb)).

Definition format_1f (mb : Q) : string :=
  let t := tenths mb in
  (if t <? 0 then "-" else "") +:+
  Py.str_of_int (Z.abs t / 10) +:+ "." +:+ Py.str_of_int (Z.abs t mod 10).

Definition newline : string := String "010" "".

(** ** The pipelines *)

Section Bot.

Variable env : Env.

(** *** Calls to the collaborators *)

Definition send (chat : Z) (m : msg) : M unit :=
  match transport env chat m with
  | None => emit (Sent chat m true)
  | Some e => emit (Sent chat m false) >> raise e
  end.

(** [update.message.<method>(...)] *)
Definition reply (method : string) (update : Update) (m : msg) : M unit :=
  match message update with
  | Some origin => send (msg_chat origin) m
  | None => raise (AttributeError method)
  end.

Definition reply_text (update : Update) (t : string) : M unit :=
  reply "reply_text" update (Text t).

(** [query.message.<method>(...)] *)
Definition query_reply (method : string) (query : CallbackQuery) (m : msg) : M unit :=
  match cq_message query with
  | Some origin => send (msg_chat origin) m
  | None => raise (AttributeError method)
  end.

(** [query.message.<method>(arg)]: the method is looked up on the message
    before the argument is evaluated. *)
Definition query_reply_with (method : string) (query : CallbackQuery) (arg : M msg)
  : M unit :=
  match cq_message query with
  | Some origin => let! m := arg in send (msg_chat origin) m
  | None => raise (AttributeError method)
  end.

(** [update.effective_chat] *)
Definition effective_chat (update : Update) : option Z :=
  match message update with
  | Some m => Some (msg_chat m)
  | None =>
      match callback_query update with
      | Some q => msg_chat <$> cq_message q
      | None => None
      end
  end.

Definition call_search (url : string) : M (list Song) :=
  emit (Search url) >> lift (search env url).

Definition call_download_song (song : Song) : M (option string) :=
  emit (Download song) >>
  let o := download_song env song in
  Os.save_all (writes o) >> lift (result o).

Definition requests_get (url : string) : M string :=
  emit (HttpGet url) >> lift (http_get env url).

Definition call_extract (o : ydl_opts) (url : string) : M string :=
  emit (Extract o url) >>
  let r := extract_info env o url in
  Os.save_all (writes r) >> lift (result r).

(** [p.stat().st_size]; for a folder the file system decides, and nothing
    below depends on the value. *)
Definition st_size (p : path) : M Z :=
  let! s := get_fs in
  match FS.node_at s p with
  | Some (File (Bytes b)) => ret (Z.of_nat (String.length b))
  | Some (File (Zip members)) => ret (zip_size env members)
  | Some Dir => ret 4096
  | None => raise (OSError "FileNotFoundError" p)
  end.

(** *** download_youtube *)

Definition ydl_opts_of (format_type : string) : ydl_opts :=
  {| outtmpl := str_of_path (DOWNLOAD_DIR // "%(title)s.%(ext)s");
     quiet := true; no_warnings := true;
     format :=
       Some (if String.eqb format_type "mp3" then "bestaudio/best"
             else "bestvideo[ext=mp4]+bestaudio[ext=m4a]/best[ext=mp4]/best");
     postprocessors :=
       if String.eqb format_type "mp3" then
         [ {| key := "FFmpegExtractAudio"; preferredcodec := "mp3";
              preferredquality := "192" |} ]
       else [] |}.

Definition download_youtube (url format_type : string) (update : Update)
  : M (option path) :=
  let ydl_opts := ydl_opts_of format_type in
  try_except
    (let! filename := call_extract ydl_opts url in
     let filename :=
       if String.eqb format_type "mp3"
       then Py.rsplit1_head "." filename +:+ ".mp3"
       else filename in
     ret (Some (PyPath.Path filename)))
    (fun e =>
       reply_text update ("YouTube download failed: " +:+ Py.take 200 (exn_msg e)) >>
       ret None).

(** *** download_pinterest *)

Definition img_src_ok (s : option string) : bool :=
  match s with
  | Some s =>
      negb (String.eqb s "") &&
      (Py.contains ".jpg" s || Py.contains ".png" s || Py.contains "pinimg.com" s)
  | None => false
  end.

(** [soup.find(name, {"src": ok})] *)
Definition soup_find (soup : list tag) (name : string) (ok : option string -> bool)
  : option tag :=
  List.find (fun t => String.eqb (tag_name t) name && ok (src t)) soup.

Definition absolute (u : string) : string :=
  if Py.startswith "http" u then u else "https:" +:+ u.

Definition pin_file (url ext : string) : path :=
  DOWNLOAD_DIR // ("pin_" +:+ Py.str_of_int (hash env url) +:+ ext).

Definition fetch_to (fname : path) (u : string) : M unit :=
  Os.open_wb fname >>
  let! content := requests_get u in
  Os.write fname content.

Definition download_pinterest (url : string) : M (option (list path)) :=
  try_except
    (let! r := requests_get url in
     let! soup := lift (html_parser env r) in
     let! image :=
       match soup_find soup "img" img_src_ok with
       | Some img_tag =>
           match src img_tag with
           | Some s =>
               if String.eqb s "" then ret []
               else
                 let img_url := absolute s in
                 let fname := pin_file url ".jpg" in
                 fetch_to fname img_url >> ret [fname]
           | None => ret []
           end
       | None => ret []
       end in
     let! video :=
       match soup_find soup "video" (fun s => bool_decide (is_Some s)) with
       | Some video_tag =>
           match src video_tag with
           | Some s =>
               let vid_url := absolute s in
               let fname := pin_file url ".mp4" in
               fetch_to fname vid_url >> ret [fname]
           | None => raise (Exn Exception "'src'")
           end
       | None => ret []
       end in
     let media := image ++ video in
     ret (match media with [] => None | _ => Some media end))
    (fun e => emit (Log ("Pinterest error: " +:+ exn_msg e)) >> ret None).

(** *** process_spotify *)

Definition temp_dir_of (url : string) : path :=
  DOWNLOAD_DIR // ("temp_" +:+ Py.str_of_int (hash env url)).

Definition batch_name (songs : list Song) : string :=
  match songs with
  | [song] => artist song
  | _ => "Playlist"
  end.

Definition zip_path_of (name : string) : path :=
  DOWNLOAD_DIR // (Py.replace " " "_" name +:+ ".zip").

(** [f"{len(songs)}"] *)
Definition fmt_len (songs : list Song) : string :=
  Py.str_of_int (Z.of_nat (length songs)).

(** One turn of the loop over [songs]. *)
Definition download_one (temp_dir : path) (song : Song) : M unit :=
  try_pass
    (let! result := call_download_song song in
     match result with
     | Some r =>
         if String.eqb r "" then ret tt
         else
           let song_file := PyPath.Path r in
           let! there := Os.exists_ song_file in
           if there then Os.rename song_file (temp_dir // PyPath.name song_file)
           else ret tt
     | None => ret tt
     end).

Definition too_big_text (mb : Q) : string :=
  "ZIP is too big (" +:+ format_1f mb +:+ " MB). Telegram limit is ~50 MB." +:+
  newline +:+ "Try a smaller playlist or ask for individual songs.".

Definition caption_of (name : string) (songs : list Song) : string :=
  "Spotify download: " +:+ name +:+ " (" +:+ fmt_len songs +:+ " tracks)".

Definition reply_document (update : Update) (zip_path : path) (caption : string)
  : M unit :=
  let! s := get_fs in
  reply "reply_document" update (Document zip_path (FS.node_at s zip_path) caption).

(** The size gate: send the archive, or report its size. *)
Definition send_or_report (update : Update) (name : string) (songs : list Song)
    (zip_path : path) : M unit :=
  let! size := st_size zip_path in
  let mb := file_size_mb size in
  if below_ceiling mb
  then reply_document update zip_path (caption_of name songs)
  else reply_text update (too_big_text mb).

Definition cleanup (temp_dir zip_path : path) : M unit :=
  Os.rmtree_ignore_errors temp_dir >>
  Os.unlink_missing_ok zip_path.

Definition process_spotify (url : string) (update : Update) : M unit :=
  match effective_chat update with
  | None => raise (AttributeError "id")
  | Some chat_id =>
    try_except
      (let! songs := call_search url in
       match songs with
       | [] => reply_text update "No tracks found on Spotify."
       | _ =>
         let name := batch_name songs in
         reply_text update ("Found " +:+ fmt_len songs +:+ " track(s). Downloading...") >>
         let temp_dir := temp_dir_of url in
         Os.mkdir_exist_ok temp_dir >>
         let zip_path := zip_path_of name in
         for_each songs (download_one temp_dir) >>
         let! saved := Os.any_iterdir temp_dir in
         if negb saved then
           reply_text update "Download failed — no files saved." >>
           Os.rmtree_ignore_errors temp_dir
         else
           Os.zip_tree zip_path temp_dir >>
           send_or_report update name songs zip_path >>
           cleanup temp_dir zip_path
       end)
      (fun e => reply_text update ("Spotify error: " +:+ Py.take 300 (exn_msg e)))
  end.

(** *** Handlers *)

Definition start (update : Update) : M unit :=
  reply_text update
    ("Send me a link:" +:+ newline +:+
     "• Spotify playlist/album/track → ZIP of songs" +:+ newline +:+
     "• Pinterest pin → image or video" +:+ newline +:+
     "• YouTube link → choose MP3 or MP4").

Definition send_file (update : Update) (f : path) : M unit :=
  if String.eqb (Py.lower (PyPath.suffix f)) ".mp4" then
    let! d := Os.open_rb f in reply "reply_video" update (Video d)
  else
    let! d := Os.open_rb f in reply "reply_photo" update (Photo d).

Definition keyboard (url : string) : list (list (string * string)) :=
  [ [ ("🎵 MP3 (audio)", "yt|mp3|" +:+ url);
      ("🎥 MP4 (video)", "yt|mp4|" +:+ url) ] ].

(** [asyncio.create_task(process_spotify(url, update))] is recorded as
    [Spawn url]: the task is [process_spotify], run on its own. *)
Definition handle_message (update : Update) : M unit :=
  match message update with
  | None => raise (AttributeError "text")
  | Some m =>
    let text := Py.strip (msg_text m) in
    if negb (has_scheme text) then ret tt
    else
      let url := text in
      let! spotify := lift (is_spotify_url url) in
      if spotify then
        reply_text update "Spotify detected → starting download..." >>
        emit (Spawn url)
      else
        let! pinterest := lift (is_pinterest_url url) in
        if pinterest then
          reply_text update "Pinterest detected → fetching media..." >>
          let! files := download_pinterest url in
          match files with
          | Some (f :: fs') =>
              for_each (f :: fs') (send_file update) >>
              for_each (f :: fs') Os.unlink_missing_ok
          | _ =>
              reply_text update "Could not download Pinterest media (page changed?)."
          end
        else
          let! youtube := lift (is_youtube_url url) in
          if youtube then
            reply "reply_text" update (Keyboard "YouTube detected → choose format:" (keyboard url))
          else
            reply_text update "Only Spotify, Pinterest, YouTube links supported."
  end.

Definition button_callback (update : Update) : M unit :=
  match callback_query update with
  | None => raise (AttributeError "answer")
  | Some query =>
    send (cq_from query) Answer >>
    let data := cq_data query in
    if negb (Py.startswith "yt|" data) then ret tt
    else
      match Py.split "|" 2 data with
      | [_; fmt; url] =>
          send (cq_from query)
               (EditText ("Downloading as " +:+ Py.upper fmt +:+ "...")) >>
          let! file_path := download_youtube url fmt update in
          match file_path with
          | Some file_path =>
              try_finally
                (if String.eqb fmt "mp3" then
                   query_reply_with "reply_audio" query
                     (let! d := Os.open_rb file_path in ret (Audio d))
                 else
                   query_reply_with "reply_video" query
                     (let! d := Os.open_rb file_path in ret (Video d)))
                (Os.unlink_missing_ok file_path)
          | None => ret tt
          end >>
          query_reply "delete" query DeleteMessage
      | parts =>
          raise (ValueError
                   (if (length parts <? 3)%nat
                    then "not enough values to unpack (expected 3, got " +:+
                         Py.str_of_int (Z.of_nat (length parts)) +:+ ")"
                    else "too many values to unpack (expected 3)"))
      end
  end.

End Bot.

(** ** Vocabulary of the statements *)

(** The number of text replies in a history. *)
Definition text_replies (tr : list event) : nat :=
  length (List.filter (fun e => match e with Sent _ (Text _) _ => true | _ => false end) tr).

(** The world extended by one event. *)
Definition logged (w : World) (e : event) : World :=
  {| fs := fs w; trace := trace w ++ [e] |}.

(** Whether the transport accepts a message. *)
Definition delivered (env : Env) (chat : Z) (m : msg) : bool :=
  bool_decide (transport env chat m = None).

(** A plain file name: a non-empty text without slash that is not a single
    dot. *)
Definition file_name (c : string) : bool :=
  negb (Py.mem "/" c) && negb (String.eqb c "") && negb (String.eqb c ".").

(** The download of a track succeeds cleanly when the collaborator leaves
    one file, under a plain name in the working directory, and returns that
    name; [saved_as] gives the name and the bytes. *)
Definition saved_as (env : Env) (song : Song) : option (string * string) :=
  match download_song env song with
  | {| writes := [([c], b)]; result := Ret (Some c') |} =>
      if String.eqb c c' && file_name c && negb (String.eqb c "downloads")
      then Some (c, b) else None
  | _ => None
  end.

(** The download of a track fails cleanly when the collaborator raises or
    returns nothing, and leaves no file. *)
Definition fails_cleanly (env : Env) (song : Song) : bool :=
  match download_song env song with
  | {| writes := []; result := Raise _ |} => true
  | {| writes := []; result := Ret None |} => true
  | _ => false
  end.

(** The tracks of a batch that are saved, in order: name and bytes. *)
Definition saved_tracks (env : Env) (songs : list Song) : list (string * string) :=
  omap (saved_as env) songs.

(** The entry a saved track becomes in the workspace. *)
Definition moved_to (temp_dir : path) (cb : string * string) : path * node :=
  (temp_dir ++ [cb.1], File (Bytes cb.2)).

(** *** Auxiliary notions of the proofs *)

(** A computation that calls no collaborator adds nothing to the history. *)
Definition silent {A} (m : M A) : Prop := forall w, trace (m w).2 = trace w.

(** A character map [f] respects a test [p] when [p] cannot tell [c] from
    [f c]. *)
Definition respects (f : ascii -> ascii) (p : ascii -> bool) : Prop :=
  forall c, p (f c) = p c.

(** The characters of [str] of an integer. *)
Definition sign_or_digit (c : ascii) : bool := Py.isdigit c || Ascii.eqb c "-".

(** The characters of a file name built by the program from a fixed prefix,
    a number and a fixed extension. *)
Definition name_char (c : ascii) : bool :=
  sign_or_digit c || Py.islower c || Ascii.eqb c "_" || Ascii.eqb c "." || Py.isdigit c.

(** The world with its storage replaced. *)
Definition with_fs (w : World) (s : storage) : World := {| fs := s; trace := trace w |}.

(** The entries of the workspace after the given tracks were moved in. *)
Definition moved_in (d : path) (saved : list (string * string)) (m : storage) : storage :=
  foldl (fun m cb => <[(moved_to d cb).1 := (moved_to d cb).2]> m) m saved.

(** A part of the storage without folders. *)
Definition only_files (m : storage) : Prop := map_Forall (fun _ n => n <> Dir) m.

(** The characters of the name of a workspace. *)
Definition temp_char (c : ascii) : bool := sign_or_digit c || Py.mem c "temp_".

(** A character that can stand in the host part of a URL without ending
    it, being dropped from it or making the parser raise: an ASCII
    character (a host of ASCII characters passes [urlsplit]'s check of the
    normalised host untouched) that is no [/], [?], [#], no bracket, no
    TAB, LF or CR. *)
Definition host_char (c : ascii) : bool :=
  (Py.code c <? 128)%N &&
  negb (Url.is_delim c) && negb (Py.mem c "[]") &&
  negb (Ascii.eqb c "009") && negb (Ascii.eqb c "010") && negb (Ascii.eqb c "013").

(** The same with brackets allowed. *)
Definition authority_char (c : ascii) : bool :=
  negb (Url.is_delim c) &&
  negb (Ascii.eqb c "009") && negb (Ascii.eqb c "010") && negb (Ascii.eqb c "013").

(** What may follow the host: nothing, or a path, query or fragment. *)
Definition after_host (rest : string) : bool :=
  match rest with
  | EmptyString => true
  | String c _ => Url.is_delim c
  end.

(** A URL put together from its parts. *)
Definition url_of (scheme host rest : string) : string :=
  scheme +:+ "://" +:+ host +:+ rest.

(** The first tag of a page that [soup.find("img", ...)] accepts, and
    that no [video] tag carries a [src]. *)
Definition main_image (soup : list tag) (s : string) : Prop :=
  exists t, soup_find soup "img" img_src_ok = Some t /\ src t = Some s.

Definition no_video (soup : list tag) : Prop :=
  soup_find soup "video" (fun s => bool_decide (is_Some s)) = None.

Definition main_video (soup : list tag) (v : string) : Prop :=
  exists t, soup_find soup "video" (fun s => bool_decide (is_Some s)) = Some t /\
            src t = Some v.

Definition no_image (soup : list tag) : Prop :=
  soup_find soup "img" img_src_ok = None.

(** *** Scenarios *)

(** Collaborators that find nothing and fail quietly, and a transport that
    delivers everything. *)
Definition quiet_env : Env :=
  {| hash := fun _ => 42;
     transport := fun _ _ => None;
     search := fun _ => Ret [];
     download_song := fun _ => {| writes := []; result := Ret None |};
     zip_size := fun _ => 1000;
     http_get := fun _ => Ret "";
     html_parser := fun _ => Ret [];
     extract_info := fun _ _ =>
       {| writes := []; result := Raise (Exn Exception "Video unavailable") |} |}.

(** The storage right after start-up: only the download folder. *)
Definition fresh_world : World :=
  {| fs := {[ DOWNLOAD_DIR := Dir ]}; trace := [] |}.

(** A Pinterest page with one image on the CDN and no video. *)
Definition image_page_env : Env :=
  {| hash := hash quiet_env;
     transport := transport quiet_env;
     search := search quiet_env;
     download_song := download_song quiet_env;
     zip_size := zip_size quiet_env;
     http_get := fun u => Ret (if String.eqb u "https://pin.it/xyz" then "<html>" else "JPEG");
     html_parser := fun _ =>
       Ret [ {| tag_name := "div"; src := None |};
             {| tag_name := "img"; src := Some "//i.pinimg.com/736x/a.jpg" |} ];
     extract_info := extract_info quiet_env |}.

(** A video whose audio arrives in a WebM container, transcoded to MP3. *)
Definition webm_env : Env :=
  {| hash := hash quiet_env;
     transport := transport quiet_env;
     search := search quiet_env;
     download_song := download_song quiet_env;
     zip_size := zip_size quiet_env;
     http_get := http_get quiet_env;
     html_parser := html_parser quiet_env;
     extract_info := fun _ _ =>
       {| writes := [(["downloads"; "My.Song.mp3"], "ID3")];
          result := Ret "downloads/My.Song.webm" |} |}.

(** A one-track request whose download works, and a transport that times
    out on documents, audio and photos but delivers texts. *)
Definition one_track : Song := {| artist := "Some Artist"; title := "Song" |}.

Definition timeout_env : Env :=
  {| hash := hash quiet_env;
     transport := fun _ m =>
       match m with
       | Document _ _ _ | Audio _ | Photo _ => Some (Exn Exception "Timed out")
       | _ => None
       end;
     search := fun _ => Ret [one_track];
     download_song := fun _ =>
       {| writes := [(["Some Artist - Song.mp3"], "ID3")];
          result := Ret (Some "Some Artist - Song.mp3") |};
     zip_size := zip_size quiet_env;
     http_get := http_get image_page_env;
     html_parser := html_parser image_page_env;
     extract_info := extract_info webm_env |}.

(** A 60 MB archive waiting in the download folder. *)
Definition big_zip_env : Env :=
  {| hash := hash quiet_env;
     transport := transport quiet_env;
     search := search quiet_env;
     download_song := download_song quiet_env;
     zip_size := fun _ => 62914560;
     http_get := http_get quiet_env;
     html_parser := html_parser quiet_env;
     extract_info := extract_info quiet_env |}.

Definition big_zip_world : World :=
  {| fs := {[ DOWNLOAD_DIR := Dir; ["downloads"; "Playlist.zip"] := File (Zip []) ]};
     trace := [] |}.

(** One track whose archive measures 60 MB, and a transport that times out
    on the size report and delivers everything else. *)
Definition oversize_env : Env :=
  {| hash := hash quiet_env;
     transport := fun _ m =>
       match m with
       | Text t =>
           if Py.startswith "ZIP is too big" t then Some (Exn Exception "Timed out")
           else None
       | _ => None
       end;
     search := fun _ => Ret [one_track];
     download_song := fun _ =>
       {| writes := [(["Some Artist - Song.mp3"], "ID3")];
          result := Ret (Some "Some Artist - Song.mp3") |};
     zip_size := fun _ => 62914560;
     http_get := http_get quiet_env;
     html_parser := html_parser quiet_env;
     extract_info := extract_info quiet_env |}.

(** A playlist of three tracks of which the second cannot be found. *)
Definition track (n : string) : Song := {| artist := "Band"; title := n |}.

Definition three_tracks_env : Env :=
  {| hash := hash quiet_env;
     transport := transport quiet_env;
     search := fun _ => Ret [track "one"; track "two"; track "three"];
     download_song := fun s =>
       if String.eqb (title s) "two"
       then {| writes := []; result := Raise (Exn Exception "No results found") |}
       else {| writes := [(["Band - " +:+ title s +:+ ".mp3"], "ID3 " +:+ title s)];
               result := Ret (Some ("Band - " +:+ title s +:+ ".mp3")) |};
     zip_size := zip_size quiet_env;
     http_get := http_get quiet_env;
     html_parser := html_parser quiet_env;
     extract_info := extract_info quiet_env |}.

(** A playlist that lists one track twice. *)
Definition duplicate_env : Env :=
  {| hash := hash quiet_env;
     transport := transport quiet_env;
     search := fun _ => Ret [track "one"; track "one"];
     download_song := download_song three_tracks_env;
     zip_size := zip_size quiet_env;
     http_get := http_get quiet_env;
     html_parser := html_parser quiet_env;
     extract_info := extract_info quiet_env |}.

(** A playlist of which no track can be found, requested while the
    workspace of an earlier request for the same URL is still there. *)
Definition nothing_found_env : Env :=
  {| hash := hash quiet_env;
     transport := transport quiet_env;
     search := fun _ => Ret [track "two"; track "two"];
     download_song := download_song three_tracks_env;
     zip_size := zip_size quiet_env;
     http_get := http_get quiet_env;
     html_parser := html_parser quiet_env;
     extract_info := extract_info quiet_env |}.

Definition stale_world : World :=
  {| fs := {[ DOWNLOAD_DIR := Dir;
              ["downloads"; "temp_42"] := Dir;
              ["downloads"; "temp_42"; "Old - song.mp3"] := File (Bytes "ID3 old") ]};
     trace := [] |}.

(** The catalogue cannot be reached. *)
Definition offline_env : Env :=
  {| hash := hash quiet_env;
     transport := transport quiet_env;
     search := fun _ => Raise (Exn Exception "HTTPSConnectionPool: Max retries exceeded");
     download_song := download_song quiet_env;
     zip_size := zip_size quiet_env;
     http_get := fun _ => Raise (Exn Exception "Connection refused");
     html_parser := html_parser quiet_env;
     extract_info := extract_info quiet_env |}.

(** The page of a pin is served, its image is not. *)
Definition broken_image_env : Env :=
  {| hash := hash quiet_env;
     transport := transport quiet_env;
     search := search quiet_env;
     download_song := download_song quiet_env;
     zip_size := zip_size quiet_env;
     http_get := fun u =>
       if String.eqb u "https://pin.it/xyz" then Ret "<html>"
       else Raise (Exn Exception "Read timed out.");
     html_parser := html_parser image_page_env;
     extract_info := extract_info quiet_env |}.

(** The page of a pin with a picture and a clip. *)
Definition clip_page_env : Env :=
  {| hash := hash quiet_env;
     transport := transport quiet_env;
     search := search quiet_env;
     download_song := download_song quiet_env;
     zip_size := zip_size quiet_env;
     http_get := fun u =>
       Ret (if String.eqb u "https://pin.it/xyz" then "<html>"
            else if String.eqb u "https://v.pinimg.com/a.mp4" then "MP4" else "JPEG");
     html_parser := fun _ =>
       Ret [ {| tag_name := "video"; src := None |};
             {| tag_name := "img"; src := Some "//i.pinimg.com/736x/a.jpg" |};
             {| tag_name := "video"; src := Some "https://v.pinimg.com/a.mp4" |} ];
     extract_info := extract_info quiet_env |}.



(** A requester who has blocked the bot: no text reaches them. *)
Definition blocked_env : Env :=
  {| hash := hash quiet_env;
     transport := fun _ m =>
       match m with
       | Text _ => Some (Exn Exception "Forbidden: bot was blocked by the user")
       | _ => None
       end;
     search := fun _ => Ret [one_track];
     download_song := download_song timeout_env;
     zip_size := zip_size quiet_env;
     http_get := http_get quiet_env;
     html_parser := html_parser quiet_env;
     extract_info := extract_info quiet_env |}.

(** The page of a pin that is a clip only. *)
Definition clip_only_env : Env :=
  {| hash := hash quiet_env;
     transport := transport quiet_env;
     search := search quiet_env;
     download_song := download_song quiet_env;
     zip_size := zip_size quiet_env;
     http_get := fun u => Ret (if String.eqb u "https://pin.it/xyz" then "<html>" else "MP4");
     html_parser := fun _ =>
       Ret [ {| tag_name := "img"; src := Some "/static/logo.svg" |};
             {| tag_name := "video"; src := Some "//v.pinimg.com/a.mp4" |} ];
     extract_info := extract_info quiet_env |}.

(** * Properties *)

(** ** Strings *)

Lemma ascii_eqb_sym (a b : ascii) : Ascii.eqb a b = Ascii.eqb b a.
Proof.
  destruct (Ascii.eqb_spec a b) as [->|n]; [by rewrite Ascii.eqb_refl|].
  symmetry. apply Ascii.eqb_neq. congruence.
Qed.

Lemma startswith_app (p s : string) : Py.startswith p (p +:+ s) = true.
Proof. induction p as [|a p IH]; simpl; [done|]. by rewrite Ascii.eqb_refl. Qed.

(** Breaking at a separator that does not occur earlier. *)
Lemma break_at_sep (sep : ascii) (l r : string) :
  Py.mem sep l = false ->
  Py.break (Ascii.eqb sep) (l +:+ String sep r) = (l, String sep r).
Proof.
  induction l as [|a l IH]; simpl; intros H.
  - by rewrite Ascii.eqb_refl.
  - apply orb_false_iff in H as [Ha Hl].
    rewrite ascii_eqb_sym, Ha, (IH Hl). done.
Qed.

Lemma break_no_sep (sep : ascii) (l : string) :
  Py.mem sep l = false -> Py.break (Ascii.eqb sep) l = (l, "").
Proof.
  induction l as [|a l IH]; simpl; intros H; [done|].
  apply orb_false_iff in H as [Ha Hl].
  by rewrite ascii_eqb_sym, Ha, (IH Hl).
Qed.

Lemma split_step (sep : ascii) (m : nat) (l r : string) :
  Py.mem sep l = false ->
  Py.split sep (S m) (l +:+ String sep r) = l :: Py.split sep m r.
Proof. intros H. simpl. by rewrite break_at_sep. Qed.

(** ** The button payload *)

(** C10.  The payload ["yt|" + fmt + "|" + url] built for a button passes the
    prefix test of [button_callback], and splitting it on ["|"] at most twice
    gives back exactly the format and the URL, whatever the URL contains,
    as long as the format has no ["|"]. *)
Theorem callback_roundtrip (fmt url : string) :
  Py.mem "|" fmt = false ->
  let data := "yt|" +:+ fmt +:+ "|" +:+ url in
  Py.startswith "yt|" data = true /\ Py.split "|" 2 data = ["yt"; fmt; url].
Proof.
  intros H data. split; [done|].
  change data with ("yt" +:+ String "|" (fmt +:+ String "|" url)).
  rewrite split_step by done. by rewrite split_step.
Qed.

Lemma callback_roundtrip_witness :
  Py.mem "|" "mp3" = false /\
  Py.split "|" 2 ("yt|" +:+ "mp3" +:+ "|" +:+ "https://youtu.be/a|b?c=|")
  = ["yt"; "mp3"; "https://youtu.be/a|b?c=|"].
Proof.
  split; [reflexivity|].
  exact (proj2 (callback_roundtrip "mp3" "https://youtu.be/a|b?c=|" eq_refl)).
Defined.

(** The two buttons that [handle_message] attaches carry such payloads. *)
Lemma keyboard_payloads (url : string) :
  map (map snd) (keyboard url) = [["yt|" +:+ "mp3" +:+ "|" +:+ url; "yt|" +:+ "mp4" +:+ "|" +:+ url]].
Proof. reflexivity. Qed.

(** ** Effects: what a computation leaves in the history *)

Lemma silent_ret {A} (a : A) : silent (ret a).
Proof. done. Qed.

Lemma silent_raise {A} (e : exn) : silent (@raise A e).
Proof. done. Qed.

Lemma silent_lift {A} (r : res A) : silent (lift r).
Proof. done. Qed.

Lemma silent_get_fs : silent get_fs.
Proof. done. Qed.

Lemma silent_put_fs (s : storage) : silent (put_fs s).
Proof. done. Qed.

Lemma silent_bind {A B} (m : M A) (k : A -> M B) :
  silent m -> (forall a, silent (k a)) -> silent (bind m k).
Proof.
  intros Hm Hk w. unfold bind. specialize (Hm w).
  destruct (m w) as [[a|e] w1]; simpl in *; [|done].
  by rewrite Hk.
Qed.

Lemma silent_for_each {A} (xs : list A) (body : A -> M unit) :
  (forall x, silent (body x)) -> silent (for_each xs body).
Proof.
  intros H. induction xs as [|x xs IH]; [done|].
  simpl. by apply silent_bind.
Qed.

Create HintDb silent_db.
#[local] Hint Resolve silent_ret silent_raise silent_lift silent_get_fs silent_put_fs
  : silent_db.

Ltac silent_step :=
  first [ apply silent_bind; [|intros ?]
        | apply silent_for_each; intros ?
        | progress auto with silent_db
        | case_match ].

Ltac prove_silent := intros; repeat silent_step.

Lemma silent_exists (p : path) : silent (Os.exists_ p).
Proof. unfold Os.exists_. prove_silent. Qed.

Lemma silent_mkdir (p : path) : silent (Os.mkdir_exist_ok p).
Proof. unfold Os.mkdir_exist_ok. prove_silent. Qed.

Lemma silent_rename (src dst : path) : silent (Os.rename src dst).
Proof. unfold Os.rename. prove_silent. Qed.

Lemma silent_any_iterdir (p : path) : silent (Os.any_iterdir p).
Proof. unfold Os.any_iterdir. prove_silent. Qed.

Lemma silent_rglob (p : path) : silent (Os.rglob_all p).
Proof. unfold Os.rglob_all. prove_silent. Qed.

Lemma silent_rmtree (p : path) : silent (Os.rmtree_ignore_errors p).
Proof. unfold Os.rmtree_ignore_errors. prove_silent. Qed.

Lemma silent_unlink (p : path) : silent (Os.unlink_missing_ok p).
Proof. unfold Os.unlink_missing_ok. prove_silent. Qed.

Lemma silent_open_wb (p : path) : silent (Os.open_wb p).
Proof. unfold Os.open_wb. prove_silent. Qed.

Lemma silent_write (p : path) (b : string) : silent (Os.write p b).
Proof. unfold Os.write. prove_silent. Qed.

Lemma silent_open_rb (p : path) : silent (Os.open_rb p).
Proof. unfold Os.open_rb. prove_silent. Qed.

#[local] Hint Resolve silent_exists silent_mkdir silent_rename silent_any_iterdir
  silent_rglob silent_rmtree silent_unlink silent_open_wb silent_write silent_open_rb
  : silent_db.

Lemma silent_save_all (ws : list (path * string)) : silent (Os.save_all ws).
Proof. unfold Os.save_all. prove_silent. Qed.

Lemma silent_zip_tree (zip_path temp_dir : path) : silent (Os.zip_tree zip_path temp_dir).
Proof. unfold Os.zip_tree. prove_silent. Qed.

Lemma silent_st_size (env : Env) (p : path) : silent (st_size env p).
Proof. unfold st_size. prove_silent. Qed.

Lemma silent_cleanup (temp_dir zip_path : path) : silent (cleanup temp_dir zip_path).
Proof. unfold cleanup. prove_silent. Qed.

#[local] Hint Resolve silent_save_all silent_zip_tree silent_st_size silent_cleanup
  : silent_db.

(** ** The loop over the tracks *)

(** One turn of the loop always completes normally, and the only thing it
    adds to the history is the download attempt for its track. *)
Lemma try_pass_returns (body : M unit) (w : World) :
  try_pass body w = (Ret tt, (body w).2).
Proof. unfold try_pass. by destruct (body w) as [[[]|e] w1]. Qed.

Lemma emit_then {A} (e : event) (k : M A) (w : World) :
  (emit e >> k) w = k {| fs := fs w; trace := trace w ++ [e] |}.
Proof. done. Qed.

Lemma bind_assoc {A B C} (m : M A) (k : A -> M B) (h : B -> M C) (w : World) :
  bind (bind m k) h w = bind m (fun a => bind (k a) h) w.
Proof. unfold bind. by destruct (m w) as [[a|e] w1]. Qed.

Lemma download_one_attempt (env : Env) (temp_dir : path) (song : Song) (w : World) :
  exists w', download_one env temp_dir song w = (Ret tt, w') /\
             trace w' = trace w ++ [Download song].
Proof.
  unfold download_one. rewrite try_pass_returns. eexists; split; [done|].
  unfold call_download_song. rewrite bind_assoc, emit_then.
  match goal with |- trace (?m ?w0).2 = _ => assert (H : silent m) end.
  { prove_silent. }
  by rewrite H.
Qed.

(** C6.  The loop over the resolved tracks never stops early: whatever each
    download does (return, return nothing, or raise anything at all), the
    loop completes normally and has attempted every track, in order. *)
Theorem batch_never_aborts (env : Env) (temp_dir : path) (songs : list Song) (w : World) :
  exists w', for_each songs (download_one env temp_dir) w = (Ret tt, w') /\
             trace w' = trace w ++ map Download songs.
Proof.
  revert w. induction songs as [|song songs IH]; intros w; simpl.
  - exists w. by rewrite app_nil_r.
  - destruct (download_one_attempt env temp_dir song w) as (w1 & E1 & T1).
    destruct (IH w1) as (w2 & E2 & T2).
    exists w2. unfold bind. rewrite E1, E2. split; [done|].
    by rewrite T2, T1, <- app_assoc.
Qed.

(** ** Host matching and letter case *)

Section MapChars.

Variable f : ascii -> ascii.

Lemma lstrip_map (p : ascii -> bool) (s : string) :
  respects f p ->
  Py.lstrip_by p (Py.map_chars f s) = Py.map_chars f (Py.lstrip_by p s).
Proof.
  intros H. induction s as [|a s IH]; simpl; [done|].
  rewrite H. by destruct (p a).
Qed.

Lemma remove_map (c : ascii) (s : string) :
  respects f (fun a => Ascii.eqb a c) ->
  Py.remove c (Py.map_chars f s) = Py.map_chars f (Py.remove c s).
Proof.
  intros H. induction s as [|a s IH]; simpl; [done|].
  rewrite (H a). destruct (Ascii.eqb a c); simpl; by rewrite IH.
Qed.

Lemma break_map (p : ascii -> bool) (s : string) :
  respects f p ->
  Py.break p (Py.map_chars f s) =
  (Py.map_chars f (Py.break p s).1, Py.map_chars f (Py.break p s).2).
Proof.
  intros H. induction s as [|a s IH]; simpl; [done|].
  rewrite H. destruct (p a); simpl; [done|].
  rewrite IH. by destruct (Py.break p s).
Qed.

Lemma mem_map (c : ascii) (s : string) :
  respects f (fun a => Ascii.eqb a c) ->
  Py.mem c (Py.map_chars f s) = Py.mem c s.
Proof.
  intros H. induction s as [|a s IH]; simpl; [done|].
  by rewrite (H a), IH.
Qed.

Lemma all_chars_map (p : ascii -> bool) (s : string) :
  respects f p ->
  Url.all_chars p (Py.map_chars f s) = Url.all_chars p s.
Proof.
  intros H. induction s as [|a s IH]; simpl; [done|].
  by rewrite H, IH.
Qed.

Lemma drop_map (n : nat) (s : string) :
  Py.drop n (Py.map_chars f s) = Py.map_chars f (Py.drop n s).
Proof. revert s. induction n as [|n IH]; intros [|a s]; simpl; auto. Qed.

Lemma startswith_map (p s : string) :
  (forall c, Py.mem c p = true -> respects f (fun a => Ascii.eqb c a)) ->
  Py.startswith p (Py.map_chars f s) = Py.startswith p s.
Proof.
  revert s. induction p as [|c p IH]; intros s H; [done|].
  destruct s as [|a s]; simpl; [done|].
  rewrite (H c) by (simpl; by rewrite Ascii.eqb_refl).
  rewrite IH; [done|]. intros c' Hc'. apply H. simpl. by rewrite Hc', orb_true_r.
Qed.

End MapChars.

(** What [upper_char] leaves alone: every test the URL parser makes. *)
Lemma upper_char_class :
  respects Py.upper_char Url.c0_or_space /\
  respects Py.upper_char Url.is_delim /\
  respects Py.upper_char Url.scheme_char /\
  respects Py.upper_char Py.isalpha /\
  (forall c, Py.lower_char (Py.upper_char c) = Py.lower_char c) /\
  (forall c, Py.islower (Py.upper_char c) = false).
Proof. repeat split; intros [[] [] [] [] [] [] [] []]; reflexivity. Qed.

Lemma upper_char_eqb (c : ascii) :
  Py.isalpha c = false ->
  respects Py.upper_char (fun a => Ascii.eqb a c) /\
  respects Py.upper_char (fun a => Ascii.eqb c a).
Proof.
  intros Hc.
  assert (H : forall a, Ascii.eqb (Py.upper_char a) c = Ascii.eqb a c).
  { intros a. destruct (Ascii.eqb_spec a c) as [->|Hne].
    - unfold Py.upper_char. unfold Py.isalpha in Hc.
      apply orb_false_iff in Hc as [_ ->]. apply Ascii.eqb_refl.
    - apply Ascii.eqb_neq. intros E. subst c.
      destruct upper_char_class as (_ & _ & _ & Ha & _).
      rewrite Ha in Hc. unfold Py.upper_char, Py.isalpha in *.
      apply orb_false_iff in Hc as [_ Hl]. rewrite Hl in Hne. done. }
  split; intros a; [apply H|]. by rewrite !(ascii_eqb_sym c), H.
Qed.

Lemma lower_upper (s : string) : Py.lower (Py.upper s) = Py.lower s.
Proof.
  induction s as [|a s IH]; [done|].
  unfold Py.lower, Py.upper in *. simpl. rewrite IH.
  by rewrite (proj1 (proj2 (proj2 (proj2 (proj2 upper_char_class))))).
Qed.

Lemma drop_scheme_upper (url : string) :
  Url.drop_scheme (Py.upper url) = Py.upper (Url.drop_scheme url).
Proof.
  destruct upper_char_class as (_ & _ & Hs & Ha & _).
  unfold Url.drop_scheme, Py.upper.
  rewrite break_map by (by apply upper_char_eqb).
  destruct (Py.break (Ascii.eqb ":") url) as [[|a pre] [|b rest]]; simpl; try done.
  rewrite Ha, Hs, all_chars_map by done.
  by destruct (Py.isalpha a && (Url.scheme_char a && Url.all_chars Url.scheme_char pre)).
Qed.

(** Upper-casing a URL upper-cases its network location and nothing else. *)
Lemma netloc_upper (url : string) :
  Url.netloc (Py.upper url) =
  match Url.netloc url with
  | Ret n => Ret (Py.upper n)
  | Raise e => Raise e
  end.
Proof.
  destruct upper_char_class as (H0 & Hd & _).
  unfold Url.netloc. cbv zeta.
  unfold Py.upper at 1 2 3 4 5. rewrite lstrip_map by done.
  rewrite !remove_map by (by apply upper_char_eqb).
  fold (Py.upper (Py.remove "013" (Py.remove "010" (Py.remove "009"
          (Py.lstrip_by Url.c0_or_space url))))).
  rewrite drop_scheme_upper.
  set (u := Url.drop_scheme _).
  unfold Py.upper at 1. rewrite startswith_map.
  2:{ intros c Hc. apply upper_char_eqb. cbn [Py.mem] in Hc.
      rewrite orb_false_r, orb_diag in Hc. by apply Ascii.eqb_eq in Hc as <-. }
  destruct (Py.startswith "//" u); [|done].
  unfold Url.splitnetloc, Py.upper. rewrite drop_map, break_map by done.
  simpl. rewrite !mem_map by (by apply upper_char_eqb).
  by destruct (xorb _ _).
Qed.

Lemma startswith_lower_in_upper (a : ascii) (p s : string) :
  Py.islower a = true -> Py.startswith (String a p) (Py.upper s) = false.
Proof.
  intros Ha. destruct s as [|b s]; simpl; [done|].
  destruct (Ascii.eqb_spec a (Py.upper_char b)) as [->|]; [|done].
  by rewrite (proj2 (proj2 (proj2 (proj2 (proj2 upper_char_class))))) in Ha.
Qed.

Lemma contains_lower_in_upper (a : ascii) (p s : string) :
  Py.islower a = true -> Py.contains (String a p) (Py.upper s) = false.
Proof.
  intros Ha. induction s as [|b s IH]; [done|].
  change (Py.upper (String b s)) with (String (Py.upper_char b) (Py.upper s)).
  cbn [Py.contains]. rewrite IH, orb_false_r.
  apply (startswith_lower_in_upper a p (String b s) Ha).
Qed.

(** C9.  Spotify matching is case-sensitive and the other two are not.
    An upper-case spelling of the Spotify host is dispatched to the
    "unsupported" branch while the usual spelling is Spotify; upper-case
    Pinterest and YouTube hosts (short-link hosts included) still reach their
    platforms.  In general no upper-cased URL is ever matched as Spotify,
    while upper-casing a URL never changes the Pinterest or YouTube answer. *)
Theorem host_case_sensitivity :
  (classify "https://OPEN.SPOTIFY.COM/playlist/abc" = Ret Unsupported /\
   classify "https://open.spotify.com/playlist/abc" = Ret PlatformA /\
   classify "https://WWW.PINTEREST.COM/pin/1/" = Ret PlatformB /\
   classify "https://PIN.IT/xyz" = Ret PlatformB /\
   classify "https://WWW.YOUTUBE.COM/watch?v=abc" = Ret PlatformC /\
   classify "https://YOUTU.BE/abc" = Ret PlatformC) /\
  (forall url, is_spotify_url (Py.upper url) <> Ret true) /\
  (forall url, is_pinterest_url (Py.upper url) = is_pinterest_url url) /\
  (forall url, is_youtube_url (Py.upper url) = is_youtube_url url).
Proof.
  split; [by vm_compute|].
  unfold is_spotify_url, is_pinterest_url, is_youtube_url.
  repeat split; intros url; rewrite netloc_upper;
    destruct (Url.netloc url) as [n|e]; try done.
  - by rewrite contains_lower_in_upper.
  - by rewrite lower_upper.
  - by rewrite lower_upper.
Qed.

(** ** Texts that are not links *)

Lemma send_world (env : Env) (chat : Z) (m : msg) (w : World) :
  (send env chat m w).2 = logged w (Sent chat m (delivered env chat m)).
Proof.
  unfold send, delivered, logged.
  by destruct (transport env chat m) as [e|].
Qed.

(** A text without scheme does not get one reply: ["not a url"] is dropped
    without any. *)
Lemma no_scheme_counterexample :
  has_scheme "not a url" = false /\
  let w' := (handle_message quiet_env (text_update 7 "not a url") fresh_world).2 in
  text_replies (trace w') = 0%nat /\ text_replies (trace w') <> 1%nat.
Proof. by vm_compute. Qed.

(** C4, amended.  A text whose stripped form does not start with [http://]
    or [https://] is unsupported and is dropped: the handler returns at once
    and the world is unchanged (no reply, no collaborator called, no file
    touched).  The single "only ... supported" reply is what a text gets
    that does start with a scheme and matches no platform. *)
Theorem handle_message_without_scheme (env : Env) (chat : Z) (text : string) (w : World) :
  (has_scheme (Py.strip text) = false ->
     classify (Py.strip text) = Ret Unsupported /\
     handle_message env (text_update chat text) w = (Ret tt, w)) /\
  (has_scheme (Py.strip text) = true ->
     classify (Py.strip text) = Ret Unsupported ->
     let reply := Text "Only Spotify, Pinterest, YouTube links supported." in
     (handle_message env (text_update chat text) w).2 =
     logged w (Sent chat reply (delivered env chat reply))).
Proof.
  split.
  - intros H. unfold classify, handle_message. simpl. by rewrite H.
  - intros H. unfold classify, handle_message. simpl. rewrite H. simpl.
    unfold bind, lift.
    destruct (is_spotify_url _) as [[]|]; try done.
    destruct (is_pinterest_url _) as [[]|]; try done.
    destruct (is_youtube_url _) as [[]|]; try done.
    intros _. apply send_world.
Qed.

Lemma handle_message_without_scheme_witness :
  handle_message quiet_env (text_update 7 "  not a url ") fresh_world = (Ret tt, fresh_world) /\
  text_replies
    (trace (handle_message quiet_env (text_update 7 "https://example.org/x") fresh_world).2)
  = 1%nat.
Proof.
  split.
  - exact (proj2 (proj1 (handle_message_without_scheme quiet_env 7 "  not a url " fresh_world)
                    eq_refl)).
  - rewrite (proj2 (handle_message_without_scheme quiet_env 7 "https://example.org/x"
                      fresh_world) eq_refl eq_refl).
    reflexivity.
Defined.

(** ** The scrape downloader *)

Lemma bind_ret_inv {A B} (m : M A) (k : A -> M B) (w w' : World) (b : B) :
  bind m k w = (Ret b, w') ->
  exists a w1, m w = (Ret a, w1) /\ k a w1 = (Ret b, w').
Proof. unfold bind. destruct (m w) as [[a|e] w1]; [eauto|done]. Qed.

Lemma then_ret_inv {A B} (m : M A) (b b' : B) (w w' : World) :
  (m >> ret b) w = (Ret b', w') -> b' = b.
Proof.
  intros H. apply bind_ret_inv in H as (a & w1 & _ & H). by inversion H.
Qed.

Lemma try_except_cases {A} (body : M A) (handler : exn -> M A) (w : World) :
  match body w with
  | (Ret a, w1) => try_except body handler w = (Ret a, w1)
  | (Raise e, w1) =>
      if is_exception e then try_except body handler w = handler e w1
      else try_except body handler w = (Raise e, w1)
  end.
Proof.
  unfold try_except. destruct (body w) as [[a|e] w1]; [done|].
  by destruct (is_exception e).
Qed.

(** C7.  [download_pinterest] never lets an [Exception] escape: it returns
    nothing, or one or two paths (the image, the video, or the image then the
    video of this URL).  A failing page fetch or a failing parse is logged
    and becomes the empty outcome.  In [handle_message], the empty outcome of
    a Pinterest link is answered with the "could not download" text. *)
Theorem scrape_never_crashes (env : Env) (url : string) (w : World) :
  (match download_pinterest env url w with
   | (Raise e, _) => is_exception e = false
   | (Ret None, _) => True
   | (Ret (Some media), _) =>
       media = [pin_file env url ".jpg"] \/
       media = [pin_file env url ".mp4"] \/
       media = [pin_file env url ".jpg"; pin_file env url ".mp4"]
   end) /\
  (forall e, http_get env url = Raise e -> is_exception e = true ->
     download_pinterest env url w =
     (Ret None, logged (logged w (HttpGet url)) (Log ("Pinterest error: " +:+ exn_msg e)))) /\
  (forall page e,
     http_get env url = Ret page -> html_parser env page = Raise e ->
     is_exception e = true ->
     download_pinterest env url w =
     (Ret None, logged (logged w (HttpGet url)) (Log ("Pinterest error: " +:+ exn_msg e)))) /\
  (forall chat text w1,
     Py.strip text = url ->
     classify url = Ret PlatformB ->
     transport env chat (Text "Pinterest detected → fetching media...") = None ->
     download_pinterest env url
       (logged w (Sent chat (Text "Pinterest detected → fetching media...") true))
     = (Ret None, w1) ->
     let notice := Text "Could not download Pinterest media (page changed?)." in
     (handle_message env (text_update chat text) w).2 =
     logged w1 (Sent chat notice (delivered env chat notice))).
Proof.
  split; [|split; [|split]].
  - unfold download_pinterest.
    match goal with |- context [try_except ?b ?h w] =>
      pose proof (try_except_cases b h w) as H; destruct (b w) as [[r|e] w1] eqn:E end.
    + rewrite H. destruct r as [media|]; [|done].
      apply bind_ret_inv in E as (page & w2 & _ & E).
      apply bind_ret_inv in E as (soup & w3 & _ & E).
      apply bind_ret_inv in E as (image & w4 & Hi & E).
      apply bind_ret_inv in E as (video & w5 & Hv & E).
      assert (image = [] \/ image = [pin_file env url ".jpg"]) as Himage.
      { repeat case_match; try (left; by inversion Hi);
          right; by apply then_ret_inv in Hi. }
      assert (video = [] \/ video = [pin_file env url ".mp4"]) as Hvideo.
      { repeat case_match; try (left; by inversion Hv); try done;
          right; by apply then_ret_inv in Hv. }
      inversion E as [[Hm]]; clear E.
      destruct Himage as [-> | ->], Hvideo as [-> | ->]; simpl in Hm; try done;
        inversion Hm; auto.
    + destruct (is_exception e) eqn:Hx; rewrite H; [|done]. done.
  - intros e Hg Hx. unfold download_pinterest, try_except, requests_get.
    rewrite bind_assoc, emit_then. unfold bind, lift. rewrite Hg, Hx. done.
  - intros page e Hg Hp Hx. unfold download_pinterest, try_except, requests_get.
    rewrite bind_assoc, emit_then. unfold bind, lift. rewrite Hg, Hp, Hx. done.
  - intros chat text w1 Hs Hc Ht Hd notice.
    unfold classify in Hc. unfold handle_message. simpl. rewrite Hs.
    destruct (has_scheme url); [simpl in *|done].
    unfold bind at 1. unfold lift at 1.
    destruct (is_spotify_url url) as [[]|]; try done.
    unfold bind at 1. unfold lift at 1.
    destruct (is_pinterest_url url) as [[]|]; try done.
    2:{ by destruct (is_youtube_url url) as [[]|]. }
    unfold bind at 1. unfold reply_text at 1, reply, send. simpl. rewrite Ht.
    unfold emit at 1. unfold bind at 1.
    unfold logged in Hd. rewrite Hd.
    apply send_world.
Qed.

Lemma scrape_never_crashes_witness :
  text_replies
    (trace (handle_message quiet_env (text_update 7 "https://pin.it/xyz") fresh_world).2)
  = 2%nat.
Proof.
  rewrite (proj2 (proj2 (proj2 (scrape_never_crashes quiet_env "https://pin.it/xyz"
             fresh_world))) 7 "https://pin.it/xyz"
             (download_pinterest quiet_env "https://pin.it/xyz"
                (logged fresh_world
                   (Sent 7 (Text "Pinterest detected → fetching media...") true))).2
             eq_refl eq_refl eq_refl eq_refl).
  reflexivity.
Defined.

(** A page with one matching image and no video gives exactly one image
    file, fetched from the absolute form of its address. *)
Example scrape_one_image :
  classify "https://pin.it/xyz" = Ret PlatformB /\
  let r := download_pinterest image_page_env "https://pin.it/xyz" fresh_world in
  r.1 = Ret (Some [["downloads"; "pin_42.jpg"]]) /\
  fs r.2 !! ["downloads"; "pin_42.jpg"] = Some (File (Bytes "JPEG")) /\
  trace r.2 = [HttpGet "https://pin.it/xyz"; HttpGet "https://i.pinimg.com/736x/a.jpg"].
Proof. by vm_compute. Qed.

(** ** The single-item downloader *)

Lemma append_cons (a : ascii) (l r : string) : String a l +:+ r = String a (l +:+ r).
Proof. reflexivity. Qed.

Lemma append_nil (r : string) : "" +:+ r = r.
Proof. reflexivity. Qed.

Lemma append_nil_r (s : string) : s +:+ "" = s.
Proof. induction s as [|a s IH]; [done|]. by rewrite append_cons, IH. Qed.

Lemma mem_app_sep (sep : ascii) (l r : string) : Py.mem sep (l +:+ String sep r) = true.
Proof.
  induction l as [|b l IH]; rewrite ?append_cons, ?append_nil; cbn [Py.mem].
  - by rewrite Ascii.eqb_refl.
  - by rewrite IH, orb_true_r.
Qed.

Lemma rsplit1_head_stem (stem ext : string) :
  Py.mem "." ext = false -> Py.rsplit1_head "." (stem +:+ "." +:+ ext) = stem.
Proof.
  intros H. change ("." +:+ ext) with (String "." ext).
  induction stem as [|a stem IH]; rewrite ?append_cons, ?append_nil;
    cbn [Py.rsplit1_head].
  - by rewrite H, Ascii.eqb_refl.
  - by rewrite mem_app_sep, IH.
Qed.

Lemma save_all_returns (ws : list (path * string)) (w : World) :
  exists w', Os.save_all ws w = (Ret tt, w') /\ trace w' = trace w.
Proof.
  unfold Os.save_all. revert w. induction ws as [|x ws IH]; intros w; simpl; [eauto|].
  unfold bind at 1. unfold Os.write at 1. unfold bind at 1. simpl.
  destruct (IH {| fs := <[x.1:=File (Bytes x.2)]> (fs w); trace := trace w |})
    as (w' & E & T).
  eauto.
Qed.

(** Calling the extractor records the call, lets it write its files, and
    passes on what it returns or raises. *)
Lemma call_extract_result (env : Env) (o : ydl_opts) (url : string) (w : World) :
  exists w', call_extract env o url w = (result (extract_info env o url), w') /\
             trace w' = trace w ++ [Extract o url].
Proof.
  unfold call_extract. rewrite emit_then. unfold bind, lift.
  destruct (save_all_returns (writes (extract_info env o url))
              {| fs := fs w; trace := trace w ++ [Extract o url] |}) as (w' & -> & T).
  eauto.
Qed.

(** On success the audio request returns one path, the extracted file name
    with everything after its last dot replaced by [mp3]; two source
    containers of one title give the same path. *)
Lemma download_youtube_audio (env : Env) (url filename : string) (update : Update)
    (w : World) :
  result (extract_info env (ydl_opts_of "mp3") url) = Ret filename ->
  (download_youtube env url "mp3" update w).1 =
  Ret (Some (PyPath.Path (Py.rsplit1_head "." filename +:+ ".mp3"))).
Proof.
  intros H. unfold download_youtube, try_except. cbv zeta. unfold bind.
  destruct (call_extract_result env (ydl_opts_of "mp3") url w) as (w' & -> & _).
  by rewrite H.
Qed.

Lemma audio_name_container_independent (stem ext1 ext2 : string) :
  Py.mem "." ext1 = false -> Py.mem "." ext2 = false ->
  Py.rsplit1_head "." (stem +:+ "." +:+ ext1) +:+ ".mp3" =
  Py.rsplit1_head "." (stem +:+ "." +:+ ext2) +:+ ".mp3".
Proof. intros H1 H2. by rewrite !rsplit1_head_stem. Qed.

Example download_youtube_webm :
  let r := download_youtube webm_env "https://youtu.be/abc" "mp3" (text_update 7 "") fresh_world in
  r.1 = Ret (Some ["downloads"; "My.Song.mp3"]) /\
  PyPath.suffix ["downloads"; "My.Song.mp3"] = ".mp3".
Proof. by vm_compute. Qed.

(** With an update that carries a message, an [Exception] of the extractor
    is caught and reported with at most 200 characters of its text, and no
    path is returned. *)
Lemma download_youtube_reports (env : Env) (url fmt : string) (chat : Z) (text : string)
    (e : exn) (w : World) :
  result (extract_info env (ydl_opts_of fmt) url) = Raise e ->
  is_exception e = true ->
  let r := download_youtube env url fmt (text_update chat text) w in
  (forall p, r.1 <> Ret (Some p)) /\
  exists ok, last (trace r.2) =
    Some (Sent chat (Text ("YouTube download failed: " +:+ Py.take 200 (exn_msg e))) ok).
Proof.
  intros H Hx r.
  destruct (call_extract_result env (ydl_opts_of fmt) url w) as (w1 & E & _).
  rewrite H in E.
  assert (r = (reply_text env (text_update chat text)
                 ("YouTube download failed: " +:+ Py.take 200 (exn_msg e)) >> ret None) w1) as ->.
  { unfold r, download_youtube, try_except. cbv zeta. unfold bind at 1. by rewrite E, Hx. }
  unfold reply_text, reply, send. simpl.
  destruct (transport env chat _) as [e'|]; simpl;
    (split; [done|]); eexists; by rewrite last_snoc.
Qed.

(** A button press is an update without [message]: there the handler of
    [download_youtube] fails on [update.message.reply_text] before it can
    report anything, and the [AttributeError] leaves the function. *)
Lemma download_youtube_on_button (env : Env) (url fmt : string) (chat : Z) (data : string)
    (e : exn) (w : World) :
  result (extract_info env (ydl_opts_of fmt) url) = Raise e ->
  is_exception e = true ->
  let r := download_youtube env url fmt (button_update chat data) w in
  r.1 = Raise (AttributeError "reply_text") /\
  trace r.2 = trace w ++ [Extract (ydl_opts_of fmt) url].
Proof.
  intros H Hx r.
  destruct (call_extract_result env (ydl_opts_of fmt) url w) as (w1 & E & T).
  rewrite H in E.
  assert (r = (Raise (AttributeError "reply_text"), w1)) as ->; [|done].
  unfold r, download_youtube, try_except. cbv zeta. unfold bind at 1.
  by rewrite E, Hx.
Qed.

(** C8.  In the single-item pipeline an extraction error is caught but not
    reported: pressing the MP3 button for a video that cannot be extracted
    ends [button_callback] with an [AttributeError]; the history shows the
    answer to the button, the "Downloading as MP3..." edit and the call of
    the extractor, and no text reply. *)
Theorem youtube_failure_not_reported :
  let update := button_update 7 "yt|mp3|https://youtu.be/abc" in
  let r := button_callback quiet_env update fresh_world in
  extract_info quiet_env (ydl_opts_of "mp3") "https://youtu.be/abc" =
    {| writes := []; result := Raise (Exn Exception "Video unavailable") |} /\
  r.1 = Raise (AttributeError "reply_text") /\
  trace r.2 =
    [ Sent 7 Answer true; Sent 7 (EditText "Downloading as MP3...") true;
      Extract (ydl_opts_of "mp3") "https://youtu.be/abc" ] /\
  text_replies (trace r.2) = 0%nat.
Proof. by vm_compute. Qed.

(** ** Names on the transient storage *)

Lemma to_int_proper (z : Z) : Z.to_int z <> Decimal.Pos Decimal.Nil /\ Z.to_int z <> Decimal.Neg Decimal.Nil.
Proof.
  destruct z as [|p|p]; simpl; split; try done; intros [= H];
    by apply DecimalPos.Unsigned.to_uint_nonnil in H.
Qed.

(** [str] of an integer determines the integer. *)
Lemma str_of_int_inj (a b : Z) : Py.str_of_int a = Py.str_of_int b -> a = b.
Proof.
  unfold Py.str_of_int. intros H.
  apply (f_equal NilZero.int_of_string) in H.
  destruct (to_int_proper a), (to_int_proper b).
  rewrite !NilZero.isi in H by done.
  apply DecimalZ.to_int_inj. by inversion H.
Qed.

Lemma string_of_uint_digits (d : Decimal.uint) :
  Url.all_chars sign_or_digit (NilEmpty.string_of_uint d) = true.
Proof. induction d; simpl; auto. Qed.

Lemma str_of_int_digits (z : Z) :
  Url.all_chars sign_or_digit (Py.str_of_int z) = true /\ Py.str_of_int z <> "".
Proof.
  unfold Py.str_of_int.
  destruct (Z.to_int z) as [d|d]; simpl.
  - destruct d; simpl; split; try done; apply string_of_uint_digits.
  - split; [|done]. destruct d; simpl; try done; apply string_of_uint_digits.
Qed.

Lemma all_chars_app (p : ascii -> bool) (l r : string) :
  Url.all_chars p (l +:+ r) = Url.all_chars p l && Url.all_chars p r.
Proof.
  induction l as [|a l IH]; rewrite ?append_cons, ?append_nil; simpl; [done|].
  by rewrite IH, andb_assoc.
Qed.

Lemma all_chars_no_mem (p : ascii -> bool) (c : ascii) (s : string) :
  p c = false -> Url.all_chars p s = true -> Py.mem c s = false.
Proof.
  intros Hc. induction s as [|a s IH]; simpl; [done|].
  intros [Ha Hs]%andb_true_iff. rewrite (IH Hs), orb_false_r.
  apply Ascii.eqb_neq. intros ->. congruence.
Qed.

Lemma sign_or_digit_name (s : string) :
  Url.all_chars sign_or_digit s = true -> Url.all_chars name_char s = true.
Proof.
  induction s as [|a s IH]; simpl; [done|].
  intros [Ha Hs]%andb_true_iff. unfold name_char at 1. by rewrite Ha, IH.
Qed.

Lemma split_all_no_slash (n : nat) (s : string) :
  Py.mem "/" s = false -> PyPath.split_all (S n) s = [s].
Proof. intros H. simpl. by rewrite break_no_sep. Qed.

(** A text without slash that is neither empty nor a single dot is one
    path component, and joining it to a folder appends it. *)
Lemma joinpath_plain (base : path) (s : string) :
  Py.mem "/" s = false -> s <> "" -> s <> "." ->
  base // s = base ++ [s].
Proof.
  intros Hs He Hd. unfold PyPath.joinpath, PyPath.components.
  assert (Py.startswith "/" s = false) as ->.
  { destruct s as [|a s]; [done|]. cbn [Py.mem] in Hs.
    apply orb_false_iff in Hs as [Ha _]. cbn [Py.startswith].
    by rewrite ascii_eqb_sym, Ha. }
  destruct s as [|a s]; [done|].
  cbn [String.length]. rewrite split_all_no_slash by done.
  cbn [List.filter]. unfold PyPath.plain.
  destruct (String.eqb_spec (String a s) ""); [done|].
  by destruct (String.eqb_spec (String a s) ".").
Qed.

Lemma numbered_name (pre ext : string) (z : Z) (a : ascii) (pre' : string) :
  pre = String a pre' -> Py.islower a = true ->
  Url.all_chars name_char pre = true -> Url.all_chars name_char ext = true ->
  DOWNLOAD_DIR // (pre +:+ Py.str_of_int z +:+ ext) =
  ["downloads"; pre +:+ Py.str_of_int z +:+ ext].
Proof.
  intros -> Ha Hp He. apply joinpath_plain.
  - apply (all_chars_no_mem name_char); [done|].
    rewrite !all_chars_app, Hp, He, sign_or_digit_name; [done|].
    apply str_of_int_digits.
  - by rewrite append_cons.
  - rewrite append_cons. intros [= -> _]. done.
Qed.

Lemma temp_dir_of_eq (env : Env) (url : string) :
  temp_dir_of env url = ["downloads"; "temp_" +:+ Py.str_of_int (hash env url)].
Proof.
  unfold temp_dir_of.
  pose proof (numbered_name "temp_" "" (hash env url) "t" "emp_" eq_refl eq_refl eq_refl eq_refl) as H.
  by rewrite append_nil_r in H.
Qed.

Lemma pin_file_eq (env : Env) (url ext : string) :
  Url.all_chars name_char ext = true ->
  pin_file env url ext = ["downloads"; "pin_" +:+ Py.str_of_int (hash env url) +:+ ext].
Proof. intros H. by apply (numbered_name "pin_" ext _ "p" "in_"). Qed.

Lemma append_inj_l (p a b : string) : p +:+ a = p +:+ b -> a = b.
Proof.
  induction p as [|c p IH]; [done|]. rewrite !append_cons. intros [= H]. auto.
Qed.

Lemma length_append (a b : string) :
  String.length (a +:+ b) = (String.length a + String.length b)%nat.
Proof. induction a as [|c a IH]; [done|]. rewrite append_cons. simpl. by rewrite IH. Qed.

Lemma append_inj_r (a b e : string) : a +:+ e = b +:+ e -> a = b.
Proof.
  revert b. induction a as [|c a IH]; intros [|d b] H.
  - done.
  - apply (f_equal String.length) in H.
    rewrite append_nil, append_cons in H. simpl in H.
    rewrite length_append in H. lia.
  - apply (f_equal String.length) in H.
    rewrite append_nil, append_cons in H. simpl in H.
    rewrite length_append in H. lia.
  - rewrite !append_cons in H. injection H as -> H. f_equal. auto.
Qed.

(** Two requests for one URL, from two chats, get the same workspace and
    the same scrape file names; two different playlists get the same archive
    path. *)
Lemma shared_names_counterexample :
  let url := "https://open.spotify.com/playlist/abc" in
  let other := "https://open.spotify.com/playlist/xyz" in
  let first := (url, text_update 1 url) in
  let second := (url, text_update 2 url) in
  let tracks := [ {| artist := "A"; title := "one" |}; {| artist := "B"; title := "two" |} ] in
  let others := [ {| artist := "C"; title := "three" |}; {| artist := "D"; title := "four" |};
                  {| artist := "E"; title := "five" |} ] in
  first <> second /\ url <> other /\
  temp_dir_of quiet_env first.1 = temp_dir_of quiet_env second.1 /\
  pin_file quiet_env first.1 ".jpg" = pin_file quiet_env second.1 ".jpg" /\
  zip_path_of (batch_name tracks) = ["downloads"; "Playlist.zip"] /\
  zip_path_of (batch_name others) = ["downloads"; "Playlist.zip"].
Proof. by vm_compute. Qed.

(** C5, amended.  The workspace and the scrape file names of a request are
    functions of the hash of its URL alone, and the archive name is a
    function of the resolved tracks alone: two requests have different
    workspaces, and different scrape files, exactly when their URLs hash
    differently, and every batch that does not consist of one track is
    archived at the same path. *)
Theorem names_follow_url_hash (env : Env) (url1 url2 : string) :
  (temp_dir_of env url1 = temp_dir_of env url2 <-> hash env url1 = hash env url2) /\
  (pin_file env url1 ".jpg" = pin_file env url2 ".jpg" <-> hash env url1 = hash env url2) /\
  (pin_file env url1 ".mp4" = pin_file env url2 ".mp4" <-> hash env url1 = hash env url2) /\
  (forall songs1 songs2 : list Song,
     length songs1 <> 1%nat -> length songs2 <> 1%nat ->
     zip_path_of (batch_name songs1) = zip_path_of (batch_name songs2)).
Proof.
  repeat split.
  - rewrite !temp_dir_of_eq. intros [= H]. by apply append_inj_l, str_of_int_inj in H.
  - unfold temp_dir_of. by intros ->.
  - rewrite !pin_file_eq by done. intros [= H].
    by apply append_inj_l, append_inj_r, str_of_int_inj in H.
  - unfold pin_file. by intros ->.
  - rewrite !pin_file_eq by done. intros [= H].
    by apply append_inj_l, append_inj_r, str_of_int_inj in H.
  - unfold pin_file. by intros ->.
  - intros songs1 songs2 H1 H2.
    assert (forall songs : list Song, length songs <> 1%nat -> batch_name songs = "Playlist") as E.
    { intros [|? [|? ?]]; simpl; done. }
    by rewrite !E.
Qed.

(** ** The size gate *)

Lemma below_ceiling_spec (size : Z) :
  below_ceiling (file_size_mb size) = (size <? 48 * 1048576).
Proof.
  unfold below_ceiling, file_size_mb, Qcompare. simpl Qnum. simpl Qden.
  rewrite Z.mul_1_r. unfold Z.ltb.
  change (48 * Z.pos 1048576) with 50331648. change (48 * 1048576) with 50331648.
  by destruct (size ?= 50331648).
Qed.

(** [round_half_even n d] is an integer nearest to [n / d]. *)
Lemma round_half_even_nearest (n d : Z) :
  0 < d -> 2 * Z.abs (n - round_half_even n d * d) <= d.
Proof.
  intros Hd. unfold round_half_even.
  pose proof (Z.div_mod n d ltac:(lia)) as E.
  pose proof (Z.mod_pos_bound n d Hd) as B.
  set (q := n / d) in *. set (r := n mod d) in *.
  destruct (Z.ltb_spec (2 * r) d); [lia|].
  destruct (Z.ltb_spec d (2 * r)); [lia|].
  destruct (Z.even q); lia.
Qed.

(** On an exact tie the even neighbour is taken. *)
Lemma round_half_even_tie (n d : Z) :
  0 < d -> 2 * (n mod d) = d -> Z.even (round_half_even n d) = true.
Proof.
  intros Hd Ht. unfold round_half_even.
  rewrite (proj2 (Z.ltb_ge _ _)) by lia. rewrite (proj2 (Z.ltb_ge _ _)) by lia.
  destruct (Z.even (n / d)) eqn:E; [done|].
  rewrite Z.even_add, E. done.
Qed.

Lemma tenths_nearest (size : Z) :
  2 * Z.abs (10 * size - tenths (file_size_mb size) * 1048576) <= 1048576.
Proof. apply (round_half_even_nearest (10 * size) 1048576). lia. Qed.

Lemma tenths_nonneg (size : Z) : 0 <= size -> 0 <= tenths (file_size_mb size).
Proof. intros H. pose proof (tenths_nearest size). lia. Qed.

Lemma format_1f_digits (size : Z) :
  0 <= size ->
  let t := tenths (file_size_mb size) in
  format_1f (file_size_mb size) = Py.str_of_int (t / 10) +:+ "." +:+ Py.str_of_int (t mod 10).
Proof.
  intros H t. unfold format_1f. fold t.
  pose proof (tenths_nonneg size H) as Ht. fold t in Ht.
  rewrite (proj2 (Z.ltb_ge _ _)) by lia. by rewrite Z.abs_eq.
Qed.

Lemma contains_app (needle l r : string) :
  Py.contains needle (l +:+ needle +:+ r) = true.
Proof.
  induction l as [|a l IH]; rewrite ?append_cons, ?append_nil.
  - destruct (needle +:+ r) eqn:E; simpl; rewrite <- ?E, startswith_app; done.
  - cbn [Py.contains]. by rewrite IH, orb_true_r.
Qed.

Example sizes_in_megabytes :
  format_1f (file_size_mb 50331648) = "48.0" /\
  format_1f (file_size_mb 50593792) = "48.2" /\   (* 48.25: tie, to even *)
  format_1f (file_size_mb 51118080) = "48.8" /\   (* 48.75: tie, to even *)
  format_1f (file_size_mb 52428800) = "50.0" /\
  below_ceiling (file_size_mb 50331647) = true /\
  below_ceiling (file_size_mb 50331648) = false.
Proof. by vm_compute. Qed.

Lemma node_at_lookup (s : storage) (p : path) : p <> [] -> FS.node_at s p = s !! p.
Proof. by destruct p. Qed.

(** The cleanup block always removes an archive file. *)
Lemma cleanup_removes_archive (temp_dir zip_path : path) (d : fdata) (w : World) :
  zip_path <> [] -> fs w !! zip_path = Some (File d) ->
  exists w', cleanup temp_dir zip_path w = (Ret tt, w') /\
             fs w' !! zip_path = None /\ trace w' = trace w.
Proof.
  intros Hp Hz. unfold cleanup, Os.rmtree_ignore_errors, Os.unlink_missing_ok.
  unfold bind, get_fs, put_fs, ret. simpl.
  destruct (FS.is_dir (fs w) temp_dir); simpl; rewrite !node_at_lookup by done.
  - unfold FS.remove_tree, FS.outside.
    destruct (decide (temp_dir `prefix_of` zip_path)) as [Hpre|Hpre].
    + assert (filter (fun kv : path * node => ¬ temp_dir `prefix_of` kv.1) (fs w)
                !! zip_path = None) as E.
      { apply map_lookup_filter_None_2. right. intros x _. simpl. tauto. }
      rewrite E. eauto.
    + rewrite (map_lookup_filter_Some_2 _ (fs w) zip_path (File d)) by done.
      simpl. eexists. split; [done|]. simpl. by rewrite lookup_delete_eq.
  - rewrite Hz. simpl. eexists. split; [done|]. simpl. by rewrite lookup_delete_eq.
Qed.

Lemma st_size_file (env : Env) (zip_path : path) (d : fdata) (w : World) :
  zip_path <> [] -> fs w !! zip_path = Some (File d) ->
  st_size env zip_path w =
  (Ret match d with
       | Bytes b => Z.of_nat (String.length b)
       | Zip members => zip_size env members
       end, w).
Proof.
  intros Hp Hz. unfold st_size, bind, get_fs. simpl.
  rewrite node_at_lookup, Hz by done. by destruct d.
Qed.

(** The size gate as far as it holds.  For an archive file of measured size
    [size] bytes, i.e. [size / 2^20] MB: at or above 48 MB the only thing
    handed to the transport is one text, which contains the size printed
    with one decimal, that decimal being a nearest one (ties to even); the
    document is never handed over, and if the text is delivered the archive
    is gone from the storage.  Strictly below 48 MB the one thing handed
    over is the document. *)
Theorem size_gate (env : Env) (chat : Z) (text name : string) (songs : list Song)
    (temp_dir zip_path : path) (d : fdata) (w : World) :
  zip_path <> [] ->
  fs w !! zip_path = Some (File d) ->
  let update := text_update chat text in
  let size := match d with
              | Bytes b => Z.of_nat (String.length b)
              | Zip members => zip_size env members
              end in
  let mb := file_size_mb size in
  let r := (send_or_report env update name songs zip_path >>
            cleanup temp_dir zip_path) w in
  (48 * 1048576 <= size ->
     let report := Text (too_big_text mb) in
     trace r.2 = trace w ++ [Sent chat report (delivered env chat report)] /\
     Py.contains (format_1f mb) (too_big_text mb) = true /\
     format_1f mb = Py.str_of_int (tenths mb / 10) +:+ "." +:+ Py.str_of_int (tenths mb mod 10) /\
     2 * Z.abs (10 * size - tenths mb * 1048576) <= 1048576 /\
     (delivered env chat report = true -> r.1 = Ret tt /\ fs r.2 !! zip_path = None)) /\
  (size < 48 * 1048576 ->
     let document := Document zip_path (Some (File d)) (caption_of name songs) in
     trace r.2 = trace w ++ [Sent chat document (delivered env chat document)]).
Proof.
  intros Hp Hz update size mb r.
  assert (Hr : r = (let! _ := (if below_ceiling mb
                               then reply_document env update zip_path (caption_of name songs)
                               else reply_text env update (too_big_text mb)) in
                    cleanup temp_dir zip_path) w).
  { unfold r, send_or_report. rewrite bind_assoc. unfold bind at 1.
    by rewrite (st_size_file env zip_path d w Hp Hz). }
  unfold mb in Hr. rewrite below_ceiling_spec in Hr. fold mb in Hr.
  split.
  - intros Hbig report.
    rewrite (proj2 (Z.ltb_ge _ _)) in Hr by done.
    unfold reply_text, reply, update in Hr. simpl in Hr. fold report in Hr.
    repeat split.
    + rewrite Hr. unfold bind, send, delivered.
      destruct (transport env chat report) as [e|] eqn:Et; simpl; [done|].
      destruct (cleanup_removes_archive temp_dir zip_path d
                  {| fs := fs w; trace := trace w ++ [Sent chat report true] |} Hp Hz)
        as (w' & -> & _ & T).
      done.
    + apply contains_app.
    + apply format_1f_digits. lia.
    + apply tenths_nearest.
    + rewrite Hr. unfold delivered in H. apply bool_decide_eq_true_1 in H.
      unfold bind, send. rewrite H. simpl.
      by destruct (cleanup_removes_archive temp_dir zip_path d
                  {| fs := fs w; trace := trace w ++ [Sent chat report true] |} Hp Hz)
        as (w' & -> & _ & T).
    + rewrite Hr. unfold delivered in H. apply bool_decide_eq_true_1 in H.
      unfold bind, send. rewrite H. simpl.
      by destruct (cleanup_removes_archive temp_dir zip_path d
                  {| fs := fs w; trace := trace w ++ [Sent chat report true] |} Hp Hz)
        as (w' & -> & L & T).
  - intros Hsmall document.
    rewrite (proj2 (Z.ltb_lt _ _)) in Hr by done.
    unfold reply_document, reply, update in Hr. simpl in Hr.
    rewrite bind_assoc in Hr. unfold bind at 1 in Hr. unfold get_fs at 1 in Hr.
    rewrite node_at_lookup, Hz in Hr by done. fold document in Hr.
    rewrite Hr. unfold bind, send, delivered.
    destruct (transport env chat document) as [e|] eqn:Et; simpl; [done|].
    by destruct (cleanup_removes_archive temp_dir zip_path d
                  {| fs := fs w; trace := trace w ++ [Sent chat document true] |} Hp Hz)
      as (w' & -> & _ & T).
Qed.

Lemma size_gate_witness :
  fs big_zip_world !! ["downloads"; "Playlist.zip"] = Some (File (Zip [])) /\
  48 * 1048576 <= 62914560 /\
  let report := Text (too_big_text (file_size_mb 62914560)) in
  trace ((send_or_report big_zip_env (text_update 7 "") "Playlist" []
            ["downloads"; "Playlist.zip"] >>
          cleanup ["downloads"; "temp_42"] ["downloads"; "Playlist.zip"]) big_zip_world).2
  = trace big_zip_world ++ [Sent 7 report (delivered big_zip_env 7 report)].
Proof.
  assert (H : fs big_zip_world !! ["downloads"; "Playlist.zip"] = Some (File (Zip []))).
  { by vm_compute. }
  split; [exact H|]. split; [lia|].
  refine (proj1 (proj1 (size_gate big_zip_env 7 "" "Playlist" [] ["downloads"; "temp_42"]
                          ["downloads"; "Playlist.zip"] (Zip []) big_zip_world _ H) _)).
  - done.
  - simpl. lia.
Defined.

(** When the size report itself raises, the cleanup after it is not
    reached: the exception leaves with the archive still on the storage. *)
Lemma size_report_raises (env : Env) (chat : Z) (text name : string) (songs : list Song)
    (temp_dir zip_path : path) (d : fdata) (e : exn) (w : World) :
  zip_path <> [] ->
  fs w !! zip_path = Some (File d) ->
  let size := match d with
              | Bytes b => Z.of_nat (String.length b)
              | Zip members => zip_size env members
              end in
  let report := Text (too_big_text (file_size_mb size)) in
  48 * 1048576 <= size ->
  transport env chat report = Some e ->
  (send_or_report env (text_update chat text) name songs zip_path >>
   cleanup temp_dir zip_path) w =
  (Raise e, logged w (Sent chat report false)).
Proof.
  intros Hp Hz size report Hsize Ht.
  unfold bind at 1. unfold send_or_report. unfold bind at 1.
  rewrite (st_size_file env zip_path d) by done.
  rewrite below_ceiling_spec. fold size.
  assert ((size <? 48 * 1048576) = false) as -> by lia.
  unfold reply_text, reply, send. cbn [text_update message msg_chat].
  fold report. by rewrite Ht.
Qed.

(** C3.  An archive of 60 MB whose size report times out: the document is
    not sent and the report is attempted, but the exception of the report
    skips the cleanup, so the request ends, after its error text, with the
    oversize archive and the workspace still on the storage. *)
Theorem oversize_archive_kept_when_report_raises :
  let url := "https://open.spotify.com/track/abc" in
  let report := Text (too_big_text (file_size_mb 62914560)) in
  let r := process_spotify oversize_env url (text_update 7 url) fresh_world in
  transport oversize_env 7 report = Some (Exn Exception "Timed out") /\
  r.1 = Ret tt /\
  trace r.2 =
    [ Search url;
      Sent 7 (Text "Found 1 track(s). Downloading...") true;
      Download one_track;
      Sent 7 report false;
      Sent 7 (Text "Spotify error: Timed out") true ] /\
  fs r.2 !! ["downloads"; "Some_Artist.zip"] =
    Some (File (Zip [(["Some Artist - Song.mp3"], Some (Bytes "ID3"))])) /\
  fs r.2 !! ["downloads"; "temp_42"] = Some Dir /\
  fs r.2 !! ["downloads"; "temp_42"; "Some Artist - Song.mp3"] = Some (File (Bytes "ID3")).
Proof. by vm_compute. Qed.

(** ** Cleanup *)

(** C1.  A request whose archive cannot be sent ends normally, with the
    error reported, and leaves its workspace, the track in it and the
    archive on the storage. *)
Theorem cleanup_skipped_when_send_raises :
  let url := "https://open.spotify.com/track/abc" in
  let r := process_spotify timeout_env url (text_update 7 url) fresh_world in
  r.1 = Ret tt /\
  last (trace r.2) = Some (Sent 7 (Text "Spotify error: Timed out") true) /\
  fs r.2 !! ["downloads"; "temp_42"] = Some Dir /\
  fs r.2 !! ["downloads"; "temp_42"; "Some Artist - Song.mp3"] = Some (File (Bytes "ID3")) /\
  fs r.2 !! ["downloads"; "Some_Artist.zip"] =
    Some (File (Zip [(["Some Artist - Song.mp3"], Some (Bytes "ID3"))])).
Proof. by vm_compute. Qed.

(** The same on the scrape path: a photo that cannot be sent stays on the
    storage. *)
Example scrape_file_left_behind :
  let url := "https://pin.it/xyz" in
  let r := handle_message timeout_env (text_update 7 url) fresh_world in
  r.1 = Raise (Exn Exception "Timed out") /\
  fs r.2 !! ["downloads"; "pin_42.jpg"] = Some (File (Bytes "JPEG")).
Proof. by vm_compute. Qed.

(** The single-item path does clean up when the send raises: its send is
    wrapped in [try ... finally]. *)
Example button_callback_cleans_up :
  let r := button_callback timeout_env (button_update 7 "yt|mp3|https://youtu.be/abc")
             fresh_world in
  r.1 = Raise (Exn Exception "Timed out") /\
  (extract_info timeout_env (ydl_opts_of "mp3") "https://youtu.be/abc").(writes) =
    [(["downloads"; "My.Song.mp3"], "ID3")] /\
  fs r.2 !! ["downloads"; "My.Song.mp3"] = None.
Proof. by vm_compute. Qed.

(** ** The batch *)

Lemma file_name_spec (c : string) :
  file_name c = true -> Py.mem "/" c = false /\ c <> "" /\ c <> ".".
Proof.
  unfold file_name. intros [[H1 H2]%andb_true_iff H3]%andb_true_iff.
  apply negb_true_iff in H1, H2, H3.
  by apply String.eqb_neq in H2, H3.
Qed.

Lemma Path_file_name (c : string) :
  file_name c = true -> PyPath.Path c = [c] /\ PyPath.name [c] = c.
Proof.
  intros (Hs & He & Hd)%file_name_spec.
  assert (Py.startswith "/" c = false) as Hr.
  { destruct c as [|a c]; [done|]. cbn [Py.mem] in Hs.
    apply orb_false_iff in Hs as [Ha _]. cbn [Py.startswith].
    by rewrite ascii_eqb_sym, Ha. }
  split.
  - pose proof (joinpath_plain [] c Hs He Hd) as J.
    unfold PyPath.joinpath in J. rewrite Hr in J. simpl in J.
    assert (Py.startswith "//" c = false) as Hr2.
    { destruct c as [|a c]; [done|]. cbn [Py.startswith] in *.
      by destruct (Ascii.eqb "/" a). }
    unfold PyPath.Path, PyPath.root. by rewrite Hr2, Hr, J.
  - unfold PyPath.name. simpl. unfold PyPath.is_root. by rewrite Hr.
Qed.

Lemma saved_as_spec (env : Env) (song : Song) (c b : string) :
  saved_as env song = Some (c, b) ->
  download_song env song = {| writes := [([c], b)]; result := Ret (Some c) |} /\
  file_name c = true /\ c <> "downloads".
Proof.
  unfold saved_as. destruct (download_song env song) as [ws r].
  destruct ws as [|[[|c0 [|? ?]] b0] [|? ?]]; try done.
  destruct r as [[c'|]|]; try done.
  destruct (String.eqb_spec c0 c'); [subst c'|done].
  destruct (file_name c0) eqn:F; [|done].
  destruct (String.eqb_spec c0 "downloads"); [done|].
  simpl. by intros [= -> ->].
Qed.

Lemma fails_cleanly_spec (env : Env) (song : Song) :
  fails_cleanly env song = true ->
  writes (download_song env song) = [] /\
  (result (download_song env song) = Ret None \/
   exists e, result (download_song env song) = Raise e).
Proof.
  unfold fails_cleanly. destruct (download_song env song) as [[|? ?] [[?|]|e]]; try done.
  - auto.
  - eauto.
Qed.

(** A turn of the loop for a track that fails cleanly changes nothing but
    the history. *)
Lemma download_one_failed (env : Env) (temp_dir : path) (song : Song) (w : World) :
  fails_cleanly env song = true ->
  download_one env temp_dir song w = (Ret tt, logged w (Download song)).
Proof.
  intros (Hw & Hr)%fails_cleanly_spec.
  unfold download_one. rewrite try_pass_returns. f_equal.
  unfold call_download_song. rewrite bind_assoc, emit_then, Hw.
  unfold Os.save_all, for_each, bind, ret, lift, logged.
  by destruct Hr as [-> | [e ->]].
Qed.

(** *** Running the storage operations *)

Lemma bind_run {A B} (m : M A) (k : A -> M B) (w w1 : World) (a : A) :
  m w = (Ret a, w1) -> bind m k w = k a w1.
Proof. unfold bind. by intros ->. Qed.

Lemma bind_run_raise {A B} (m : M A) (k : A -> M B) (w w1 : World) (e : exn) :
  m w = (Raise e, w1) -> bind m k w = (Raise e, w1).
Proof. unfold bind. by intros ->. Qed.

Lemma write_run (p : path) (b : string) (w : World) :
  Os.write p b w = (Ret tt, with_fs w (<[p := File (Bytes b)]> (fs w))).
Proof. done. Qed.

Lemma exists_run (p : path) (w : World) :
  Os.exists_ p w = (Ret (FS.exists_ (fs w) p), w).
Proof. done. Qed.

Lemma parent_snoc (d : path) (c : string) :
  (2 <= length d)%nat -> PyPath.parent (d ++ [c]) = d.
Proof.
  intros H. unfold PyPath.parent. rewrite removelast_last.
  destruct d as [|x [|y l]]; simpl in *; try lia; done.
Qed.

(** Renaming a file onto a free name or onto another file. *)
Lemma rename_file_run (src dst : path) (d : fdata) (w : World) :
  src <> [] -> dst <> [] -> src <> dst ->
  fs w !! src = Some (File d) ->
  FS.is_dir (fs w) (PyPath.parent dst) = true ->
  fs w !! dst <> Some Dir ->
  Os.rename src dst w = (Ret tt, with_fs w (<[dst := File d]> (delete src (fs w)))).
Proof.
  intros Hs Hd Hne Hsrc Hpar Hdst. unfold Os.rename, bind, get_fs. cbn [fst snd].
  rewrite !node_at_lookup, Hsrc by done.
  rewrite !bool_decide_eq_false_2 by done. rewrite Hpar. cbn [negb].
  by destruct (fs w !! dst) as [[|d']|].
Qed.

Lemma call_download_song_saved (env : Env) (song : Song) (c b : string) (w : World) :
  download_song env song = {| writes := [([c], b)]; result := Ret (Some c) |} ->
  call_download_song env song w =
  (Ret (Some c),
   {| fs := <[[c] := File (Bytes b)]> (fs w); trace := trace w ++ [Download song] |}).
Proof. intros H. unfold call_download_song. by rewrite emit_then, H. Qed.

(** A turn of the loop for a track that is saved moves its file into the
    workspace, replacing a file of the same name there. *)
Lemma download_one_saved (env : Env) (temp_dir : path) (song : Song) (c b : string)
    (w : World) :
  saved_as env song = Some (c, b) ->
  (2 <= length temp_dir)%nat ->
  fs w !! temp_dir = Some Dir ->
  fs w !! (temp_dir ++ [c]) <> Some Dir ->
  download_one env temp_dir song w =
  (Ret tt,
   {| fs := <[temp_dir ++ [c] := File (Bytes b)]>
              (delete [c] (<[[c] := File (Bytes b)]> (fs w)));
      trace := trace w ++ [Download song] |}).
Proof.
  intros (Hd & Hf & Hn)%saved_as_spec Hlen Htd Hdst.
  destruct (Path_file_name c Hf) as [HP HN].
  destruct (file_name_spec c Hf) as (Hs & He & Hdot).
  assert (Hne : [c] <> temp_dir ++ [c]).
  { intros E. apply (f_equal length) in E. rewrite length_app in E. simpl in E. lia. }
  assert (Htd' : temp_dir <> []) by (intros ->; simpl in Hlen; lia).
  assert (Hc : [c] <> temp_dir) by (intros <-; simpl in Hlen; lia).
  unfold download_one. rewrite try_pass_returns. f_equal.
  erewrite bind_run by (by apply call_download_song_saved).
  cbn beta iota. destruct (String.eqb_spec c ""); [done|].
  rewrite HP, HN, joinpath_plain by done.
  erewrite bind_run by apply exists_run.
  unfold FS.exists_. cbn [fs]. rewrite node_at_lookup, lookup_insert_eq by done.
  erewrite rename_file_run; [done|done| |done| | |].
  - by destruct temp_dir.
  - cbn [fs]. apply lookup_insert_eq.
  - rewrite parent_snoc by done. unfold FS.is_dir. cbn [fs].
    by rewrite node_at_lookup, lookup_insert_ne, Htd.
  - cbn [fs]. by rewrite lookup_insert_ne.
Qed.

(** *** The workspace during the loop *)

Lemma not_below_short (d : path) (c : string) (n : node) :
  (2 <= length d)%nat -> ¬ (d `prefix_of` ([c], n).1 ∧ ([c], n).1 ≠ d).
Proof. intros H [Hp _]. apply prefix_length in Hp. simpl in Hp. lia. Qed.

Lemma below_snoc (d : path) (c : string) (n : node) :
  d `prefix_of` (d ++ [c], n).1 ∧ (d ++ [c], n).1 ≠ d.
Proof.
  simpl. split; [by apply prefix_app_r|].
  intros E. apply (f_equal length) in E. rewrite length_app in E. simpl in E. lia.
Qed.

(** Saving a file in the working directory and moving it into the workspace
    adds one entry below the workspace. *)
Lemma below_step (d : path) (c : string) (n : node) (s : storage) :
  (2 <= length d)%nat ->
  FS.below d (<[d ++ [c] := n]> (delete [c] (<[[c] := n]> s))) =
  <[d ++ [c] := n]> (FS.below d s).
Proof.
  intros H. unfold FS.below.
  rewrite map_filter_insert_True by apply below_snoc.
  rewrite map_filter_delete_not by (intros y _; by apply not_below_short).
  rewrite map_filter_insert_not by (intros y; by apply not_below_short).
  done.
Qed.

Lemma only_files_insert (m : storage) (k : path) (d : fdata) :
  only_files m -> only_files (<[k := File d]> m).
Proof. intros H. by apply map_Forall_insert_2. Qed.

Lemma below_lookup (d k : path) (s : storage) (n : node) :
  FS.below d s !! k = Some n <-> s !! k = Some n /\ d `prefix_of` k /\ k <> d.
Proof. unfold FS.below. by rewrite map_lookup_filter_Some. Qed.

Lemma saved_tracks_cons (env : Env) (song : Song) (songs : list Song) :
  saved_tracks env (song :: songs) =
  match saved_as env song with
  | Some cb => cb :: saved_tracks env songs
  | None => saved_tracks env songs
  end.
Proof. reflexivity. Qed.

(** The loop, when every track either is saved or fails cleanly: it ends
    normally, has tried every track, has left the rest of the download
    folder alone, and the workspace holds the saved tracks. *)
Lemma download_all_clean (env : Env) (d : path) (songs : list Song) (w : World) :
  (2 <= length d)%nat ->
  Forall (fun s => is_Some (saved_as env s) \/ fails_cleanly env s = true) songs ->
  fs w !! d = Some Dir ->
  only_files (FS.below d (fs w)) ->
  exists w',
    for_each songs (download_one env d) w = (Ret tt, w') /\
    trace w' = trace w ++ map Download songs /\
    fs w' !! d = Some Dir /\
    (forall k, DOWNLOAD_DIR `prefix_of` k -> ¬ (d `prefix_of` k ∧ k ≠ d) ->
       fs w' !! k = fs w !! k) /\
    FS.below d (fs w') = moved_in d (saved_tracks env songs) (FS.below d (fs w)).
Proof.
  intros Hlen Hall. revert w.
  induction Hall as [|song songs [[[c b] Hs]|Hf] _ IH]; intros w Hd Hfiles.
  - exists w. simpl. rewrite app_nil_r. done.
  - assert (Hdst : fs w !! (d ++ [c]) <> Some Dir).
    { intros E. apply (Hfiles (d ++ [c]) Dir); [|done].
      apply below_lookup. split; [done|]. apply (below_snoc d c Dir). }
    pose proof (download_one_saved env d song c b w Hs Hlen Hd Hdst) as E1.
    set (w1 := {| fs := _; trace := _ |}) in E1.
    assert (Hc : [c] <> d) by (intros <-; simpl in Hlen; lia).
    assert (Hdc : d ++ [c] <> d) by apply (below_snoc d c Dir).
    destruct (IH w1) as (w' & E & T & D & K & B).
    { unfold w1. cbn [fs]. by rewrite lookup_insert_ne, lookup_delete_ne, lookup_insert_ne. }
    { unfold w1. cbn [fs]. rewrite below_step by done. by apply only_files_insert. }
    exists w'. cbn [for_each]. erewrite bind_run by exact E1.
    split; [done|]. split; [|split; [done|split]].
    + rewrite T. unfold w1. cbn [trace map]. by rewrite <- app_assoc.
    + intros k Hk Hnb. rewrite K by done. unfold w1. cbn [fs].
      apply saved_as_spec in Hs as (_ & _ & Hn).
      rewrite lookup_insert_ne, lookup_delete_ne, lookup_insert_ne; [done| | |].
      * intros <-. destruct Hk as [l Hk]. unfold DOWNLOAD_DIR in Hk. cbn in Hk. congruence.
      * intros <-. destruct Hk as [l Hk]. unfold DOWNLOAD_DIR in Hk. cbn in Hk. congruence.
      * intros <-. apply Hnb. apply (below_snoc d c Dir).
    + rewrite B. unfold w1. cbn [fs]. rewrite below_step by done.
      by rewrite saved_tracks_cons, Hs.
  - pose proof (download_one_failed env d song w Hf) as E1.
    destruct (IH (logged w (Download song))) as (w' & E & T & D & K & B); [done|done|].
    exists w'. cbn [for_each]. erewrite bind_run by exact E1.
    split; [done|]. split; [|split; [done|split; [done|]]].
    + rewrite T. cbn [logged trace map]. by rewrite <- app_assoc.
    + rewrite B, saved_tracks_cons. cbn [logged fs].
      assert (saved_as env song = None) as ->; [|done].
      unfold saved_as. apply fails_cleanly_spec in Hf as [Hw _].
      destruct (download_song env song) as [ws r]. simpl in Hw. by subst ws.
Qed.

Lemma moved_to_keys_inj (d : path) (saved : list (string * string)) :
  NoDup saved.*1 -> NoDup (moved_to d <$> saved).*1.
Proof.
  intros H. rewrite <- list_fmap_compose.
  replace (fst ∘ moved_to d) with ((fun c => d ++ [c]) ∘ (fst : string * string -> string)) by done.
  rewrite list_fmap_compose. apply NoDup_fmap_2; [|done].
  intros c c' E. apply app_inv_head in E. congruence.
Qed.

(** With distinct names, the workspace after the loop is the map of the
    saved tracks over what was there. *)
Lemma moved_in_list_to_map (d : path) (saved : list (string * string)) (m : storage) :
  NoDup saved.*1 ->
  moved_in d saved m = list_to_map (moved_to d <$> saved) ∪ m.
Proof.
  revert m. induction saved as [|cb saved IH]; intros m Hnd.
  - simpl. by rewrite (left_id_L ∅ (∪)).
  - apply NoDup_cons in Hnd as [Hnotin Hnd].
    unfold moved_in in *. cbn [foldl]. rewrite IH by done.
    cbn [fmap list_fmap list_to_map foldr]. rewrite <- insert_union_l.
    rewrite insert_union_r; [done|].
    apply not_elem_of_list_to_map_1.
    rewrite <- list_fmap_compose. intros (cb' & E & Hin)%list_elem_of_fmap.
    simpl in E. apply app_inv_head in E. apply Hnotin.
    apply list_elem_of_fmap. exists cb'. split; [congruence|done].
Qed.

Lemma member_of_moved (d : path) (cb : string * string) :
  Os.member_of d (moved_to d cb) = ([cb.1], Some (Bytes cb.2)).
Proof. unfold Os.member_of, moved_to. simpl. by rewrite drop_app_length. Qed.

(** The members written for a workspace that holds exactly the saved
    tracks: one per track, with its name and its bytes. *)
Lemma members_of_saved (d : path) (saved : list (string * string)) :
  NoDup saved.*1 ->
  map (Os.member_of d) (map_to_list (moved_in d saved ∅)) ≡ₚ
  (fun cb => ([cb.1], Some (Bytes cb.2))) <$> saved.
Proof.
  intros Hnd. rewrite moved_in_list_to_map, (right_id_L ∅ (∪)) by done.
  rewrite map_to_list_to_map by by apply moved_to_keys_inj.
  change (map (Os.member_of d) (moved_to d <$> saved)) with
    (Os.member_of d <$> (moved_to d <$> saved)).
  rewrite <- list_fmap_compose.
  erewrite list_fmap_ext; [done|]. intros i cb _. apply member_of_moved.
Qed.

Lemma moved_in_first (d : path) (cb : string * string) (saved : list (string * string))
    (m : storage) :
  is_Some (moved_in d (cb :: saved) m !! (d ++ [cb.1])).
Proof.
  unfold moved_in. cbn [foldl].
  assert (H : is_Some ((<[(moved_to d cb).1 := (moved_to d cb).2]> m) !! (d ++ [cb.1]))).
  { unfold moved_to. simpl. rewrite lookup_insert_eq. eauto. }
  revert H. generalize (<[(moved_to d cb).1 := (moved_to d cb).2]> m).
  induction saved as [|x saved IH]; intros m' H; [done|].
  cbn [foldl]. apply IH.
  destruct (decide ((moved_to d x).1 = d ++ [cb.1])) as [->|Hne].
  - rewrite lookup_insert_eq. eauto.
  - by rewrite lookup_insert_ne.
Qed.

Lemma subtree_empty_lookup (d k : path) (s : storage) :
  FS.subtree d s = ∅ -> d `prefix_of` k -> s !! k = None.
Proof.
  intros H Hp. destruct (s !! k) as [n|] eqn:E; [|done].
  assert (FS.subtree d s !! k = Some n) as Hs.
  { unfold FS.subtree. by apply map_lookup_filter_Some. }
  by rewrite H in Hs.
Qed.

Lemma below_empty (d : path) (s : storage) : FS.subtree d s = ∅ -> FS.below d s = ∅.
Proof.
  intros H. apply map_empty. intros k. unfold FS.below.
  apply map_lookup_filter_None. destruct (decide (d `prefix_of` k)) as [Hp|Hp].
  - left. by apply (subtree_empty_lookup d).
  - right. intros n _ [Hp' _]. done.
Qed.

Lemma below_insert_self (d : path) (n : node) (s : storage) :
  FS.below d (<[d := n]> s) = FS.below d s.
Proof. unfold FS.below. apply map_filter_insert_not. intros y [_ H]. done. Qed.

Lemma subtree_outside (d : path) (s : storage) : FS.subtree d (FS.outside d s) = ∅.
Proof.
  apply map_empty. intros k. unfold FS.subtree, FS.outside.
  apply map_lookup_filter_None. right. intros n Hn Hp.
  by apply map_lookup_filter_Some in Hn as [_ Hnp].
Qed.

Lemma subtree_delete_empty (d k : path) (s : storage) :
  FS.subtree d s = ∅ -> FS.subtree d (delete k s) = ∅.
Proof. unfold FS.subtree. intros H. by rewrite map_filter_delete, H, delete_empty. Qed.

(** Removing a folder that was created in a place where nothing was gives
    back the storage as it was. *)
Lemma outside_insert_fresh (d : path) (s : storage) :
  FS.subtree d s = ∅ -> FS.outside d (<[d := Dir]> s) = s.
Proof.
  intros H. unfold FS.outside.
  rewrite map_filter_insert_not by (intros y Hn; by apply Hn).
  apply map_filter_id. intros k n Hk Hp. simpl in Hp.
  by rewrite (subtree_empty_lookup d k s H Hp) in Hk.
Qed.

Lemma children_empty (d : path) (s : storage) : FS.below d s = ∅ -> FS.children d s = ∅.
Proof.
  intros H. apply map_empty. intros k. unfold FS.children.
  apply map_lookup_filter_None.
  destruct (s !! k) as [n|] eqn:E; [right|by left].
  intros n' _ [Hne Hr]. simpl in *.
  assert (FS.below d s !! k = Some n) as Hb.
  { apply below_lookup. split; [done|].
    rewrite (app_removelast_last "" Hne), Hr.
    apply (below_snoc d (List.last k "") Dir). }
  by rewrite H in Hb.
Qed.

Lemma children_nonempty (d : path) (c : string) (s : storage) :
  is_Some (s !! (d ++ [c])) -> FS.children d s <> ∅.
Proof.
  intros [n Hn] E.
  assert (FS.children d s !! (d ++ [c]) = Some n) as H.
  { unfold FS.children. apply map_lookup_filter_Some. split; [done|]. simpl.
    split; [by destruct d|]. apply removelast_last. }
  by rewrite E in H.
Qed.

Lemma mkdir_run (d : path) (w : World) :
  d <> [] -> fs w !! d = None -> FS.is_dir (fs w) (PyPath.parent d) = true ->
  Os.mkdir_exist_ok d w = (Ret tt, with_fs w (<[d := Dir]> (fs w))).
Proof.
  intros Hd Hn Hp. unfold Os.mkdir_exist_ok, bind, get_fs. cbn [fst snd].
  by rewrite node_at_lookup, Hn, Hp.
Qed.

Lemma any_iterdir_run (d : path) (w : World) :
  d <> [] -> fs w !! d = Some Dir ->
  Os.any_iterdir d w = (Ret (negb (bool_decide (FS.children d (fs w) = ∅))), w).
Proof.
  intros Hd Hn. unfold Os.any_iterdir, bind, get_fs, FS.is_dir. cbn [fst snd].
  by rewrite node_at_lookup, Hn.
Qed.

Lemma rmtree_run (d : path) (w : World) :
  d <> [] -> fs w !! d = Some Dir ->
  Os.rmtree_ignore_errors d w = (Ret tt, with_fs w (FS.remove_tree d (fs w))).
Proof.
  intros Hd Hn. unfold Os.rmtree_ignore_errors, bind, get_fs, FS.is_dir. cbn [fst snd].
  by rewrite node_at_lookup, Hn.
Qed.

Lemma unlink_file_run (p : path) (d : fdata) (w : World) :
  p <> [] -> fs w !! p = Some (File d) ->
  Os.unlink_missing_ok p w = (Ret tt, with_fs w (delete p (fs w))).
Proof.
  intros Hp Hn. unfold Os.unlink_missing_ok, bind, get_fs. cbn [fst snd].
  by rewrite node_at_lookup, Hn.
Qed.

(** Packing the workspace [d] into an archive that lies outside of it. *)
Lemma zip_tree_run (zip d : path) (w : World) :
  zip <> [] -> d <> [] -> ¬ d `prefix_of` zip ->
  fs w !! zip <> Some Dir ->
  FS.is_dir (fs w) (PyPath.parent zip) = true ->
  fs w !! d = Some Dir ->
  Os.zip_tree zip d w =
  (Ret tt,
   with_fs w (<[zip := File (Zip (map (Os.member_of d) (map_to_list (FS.below d (fs w)))))]>
                (fs w))).
Proof.
  intros Hz Hd Hnp Hnd Hpar Hdir.
  assert (zip <> d) as Hne by (intros ->; by apply Hnp).
  unfold Os.zip_tree, Os.rglob_all, bind, get_fs, put_fs, ret, FS.is_dir.
  cbn [fst snd fs trace].
  rewrite !node_at_lookup by done.
  assert (Hb : FS.below d (<[zip := File (Zip [])]> (fs w)) = FS.below d (fs w)).
  { unfold FS.below. rewrite map_filter_insert_not; [done|]. intros y [Hp _]. done. }
  unfold FS.is_dir in Hpar.
  destruct (fs w !! zip) as [[|z]|] eqn:E; try done;
    rewrite Hpar; cbn [negb];
    rewrite node_at_lookup, lookup_insert_ne, Hdir, Hb, insert_insert_eq by done;
    done.
Qed.

Lemma download_all_failed (env : Env) (d : path) (songs : list Song) (w : World) :
  Forall (fun s => fails_cleanly env s = true) songs ->
  for_each songs (download_one env d) w =
  (Ret tt, {| fs := fs w; trace := trace w ++ map Download songs |}).
Proof.
  intros H. revert w. induction H as [|song songs Hf _ IH]; intros w.
  - simpl. rewrite app_nil_r. by destruct w.
  - cbn [for_each]. erewrite bind_run by by apply download_one_failed.
    rewrite IH. cbn [logged fs trace map]. by rewrite <- app_assoc.
Qed.

Lemma nothing_saved (env : Env) (songs : list Song) :
  Forall (fun s => is_Some (saved_as env s) \/ fails_cleanly env s = true) songs ->
  saved_tracks env songs = [] ->
  Forall (fun s => fails_cleanly env s = true) songs.
Proof.
  induction 1 as [|song songs [[cb Hs]|Hf] _ IH]; intros E; [done| |].
  - by rewrite saved_tracks_cons, Hs in E.
  - constructor; [done|]. apply IH. rewrite saved_tracks_cons in E.
    by destruct (saved_as env song).
Qed.

(** Every track is saved or fails: the saved ones are the ones that do not
    fail. *)
Lemma saved_count (env : Env) (songs : list Song) :
  Forall (fun s => is_Some (saved_as env s) \/ fails_cleanly env s = true) songs ->
  (length (saved_tracks env songs) + length (List.filter (fails_cleanly env) songs)
   = length songs)%nat.
Proof.
  induction 1 as [|song songs H _ IH]; [done|].
  rewrite saved_tracks_cons. cbn [List.filter].
  destruct (saved_as env song) as [cb|] eqn:Hs.
  - assert (fails_cleanly env song = false) as ->.
    { destruct cb as [c b]. apply saved_as_spec in Hs as (Hd & _).
      unfold fails_cleanly. by rewrite Hd. }
    simpl. lia.
  - destruct H as [[? ?] | -> ]; [done|]. simpl. lia.
Qed.

Lemma mem_app_r (c : ascii) (l r : string) :
  Py.mem c r = true -> Py.mem c (l +:+ r) = true.
Proof.
  intros H. induction l as [|a l IH]; rewrite ?append_nil, ?append_cons; [done|].
  cbn [Py.mem]. by rewrite IH, orb_true_r.
Qed.

(** The name of a workspace is not the name of an archive. *)
Lemma temp_name_not_zip (h : Z) (x : string) :
  "temp_" +:+ Py.str_of_int h <> x +:+ ".zip".
Proof.
  intros E.
  assert (Py.mem "z" (x +:+ ".zip") = true) as Hz by (by apply mem_app_r).
  rewrite <- E in Hz.
  assert (Url.all_chars temp_char ("temp_" +:+ Py.str_of_int h) = true) as Ht.
  { rewrite all_chars_app. apply andb_true_iff. split; [done|].
    destruct (str_of_int_digits h) as [Hd _]. revert Hd.
    generalize (Py.str_of_int h). intros s.
    induction s as [|a s IH]; simpl; [done|].
    intros [Ha Hs]%andb_true_iff. unfold temp_char at 1. by rewrite Ha, IH. }
  by rewrite (all_chars_no_mem temp_char "z" _ eq_refl Ht) in Hz.
Qed.

Lemma reply_text_run (env : Env) (chat : Z) (text t : string) (w : World) :
  transport env chat (Text t) = None ->
  reply_text env (text_update chat text) t w = (Ret tt, logged w (Sent chat (Text t) true)).
Proof. intros H. unfold reply_text, reply, send. simpl. by rewrite H. Qed.

Lemma call_search_run (env : Env) (url : string) (songs : list Song) (w : World) :
  search env url = Ret songs ->
  call_search env url w = (Ret songs, logged w (Search url)).
Proof. intros H. unfold call_search. by rewrite emit_then, H. Qed.

Lemma try_except_ret {A} (body : M A) (handler : exn -> M A) (w w1 : World) (a : A) :
  body w = (Ret a, w1) -> try_except body handler w = (Ret a, w1).
Proof. unfold try_except. by intros ->. Qed.

Lemma match_nonempty {A B} (l : list A) (a b : B) :
  l <> [] -> match l with [] => a | _ :: _ => b end = b.
Proof. by destruct l. Qed.

(** C2, amended.  A batch of N resolved tracks (N = 0 included) in which
    every download either saves its file under a plain name and returns
    that name, or fails cleanly; every message to the requester is
    delivered; the download folder exists, with no workspace of this URL in
    it and no folder under the name of the archive; and the name of the
    archive is a plain file name.  If the saved tracks have pairwise
    distinct file names, the archive has exactly one member per saved track
    (N - K members, K the number of failing tracks), with the name and the
    bytes of the track, and either it is sent or its size is reported, and
    it is deleted afterwards; if no track is saved, no archive is made, a
    failure text is sent ([No tracks found on Spotify.] for N = 0,
    [Download failed — no files saved.] otherwise) and the storage is as
    before.  In both cases the request ends normally and the workspace is
    gone. *)
Theorem batch_archive_entries (env : Env) (url : string) (chat : Z) (text : string)
    (songs : list Song) (w : World) :
  let update := text_update chat text in
  let temp_dir := temp_dir_of env url in
  let name := batch_name songs in
  let zip_path := zip_path_of name in
  let saved := saved_tracks env songs in
  let found := Sent chat (Text ("Found " +:+ fmt_len songs +:+ " track(s). Downloading...")) true in
  search env url = Ret songs ->
  Forall (fun s => is_Some (saved_as env s) \/ fails_cleanly env s = true) songs ->
  NoDup saved.*1 ->
  (forall m, transport env chat m = None) ->
  fs w !! DOWNLOAD_DIR = Some Dir ->
  FS.subtree temp_dir (fs w) = ∅ ->
  file_name (Py.replace " " "_" name +:+ ".zip") = true ->
  fs w !! zip_path <> Some Dir ->
  exists w',
    process_spotify env url update w = (Ret tt, w') /\
    (length saved + length (List.filter (fails_cleanly env) songs) = length songs)%nat /\
    FS.subtree temp_dir (fs w') = ∅ /\
    (saved = [] ->
       fs w' = fs w /\
       trace w' = trace w ++
         match songs with
         | [] => [Search url; Sent chat (Text "No tracks found on Spotify.") true]
         | _ :: _ =>
             [Search url; found] ++ map Download songs ++
             [Sent chat (Text "Download failed — no files saved.") true]
         end) /\
    (saved <> [] ->
       exists members,
         members ≡ₚ (fun cb => ([cb.1], Some (Bytes cb.2))) <$> saved /\
         length members = length saved /\
         fs w' !! zip_path = None /\
         trace w' = trace w ++ [Search url; found] ++ map Download songs ++
           [Sent chat
              (if zip_size env members <? 48 * 1048576
               then Document zip_path (Some (File (Zip members))) (caption_of name songs)
               else Text (too_big_text (file_size_mb (zip_size env members)))) true]).
Proof.
  destruct (decide (songs = [])) as [->|Hsongs].
  { (* nothing was resolved *)
    intros update temp_dir name zip_path saved found
           Hsearch _ _ Hdeliver _ Hfresh _ _.
    exists (logged (logged w (Search url))
              (Sent chat (Text "No tracks found on Spotify.") true)).
    split.
    { unfold process_spotify. cbn [effective_chat update text_update message msg_chat].
      apply try_except_ret. erewrite bind_run by (by apply call_search_run).
      apply reply_text_run, Hdeliver. }
    split; [done|]. split; [exact Hfresh|]. split; [|done].
    intros _. split; [done|]. cbn [logged trace]. by rewrite <- app_assoc. }
  intros update temp_dir name zip_path saved found
         Hsearch Hclean Hnodup Hdeliver Hroot Hfresh Hzname Hzdir.
  (* the two paths *)
  assert (Htd : temp_dir = ["downloads"; "temp_" +:+ Py.str_of_int (hash env url)])
    by apply temp_dir_of_eq.
  destruct (file_name_spec _ Hzname) as (Hz1 & Hz2 & Hz3).
  assert (Hzp : zip_path = ["downloads"; Py.replace " " "_" name +:+ ".zip"]).
  { unfold zip_path, zip_path_of. by rewrite joinpath_plain. }
  assert (Hlen : (2 <= length temp_dir)%nat) by (rewrite Htd; simpl; lia).
  assert (Htd0 : temp_dir <> []) by (by rewrite Htd).
  assert (Hzp0 : zip_path <> []) by (by rewrite Hzp).
  assert (Hnp : ¬ temp_dir `prefix_of` zip_path).
  { rewrite Htd, Hzp. intros [k Hk]. injection Hk as Hk _.
    symmetry in Hk. by apply temp_name_not_zip in Hk. }
  assert (Hpar_td : PyPath.parent temp_dir = DOWNLOAD_DIR) by (by rewrite Htd).
  assert (Hpar_zip : PyPath.parent zip_path = DOWNLOAD_DIR) by (by rewrite Hzp).
  assert (Hroot_td : DOWNLOAD_DIR <> temp_dir) by (by rewrite Htd).
  assert (Hnone : fs w !! temp_dir = None).
  { by apply (subtree_empty_lookup temp_dir). }
  pose proof (saved_count env songs Hclean) as Hcount. fold saved in Hcount.
  (* running the request *)
  unfold process_spotify. cbn [effective_chat update text_update message msg_chat].
  set (handler := fun e : exn => reply_text _ _ _).
  fold update temp_dir.
  set (w1 := logged w (Search url)).
  set (w2 := logged w1 found).
  set (w3 := with_fs w2 (<[temp_dir := Dir]> (fs w))).
  assert (Hb3 : FS.below temp_dir (fs w3) = ∅).
  { unfold w3. cbn [with_fs fs]. rewrite below_insert_self. by apply below_empty. }
  assert (Hrun : forall k : list Song -> M unit,
    (let! songs0 := call_search env url in
     match songs0 with
     | [] => reply_text env update "No tracks found on Spotify."
     | _ :: _ =>
         reply_text env update ("Found " +:+ fmt_len songs0 +:+ " track(s). Downloading...") >>
         Os.mkdir_exist_ok temp_dir >> k songs0
     end) w = k songs w3).
  { intros k. erewrite bind_run by (by apply call_search_run).
    destruct songs as [|s0 rest]; [done|].
    erewrite bind_run by (apply reply_text_run, Hdeliver).
    erewrite bind_run; [done|]. apply mkdir_run; [done|done|].
    rewrite Hpar_td. unfold FS.is_dir. cbn [logged fs].
    by rewrite node_at_lookup, Hroot. }
  destruct saved as [|cb saved'] eqn:Hsaved.
  - (* no track is saved *)
    pose proof (download_all_failed env temp_dir songs w3
                  (nothing_saved env songs Hclean Hsaved)) as Hloop.
    set (w4 := {| fs := fs w3; trace := trace w3 ++ map Download songs |}) in Hloop.
    eexists. split; [|split; [exact Hcount|]].
    + apply try_except_ret. rewrite Hrun.
      erewrite bind_run by exact Hloop.
      erewrite bind_run.
      2:{ apply any_iterdir_run; [done|]. unfold w4, w3. cbn [with_fs fs].
          apply lookup_insert_eq. }
      rewrite (children_empty temp_dir (fs w4)) by exact Hb3.
      rewrite bool_decide_eq_true_2 by done. cbn [negb].
      erewrite bind_run by (apply reply_text_run, Hdeliver).
      apply rmtree_run; [done|]. cbn [logged fs]. unfold w4, w3. cbn [with_fs fs].
      apply lookup_insert_eq.
    + cbn [with_fs logged fs trace]. unfold FS.remove_tree.
      split; [apply subtree_outside|]. split; [|done]. intros _.
      unfold w4, w3. cbn [with_fs fs trace]. rewrite outside_insert_fresh by done.
      split; [done|]. rewrite match_nonempty by done.
      unfold w2, w1. cbn [logged trace]. by rewrite <- !app_assoc.
  - (* at least one track is saved *)
    destruct (download_all_clean env temp_dir songs w3 Hlen Hclean) as (w4 & E & T & D & K & B).
    { unfold w3. cbn [with_fs fs]. apply lookup_insert_eq. }
    { rewrite Hb3. apply map_Forall_empty. }
    rewrite Hb3 in B. fold saved in B. rewrite Hsaved in B.
    assert (Hz4 : fs w4 !! zip_path = fs w !! zip_path).
    { rewrite K; [|rewrite Hzp; by eexists [_]|tauto]. unfold w3. cbn [with_fs fs].
      rewrite lookup_insert_ne; [done|]. intros Heq. apply Hnp. by rewrite Heq. }
    assert (Hr4 : fs w4 !! DOWNLOAD_DIR = Some Dir).
    { rewrite K; [|done|].
      - unfold w3. cbn [with_fs fs]. by rewrite lookup_insert_ne.
      - intros [Hp _]. apply prefix_length in Hp.
        change (length DOWNLOAD_DIR) with 1%nat in Hp. lia. }
    set (members := map (Os.member_of temp_dir) (map_to_list (FS.below temp_dir (fs w4)))).
    assert (Hmem : members ≡ₚ (fun cb => ([cb.1], Some (Bytes cb.2))) <$> (cb :: saved')).
    { unfold members. rewrite B. apply members_of_saved. exact Hnodup. }
    set (w5 := with_fs w4 (<[zip_path := File (Zip members)]> (fs w4))).
    set (answer := if zip_size env members <? 48 * 1048576
                   then Document zip_path (Some (File (Zip members))) (caption_of name songs)
                   else Text (too_big_text (file_size_mb (zip_size env members)))).
    set (w6 := logged w5 (Sent chat answer true)).
    assert (Hsend : send_or_report env update name songs zip_path w5 = (Ret tt, w6)).
    { unfold send_or_report.
      erewrite bind_run.
      2:{ apply (st_size_file env zip_path (Zip members)); [done|].
          unfold w5. cbn [with_fs fs]. apply lookup_insert_eq. }
      rewrite below_ceiling_spec. unfold w6, answer.
      destruct (zip_size env members <? 48 * 1048576).
      - unfold reply_document. erewrite bind_run by reflexivity.
        unfold reply, send, update. cbn [text_update message msg_chat].
        rewrite Hdeliver. rewrite node_at_lookup by done.
        unfold w5. cbn [with_fs fs]. by rewrite lookup_insert_eq.
      - apply reply_text_run, Hdeliver. }
    exists (with_fs w6 (delete zip_path (FS.remove_tree temp_dir (fs w5)))).
    split; [|split; [exact Hcount|]].
    + apply try_except_ret. rewrite Hrun. fold name. fold zip_path.
      erewrite bind_run by exact E.
      erewrite bind_run by (by apply any_iterdir_run).
      rewrite bool_decide_eq_false_2.
      2:{ apply (children_nonempty temp_dir cb.1).
          destruct (moved_in_first temp_dir cb saved' ∅) as [n Hn].
          rewrite <- B in Hn. apply below_lookup in Hn as [Hn _]. eauto. }
      cbn [negb].
      erewrite bind_run.
      2:{ apply zip_tree_run; try done.
          - by rewrite Hz4.
          - rewrite Hpar_zip. unfold FS.is_dir. by rewrite node_at_lookup, Hr4. }
      fold members. fold w5.
      erewrite bind_run by exact Hsend.
      unfold cleanup. erewrite bind_run.
      2:{ apply rmtree_run; [done|]. unfold w6, w5. cbn [logged with_fs fs].
          rewrite lookup_insert_ne; [done|]. intros Heq. apply Hnp. by rewrite Heq. }
      apply (unlink_file_run zip_path (Zip members)); [done|].
      cbn [with_fs logged fs]. unfold FS.remove_tree, FS.outside.
      apply map_lookup_filter_Some. split; [|done].
      unfold w5. cbn [with_fs fs]. apply lookup_insert_eq.
    + cbn [with_fs fs trace]. split.
      { apply subtree_delete_empty, subtree_outside. }
      split; [done|]. intros _. exists members. split; [done|]. split.
      { by rewrite Hmem, length_fmap. }
      split; [apply lookup_delete_eq|].
      unfold w6, w5. cbn [logged with_fs trace]. rewrite T.
      unfold w3, w2, w1. cbn [logged with_fs trace]. by rewrite <- !app_assoc.
Qed.

(** Two tracks, both downloaded, one archive member: the second file
    replaces the first, which has the same name. *)
Lemma duplicate_names_counterexample :
  let url := "https://open.spotify.com/playlist/abc" in
  let r := process_spotify duplicate_env url (text_update 7 url) fresh_world in
  search duplicate_env url = Ret [track "one"; track "one"] /\
  length (saved_tracks duplicate_env [track "one"; track "one"]) = 2%nat /\
  List.filter (fails_cleanly duplicate_env) [track "one"; track "one"] = [] /\
  r.1 = Ret tt /\
  exists members : list (path * option fdata),
    last (trace r.2) =
      Some (Sent 7 (Document ["downloads"; "Playlist.zip"] (Some (File (Zip members)))
                      "Spotify download: Playlist (2 tracks)") true) /\
    length members = 1%nat /\ length members <> (2 - 0)%nat.
Proof.
  repeat split; try by vm_compute.
  exists [(["Band - one.mp3"], Some (Bytes "ID3 one"))]. by vm_compute.
Qed.

(** No track downloaded, and still an archive is made and sent: it holds
    what an earlier request left in the workspace. *)
Example stale_workspace_is_archived :
  let url := "https://open.spotify.com/playlist/abc" in
  let r := process_spotify nothing_found_env url (text_update 7 url) stale_world in
  saved_tracks nothing_found_env [track "two"; track "two"] = [] /\
  last (trace r.2) =
    Some (Sent 7 (Document ["downloads"; "Playlist.zip"]
                    (Some (File (Zip [(["Old - song.mp3"], Some (Bytes "ID3 old"))])))
                    "Spotify download: Playlist (2 tracks)") true).
Proof. by vm_compute. Qed.

Lemma batch_archive_entries_witness :
  let url := "https://open.spotify.com/playlist/abc" in
  let songs := [track "one"; track "two"; track "three"] in
  let zip_path := ["downloads"; "Playlist.zip"] in
  search three_tracks_env url = Ret songs /\
  saved_tracks three_tracks_env songs =
    [("Band - one.mp3", "ID3 one"); ("Band - three.mp3", "ID3 three")] /\
  List.filter (fails_cleanly three_tracks_env) songs = [track "two"] /\
  exists (w' : World) (members : list (path * option fdata)),
    process_spotify three_tracks_env url (text_update 7 url) fresh_world = (Ret tt, w') /\
    members ≡ₚ [ (["Band - one.mp3"], Some (Bytes "ID3 one"));
                 (["Band - three.mp3"], Some (Bytes "ID3 three")) ] /\
    length members = 2%nat /\
    trace w' =
      [ Search url;
        Sent 7 (Text "Found 3 track(s). Downloading...") true;
        Download (track "one"); Download (track "two"); Download (track "three");
        Sent 7 (Document zip_path (Some (File (Zip members)))
                  "Spotify download: Playlist (3 tracks)") true ] /\
    fs w' !! zip_path = None /\
    FS.subtree (temp_dir_of three_tracks_env url) (fs w') = ∅.
Proof.
  intros url songs zip_path. split; [reflexivity|]. split; [reflexivity|].
  split; [reflexivity|].
  destruct (batch_archive_entries three_tracks_env url 7 url songs fresh_world)
    as (w' & E & _ & S & _ & H).
  - reflexivity.
  - apply List.Forall_cons; [left; vm_compute; eauto|].
    apply List.Forall_cons; [right; by vm_compute|].
    apply List.Forall_cons; [left; vm_compute; eauto|]. apply List.Forall_nil.
  - apply (bool_decide_unpack _). by vm_compute.
  - reflexivity.
  - by vm_compute.
  - apply map_filter_singleton_False. intros [k Hk]. by vm_compute in Hk.
  - by vm_compute.
  - by vm_compute.
  - destruct H as (members & P & L & Z & T); [done|].
    exists w', members. split; [exact E|]. split; [exact P|]. split; [exact L|].
    split; [|split; [exact Z|exact S]].
    rewrite T. reflexivity.
Defined.

(** * Further properties of the handlers *)

(** ** process_spotify: resolution and errors *)

Lemma take_length (n : nat) (s : string) : (String.length (Py.take n s) <= n)%nat.
Proof.
  revert s. induction n as [|n IH]; intros [|a s]; simpl; try lia.
  specialize (IH s). lia.
Qed.

Lemma take_all (n : nat) (s : string) : (String.length s <= n)%nat -> Py.take n s = s.
Proof.
  revert s. induction n as [|n IH]; intros [|a s]; simpl; intros H; try done; try lia.
  rewrite IH; [done|lia].
Qed.

(** X1.  A URL that resolves to no track ends the request at once: the
    catalogue is asked, the requester gets the "no tracks" text, no download
    is attempted and the storage is not touched. *)
Theorem process_spotify_no_tracks (env : Env) (url : string) (chat : Z) (text : string)
    (w : World) :
  search env url = Ret [] ->
  transport env chat (Text "No tracks found on Spotify.") = None ->
  process_spotify env url (text_update chat text) w =
  (Ret tt, logged (logged w (Search url)) (Sent chat (Text "No tracks found on Spotify.") true)).
Proof.
  intros Hs Ht. unfold process_spotify. cbn [effective_chat text_update message msg_chat].
  apply try_except_ret.
  erewrite bind_run by (by apply call_search_run).
  by apply reply_text_run.
Qed.

Lemma process_spotify_no_tracks_witness :
  process_spotify quiet_env "https://open.spotify.com/playlist/none"
    (text_update 7 "https://open.spotify.com/playlist/none") fresh_world =
  (Ret tt,
   logged (logged fresh_world (Search "https://open.spotify.com/playlist/none"))
     (Sent 7 (Text "No tracks found on Spotify.") true)).
Proof.
  exact (process_spotify_no_tracks quiet_env _ 7 _ fresh_world eq_refl eq_refl).
Defined.

(** X2.  As long as texts to the requester are delivered, [process_spotify]
    lets no [Exception] out, whatever the catalogue, the downloads, the
    storage and the sending of the archive do. *)
Theorem process_spotify_contains_errors (env : Env) (url : string) (chat : Z) (text : string)
    (w : World) :
  (forall t, transport env chat (Text t) = None) ->
  match (process_spotify env url (text_update chat text) w).1 with
  | Ret _ => True
  | Raise e => is_exception e = false
  end.
Proof.
  intros Ht. unfold process_spotify. cbn [effective_chat text_update message msg_chat].
  match goal with |- context [try_except ?b ?h w] =>
    pose proof (try_except_cases b h w) as H; destruct (b w) as [[r|e] w1] end.
  - by rewrite H.
  - destruct (is_exception e) eqn:Hx; rewrite H; [|done].
    by rewrite reply_text_run.
Qed.

Lemma process_spotify_contains_errors_witness :
  match (process_spotify offline_env "https://open.spotify.com/track/abc"
           (text_update 7 "https://open.spotify.com/track/abc") fresh_world).1 with
  | Ret _ => True
  | Raise e => is_exception e = false
  end.
Proof.
  exact (process_spotify_contains_errors offline_env "https://open.spotify.com/track/abc"
           7 "https://open.spotify.com/track/abc" fresh_world (fun _ => eq_refl)).
Defined.

(** X3.  A catalogue lookup that raises is reported as "Spotify error: "
    followed by at most the first 300 characters of the error text (all of
    it when it is that short); nothing else happens: no download, no change
    of the storage. *)
Theorem search_failure_reported (env : Env) (url : string) (chat : Z) (text : string)
    (e : exn) (w : World) :
  search env url = Raise e -> is_exception e = true ->
  let shown := Py.take 300 (exn_msg e) in
  let report := Text ("Spotify error: " +:+ shown) in
  (process_spotify env url (text_update chat text) w).2 =
    logged (logged w (Search url)) (Sent chat report (delivered env chat report)) /\
  (String.length shown <= 300)%nat /\
  ((String.length (exn_msg e) <= 300)%nat -> shown = exn_msg e).
Proof.
  intros Hs Hx shown report. split; [|split; [apply take_length|apply take_all]].
  unfold process_spotify. cbn [effective_chat text_update message msg_chat].
  unfold try_except.
  erewrite bind_run_raise.
  2:{ unfold call_search. rewrite emit_then. unfold lift. by rewrite Hs. }
  rewrite Hx. unfold reply_text, reply. cbn [text_update message msg_chat].
  apply send_world.
Qed.

Lemma search_failure_reported_witness :
  (process_spotify offline_env "https://open.spotify.com/track/abc"
     (text_update 7 "https://open.spotify.com/track/abc") fresh_world).2 =
  logged (logged fresh_world (Search "https://open.spotify.com/track/abc"))
    (Sent 7 (Text ("Spotify error: " +:+
                   Py.take 300 "HTTPSConnectionPool: Max retries exceeded"))
       (delivered offline_env 7
          (Text ("Spotify error: " +:+
                 Py.take 300 "HTTPSConnectionPool: Max retries exceeded")))).
Proof.
  exact (proj1 (search_failure_reported offline_env "https://open.spotify.com/track/abc" 7
                  "https://open.spotify.com/track/abc"
                  (Exn Exception "HTTPSConnectionPool: Max retries exceeded")
                  fresh_world eq_refl eq_refl)).
Defined.

(** ** button_callback *)

Lemma send_run (env : Env) (chat : Z) (m : msg) (w : World) :
  transport env chat m = None -> send env chat m w = (Ret tt, logged w (Sent chat m true)).
Proof. intros H. unfold send. by rewrite H. Qed.

(** X4.  A button payload that does not start with ["yt|"] is answered and
    otherwise ignored: no extraction, no further message, no change of the
    storage. *)
Theorem button_callback_foreign_payload (env : Env) (update : Update) (query : CallbackQuery)
    (w : World) :
  callback_query update = Some query ->
  Py.startswith "yt|" (cq_data query) = false ->
  transport env (cq_from query) Answer = None ->
  button_callback env update w = (Ret tt, logged w (Sent (cq_from query) Answer true)).
Proof.
  intros Hq Hd Ht. unfold button_callback. rewrite Hq.
  erewrite bind_run by (by apply send_run). by rewrite Hd.
Qed.

Lemma button_callback_foreign_payload_witness :
  button_callback quiet_env (button_update 7 "sp|mp3|https://youtu.be/abc") fresh_world =
  (Ret tt, logged fresh_world (Sent 7 Answer true)).
Proof.
  exact (button_callback_foreign_payload quiet_env (button_update 7 "sp|mp3|https://youtu.be/abc")
           _ fresh_world eq_refl eq_refl eq_refl).
Defined.

(** X5.  A payload ["yt|" + rest] without a second delimiter cannot be
    unpacked into format and URL: after the answer the handler raises a
    [ValueError], before any message about a download and before the
    extractor is called. *)
Theorem button_callback_short_payload (env : Env) (update : Update) (query : CallbackQuery)
    (rest : string) (w : World) :
  callback_query update = Some query ->
  cq_data query = "yt|" +:+ rest ->
  Py.mem "|" rest = false ->
  transport env (cq_from query) Answer = None ->
  button_callback env update w =
  (Raise (ValueError "not enough values to unpack (expected 3, got 2)"),
   logged w (Sent (cq_from query) Answer true)).
Proof.
  intros Hq Hd Hr Ht. unfold button_callback. rewrite Hq.
  erewrite bind_run by (by apply send_run). rewrite Hd.
  assert (Py.startswith "yt|" ("yt|" +:+ rest) = true) as -> by apply startswith_app.
  cbn [negb].
  assert (Py.split "|" 2 ("yt|" +:+ rest) = ["yt"; rest]) as ->; [|done].
  change ("yt|" +:+ rest) with ("yt" +:+ String "|" rest).
  rewrite split_step by done. cbn [Py.split]. by rewrite break_no_sep.
Qed.

Lemma button_callback_short_payload_witness :
  button_callback quiet_env (button_update 7 "yt|mp3") fresh_world =
  (Raise (ValueError "not enough values to unpack (expected 3, got 2)"),
   logged fresh_world (Sent 7 Answer true)).
Proof.
  exact (button_callback_short_payload quiet_env (button_update 7 "yt|mp3") _ "mp3"
           fresh_world eq_refl eq_refl eq_refl eq_refl).
Defined.

(** ** download_youtube: formats *)

(** X6.  Only the literal [mp3] selects audio.  Every other format text is
    handled as video: the extractor gets the options of [mp4], and the file
    name it returns becomes the artifact path unchanged. *)
Theorem download_youtube_other_format (env : Env) (url fmt filename : string)
    (update : Update) (w : World) :
  fmt <> "mp3" ->
  result (extract_info env (ydl_opts_of "mp4") url) = Ret filename ->
  ydl_opts_of fmt = ydl_opts_of "mp4" /\
  postprocessors (ydl_opts_of fmt) = [] /\
  (download_youtube env url fmt update w).1 = Ret (Some (PyPath.Path filename)).
Proof.
  intros Hf Hr.
  assert (String.eqb fmt "mp3" = false) as E by (by apply String.eqb_neq).
  assert (ydl_opts_of fmt = ydl_opts_of "mp4") as Ho.
  { unfold ydl_opts_of. by rewrite E. }
  split; [done|]. split; [by rewrite Ho|].
  unfold download_youtube, try_except. cbv zeta. unfold bind. rewrite Ho.
  destruct (call_extract_result env (ydl_opts_of "mp4") url w) as (w' & -> & _).
  by rewrite Hr, E.
Qed.

Lemma download_youtube_other_format_witness :
  (download_youtube webm_env "https://youtu.be/abc" "flac" (text_update 7 "") fresh_world).1 =
  Ret (Some (PyPath.Path "downloads/My.Song.webm")).
Proof.
  refine (proj2 (proj2 (download_youtube_other_format webm_env "https://youtu.be/abc" "flac"
                          "downloads/My.Song.webm" (text_update 7 "") fresh_world _ eq_refl))).
  done.
Defined.

(** ** The single-item pipeline end to end *)

Lemma try_finally_run {A} (body : M A) (final : M unit) (w w1 w2 : World) (r : res A) :
  body w = (r, w1) -> final w1 = (Ret tt, w2) -> try_finally body final w = (r, w2).
Proof. unfold try_finally. by intros -> ->. Qed.

(** Handing a message to the transport changes the history only. *)
Lemma send_effect (env : Env) (chat : Z) (m : msg) (w : World) :
  exists r ok, send env chat m w = (r, logged w (Sent chat m ok)).
Proof. unfold send. destruct (transport env chat m); simpl; eauto. Qed.

Lemma query_reply_effect (env : Env) (method : string) (query : CallbackQuery) (m : msg)
    (w : World) :
  exists r evs, query_reply env method query m w = (r, {| fs := fs w; trace := trace w ++ evs |}).
Proof.
  unfold query_reply. destruct (cq_message query) as [origin|].
  - destruct (send_effect env (msg_chat origin) m w) as (r & ok & ->).
    exists r, [Sent (msg_chat origin) m ok]. done.
  - exists (Raise (AttributeError method)), []. unfold raise. rewrite app_nil_r. by destruct w.
Qed.

Lemma query_reply_with_run (env : Env) (method : string) (query : CallbackQuery)
    (arg : M msg) (m : msg) (w : World) :
  arg w = (Ret m, w) ->
  query_reply_with env method query arg w = query_reply env method query m w.
Proof.
  intros H. unfold query_reply_with, query_reply.
  destruct (cq_message query) as [origin|]; [|done]. unfold bind. by rewrite H.
Qed.

Lemma open_rb_then (p : path) (d : fdata) (k : fdata -> msg) (w : World) :
  Os.open_rb p w = (Ret d, w) ->
  (let! d := Os.open_rb p in ret (k d)) w = (Ret (k d), w).
Proof. intros H. unfold bind. by rewrite H. Qed.

(** The artifact of a download: the file name the extractor reports, with
    the extension replaced by [mp3] for audio. *)
Lemma download_youtube_saved (env : Env) (url fmt filename b : string) (p : path)
    (update : Update) (w : World) :
  p = PyPath.Path (if String.eqb fmt "mp3"
                   then Py.rsplit1_head "." filename +:+ ".mp3" else filename) ->
  extract_info env (ydl_opts_of fmt) url = {| writes := [(p, b)]; result := Ret filename |} ->
  download_youtube env url fmt update w =
  (Ret (Some p),
   {| fs := <[p := File (Bytes b)]> (fs w);
      trace := trace w ++ [Extract (ydl_opts_of fmt) url] |}).
Proof.
  intros Hp He. unfold download_youtube. cbv zeta. apply try_except_ret.
  unfold call_extract. rewrite bind_assoc, emit_then, He.
  cbn [writes result Os.save_all for_each].
  unfold bind, Os.write, get_fs, put_fs, ret, lift. cbn [fst snd fs trace].
  by rewrite Hp.
Qed.

Lemma payload_split (fmt url : string) :
  Py.mem "|" fmt = false ->
  Py.split "|" 2 ("yt|" +:+ fmt +:+ "|" +:+ url) = ["yt"; fmt; url].
Proof.
  intros H. change ("yt|" +:+ fmt +:+ "|" +:+ url) with ("yt" +:+ String "|" (fmt +:+ String "|" url)).
  rewrite split_step by done. by rewrite split_step.
Qed.

(** X7.  A button press for format [fmt] and address [url] calls the
    extractor with exactly that address and the options of that format, and
    the file the extractor saved is gone from the storage when the handler
    ends, whether the file was sent, the send raised, or the message of the
    buttons was no longer there; no other file is touched. *)
Theorem button_callback_removes_file (env : Env) (update : Update) (query : CallbackQuery)
    (fmt url filename b : string) (w : World) :
  callback_query update = Some query ->
  cq_data query = "yt|" +:+ fmt +:+ "|" +:+ url ->
  Py.mem "|" fmt = false ->
  transport env (cq_from query) Answer = None ->
  transport env (cq_from query) (EditText ("Downloading as " +:+ Py.upper fmt +:+ "...")) = None ->
  let p := PyPath.Path (if String.eqb fmt "mp3"
                        then Py.rsplit1_head "." filename +:+ ".mp3" else filename) in
  p <> [] ->
  extract_info env (ydl_opts_of fmt) url = {| writes := [(p, b)]; result := Ret filename |} ->
  let r := button_callback env update w in
  fs r.2 !! p = None /\
  (forall k, k <> p -> fs r.2 !! k = fs w !! k) /\
  exists rest,
    trace r.2 = trace w ++
      [ Sent (cq_from query) Answer true;
        Sent (cq_from query) (EditText ("Downloading as " +:+ Py.upper fmt +:+ "...")) true;
        Extract (ydl_opts_of fmt) url ] ++ rest.
Proof.
  intros Hq Hd Hf Ha He p Hp Hx r.
  set (w1 := logged w (Sent (cq_from query) Answer true)).
  set (w2 := logged w1 (Sent (cq_from query)
                          (EditText ("Downloading as " +:+ Py.upper fmt +:+ "...")) true)).
  set (w3 := {| fs := <[p := File (Bytes b)]> (fs w2);
                trace := trace w2 ++ [Extract (ydl_opts_of fmt) url] |}).
  set (kind := if String.eqb fmt "mp3" then Audio (Bytes b) else Video (Bytes b)).
  set (method := if String.eqb fmt "mp3" then "reply_audio" else "reply_video").
  (* the send of the file, whatever it does, and the removal after it *)
  destruct (query_reply_effect env method query kind w3) as (r0 & evs & Hsend).
  set (w4 := {| fs := fs w3; trace := trace w3 ++ evs |}) in Hsend.
  set (w5 := with_fs w4 (delete p (fs w4))).
  assert (Hbody : try_finally
            (if String.eqb fmt "mp3"
             then query_reply_with env "reply_audio" query
                    (let! d := Os.open_rb p in ret (Audio d))
             else query_reply_with env "reply_video" query
                    (let! d := Os.open_rb p in ret (Video d)))
            (Os.unlink_missing_ok p) w3 = (r0, w5)).
  { apply (try_finally_run _ _ w3 w4).
    - assert (Hopen : Os.open_rb p w3 = (Ret (Bytes b), w3)).
      { unfold Os.open_rb, bind, get_fs. cbn [fst snd].
        rewrite node_at_lookup by done. unfold w3. cbn [fs]. by rewrite lookup_insert_eq. }
      unfold kind, method in Hsend.
      destruct (String.eqb fmt "mp3");
        rewrite (query_reply_with_run env _ query _ _ w3 (open_rb_then p _ _ w3 Hopen));
        exact Hsend.
    - apply (unlink_file_run p (Bytes b)); [done|].
      unfold w4, w3. cbn [fs]. apply lookup_insert_eq. }
  (* the whole handler *)
  assert (Hr : exists r1 evs', r = (r1, {| fs := fs w5; trace := trace w5 ++ evs' |})).
  { unfold r, button_callback. rewrite Hq.
    erewrite bind_run by (by apply send_run). rewrite Hd.
    assert (Py.startswith "yt|" ("yt|" +:+ fmt +:+ "|" +:+ url) = true) as ->
      by apply startswith_app.
    cbn [negb]. rewrite payload_split by done.
    erewrite bind_run by (by apply send_run).
    erewrite bind_run by (by apply (download_youtube_saved env url fmt filename b p)).
    fold w1 w2 w3. cbn beta iota.
    destruct r0 as [[]|e].
    - erewrite bind_run by exact Hbody.
      destruct (query_reply_effect env "delete" query DeleteMessage w5) as (r1 & evs' & ->).
      eauto.
    - erewrite bind_run_raise by exact Hbody.
      exists (Raise e), []. rewrite app_nil_r. by destruct w5. }
  destruct Hr as (r1 & evs' & ->). cbn [snd fs trace].
  unfold w5, w4, w3, w2, w1. cbn [with_fs logged fs trace].
  split; [apply lookup_delete_eq|]. split.
  - intros k Hk. by rewrite lookup_delete_ne, lookup_insert_ne.
  - exists (evs ++ evs'). by rewrite <- !app_assoc.
Qed.

Lemma button_callback_removes_file_witness :
  fs (button_callback timeout_env (button_update 7 ("yt|" +:+ "mp3" +:+ "|" +:+ "https://youtu.be/abc"))
        fresh_world).2 !! ["downloads"; "My.Song.mp3"] = None.
Proof.
  refine (proj1 (button_callback_removes_file timeout_env
                   (button_update 7 ("yt|" +:+ "mp3" +:+ "|" +:+ "https://youtu.be/abc")) _
                   "mp3" "https://youtu.be/abc" "downloads/My.Song.webm" "ID3" fresh_world
                   eq_refl eq_refl eq_refl eq_refl eq_refl _ eq_refl)).
  done.
Defined.

(** X8.  When everything works, a button press produces, in this order: the
    answer to the press, the "Downloading as ..." edit with the format in
    upper case, one call of the extractor, the saved bytes sent as audio for
    [mp3] and as video for any other format, and the removal of the message
    with the buttons; the handler ends normally and the storage is as before
    wherever the file was not. *)
Theorem button_callback_sends_file (env : Env) (update : Update) (query : CallbackQuery)
    (origin : Message) (fmt url filename b : string) (w : World) :
  callback_query update = Some query ->
  cq_message query = Some origin ->
  cq_data query = "yt|" +:+ fmt +:+ "|" +:+ url ->
  Py.mem "|" fmt = false ->
  (forall chat m, transport env chat m = None) ->
  let p := PyPath.Path (if String.eqb fmt "mp3"
                        then Py.rsplit1_head "." filename +:+ ".mp3" else filename) in
  p <> [] ->
  extract_info env (ydl_opts_of fmt) url = {| writes := [(p, b)]; result := Ret filename |} ->
  let media := if String.eqb fmt "mp3" then Audio (Bytes b) else Video (Bytes b) in
  button_callback env update w =
  (Ret tt,
   {| fs := delete p (<[p := File (Bytes b)]> (fs w));
      trace := trace w ++
        [ Sent (cq_from query) Answer true;
          Sent (cq_from query) (EditText ("Downloading as " +:+ Py.upper fmt +:+ "...")) true;
          Extract (ydl_opts_of fmt) url;
          Sent (msg_chat origin) media true;
          Sent (msg_chat origin) DeleteMessage true ] |}).
Proof.
  intros Hq Ho Hd Hf Ht p Hp Hx media.
  unfold button_callback. rewrite Hq.
  erewrite bind_run by (by apply send_run). rewrite Hd.
  assert (Py.startswith "yt|" ("yt|" +:+ fmt +:+ "|" +:+ url) = true) as ->
    by apply startswith_app.
  cbn [negb]. rewrite payload_split by done.
  erewrite bind_run by (by apply send_run).
  erewrite bind_run by (by apply (download_youtube_saved env url fmt filename b p)).
  cbn beta iota.
  match goal with |- bind _ _ ?w0 = _ => set (w3 := w0) end.
  assert (Hopen : Os.open_rb p w3 = (Ret (Bytes b), w3)).
  { unfold Os.open_rb, bind, get_fs. cbn [fst snd].
    rewrite node_at_lookup by done. unfold w3. cbn [fs logged]. by rewrite lookup_insert_eq. }
  erewrite bind_run.
  2:{ apply (try_finally_run _ _ w3 (logged w3 (Sent (msg_chat origin) media true))).
      - unfold media. destruct (String.eqb fmt "mp3");
          rewrite (query_reply_with_run env _ query _ _ w3 (open_rb_then p _ _ w3 Hopen));
          unfold query_reply; rewrite Ho; by apply send_run.
      - apply (unlink_file_run p (Bytes b)); [done|].
        unfold w3. cbn [fs logged]. apply lookup_insert_eq. }
  unfold query_reply. rewrite Ho. rewrite send_run by done.
  unfold w3, logged, with_fs. cbn [fs trace]. by rewrite <- !app_assoc.
Qed.

Lemma button_callback_sends_file_witness :
  (button_callback webm_env (button_update 7 ("yt|" +:+ "mp3" +:+ "|" +:+ "https://youtu.be/abc"))
     fresh_world).1 = Ret tt.
Proof.
  refine (f_equal fst (button_callback_sends_file webm_env
                   (button_update 7 ("yt|" +:+ "mp3" +:+ "|" +:+ "https://youtu.be/abc")) _ _
                   "mp3" "https://youtu.be/abc" "downloads/My.Song.webm" "ID3" fresh_world
                   eq_refl eq_refl eq_refl eq_refl (fun _ _ => eq_refl) _ eq_refl)).
  done.
Defined.

(** ** handle_message: the branches *)

Lemma send_raises (env : Env) (chat : Z) (m : msg) (e : exn) (w : World) :
  transport env chat m = Some e -> send env chat m w = (Raise e, logged w (Sent chat m false)).
Proof. intros H. unfold send. by rewrite H. Qed.

(** X9.  A Spotify link is acknowledged first and its task started second,
    without the handler doing any of the work itself; when the
    acknowledgement cannot be sent, its exception leaves the handler and no
    task is started. *)
Theorem handle_message_spotify (env : Env) (chat : Z) (text : string) (w : World) :
  let url := Py.strip text in
  let ack := Text "Spotify detected → starting download..." in
  has_scheme url = true ->
  is_spotify_url url = Ret true ->
  (transport env chat ack = None ->
     handle_message env (text_update chat text) w =
     (Ret tt, logged (logged w (Sent chat ack true)) (Spawn url))) /\
  (forall e, transport env chat ack = Some e ->
     handle_message env (text_update chat text) w =
     (Raise e, logged w (Sent chat ack false))).
Proof.
  intros url ack Hs Hsp.
  assert (Hh :
    handle_message env (text_update chat text) w =
    (reply_text env (text_update chat text) "Spotify detected → starting download..." >>
     emit (Spawn url)) w).
  { unfold handle_message. cbn [text_update message msg_text]. fold url.
    rewrite Hs. cbn [negb]. unfold bind at 1. unfold lift at 1. by rewrite Hsp. }
  split.
  - intros Ht. rewrite Hh. by erewrite bind_run by (by apply reply_text_run).
  - intros e Ht. rewrite Hh.
    erewrite bind_run_raise; [done|].
    unfold reply_text, reply. cbn [text_update message msg_chat]. by apply send_raises.
Qed.

Lemma handle_message_spotify_witness :
  handle_message quiet_env (text_update 7 " https://open.spotify.com/album/abc ") fresh_world =
  (Ret tt,
   logged (logged fresh_world (Sent 7 (Text "Spotify detected → starting download...") true))
     (Spawn (Py.strip " https://open.spotify.com/album/abc "))).
Proof.
  exact (proj1 (handle_message_spotify quiet_env 7 " https://open.spotify.com/album/abc "
                  fresh_world eq_refl eq_refl) eq_refl).
Defined.

(** X10.  A YouTube link gets exactly one message, the two-button keyboard,
    and nothing is downloaded yet.  Unpacking the payload of the first
    button the way [button_callback] does gives [mp3] and the link, the
    second gives [mp4] and the link, whatever characters the link has. *)
Theorem handle_message_youtube (env : Env) (chat : Z) (text : string) (w : World) :
  let url := Py.strip text in
  let choice := Keyboard "YouTube detected → choose format:" (keyboard url) in
  has_scheme url = true ->
  classify url = Ret PlatformC ->
  (handle_message env (text_update chat text) w).2 =
    logged w (Sent chat choice (delivered env chat choice)) /\
  map (fun row => map (fun button => Py.split "|" 2 button.2) row) (keyboard url) =
    [[ ["yt"; "mp3"; url]; ["yt"; "mp4"; url] ]].
Proof.
  intros url choice Hs Hc. split.
  - unfold classify in Hc. rewrite Hs in Hc. cbn [negb] in Hc.
    unfold handle_message. cbn [text_update message msg_text]. fold url.
    rewrite Hs. cbn [negb]. unfold bind, lift.
    destruct (is_spotify_url url) as [[]|]; try done.
    destruct (is_pinterest_url url) as [[]|]; try done.
    destruct (is_youtube_url url) as [[]|]; try done.
    unfold reply. cbn [text_update message msg_chat]. apply send_world.
  - unfold keyboard. cbn [map snd].
    change ("yt|mp3|" +:+ url) with ("yt|" +:+ "mp3" +:+ "|" +:+ url).
    change ("yt|mp4|" +:+ url) with ("yt|" +:+ "mp4" +:+ "|" +:+ url).
    by rewrite (payload_split "mp3" url eq_refl), (payload_split "mp4" url eq_refl).
Qed.

Lemma handle_message_youtube_witness :
  (handle_message quiet_env (text_update 7 "https://youtu.be/a|b") fresh_world).2 =
  logged fresh_world
    (Sent 7 (Keyboard "YouTube detected → choose format:" (keyboard (Py.strip "https://youtu.be/a|b")))
       (delivered quiet_env 7
          (Keyboard "YouTube detected → choose format:" (keyboard (Py.strip "https://youtu.be/a|b"))))).
Proof.
  exact (proj1 (handle_message_youtube quiet_env 7 "https://youtu.be/a|b" fresh_world
                  eq_refl eq_refl)).
Defined.

(** ** Whitespace around the text *)

Lemma lstrip_pad (p : ascii -> bool) (pad s : string) :
  Url.all_chars p pad = true -> Py.lstrip_by p (pad +:+ s) = Py.lstrip_by p s.
Proof.
  induction pad as [|a pad IH]; rewrite ?append_nil, ?append_cons; [done|].
  cbn [Url.all_chars Py.lstrip_by]. intros [-> H]%andb_true_iff. auto.
Qed.

Lemma rstrip_all (p : ascii -> bool) (pad : string) :
  Url.all_chars p pad = true -> Py.rstrip_by p pad = "".
Proof.
  induction pad as [|a pad IH]; [done|].
  cbn [Url.all_chars Py.rstrip_by]. intros [Ha H]%andb_true_iff. by rewrite IH, Ha.
Qed.

Lemma rstrip_pad (p : ascii -> bool) (s pad : string) :
  Url.all_chars p pad = true -> Py.rstrip_by p (s +:+ pad) = Py.rstrip_by p s.
Proof.
  intros H. induction s as [|a s IH]; rewrite ?append_nil, ?append_cons.
  - by apply rstrip_all.
  - cbn [Py.rstrip_by]. by rewrite IH.
Qed.

Lemma lstrip_app (p : ascii -> bool) (s pad : string) :
  Py.lstrip_by p s <> "" -> Py.lstrip_by p (s +:+ pad) = Py.lstrip_by p s +:+ pad.
Proof.
  induction s as [|a s IH]; [done|]. rewrite append_cons. cbn [Py.lstrip_by].
  destruct (p a); [auto|]. intros _. by rewrite append_cons.
Qed.

Lemma lstrip_empty_all (p : ascii -> bool) (s : string) :
  Py.lstrip_by p s = "" -> Url.all_chars p s = true.
Proof.
  induction s as [|a s IH]; [done|]. cbn [Py.lstrip_by Url.all_chars].
  destruct (p a); [auto|done].
Qed.

(** [strip] removes any whitespace put around a text, and only that. *)
Lemma strip_padding (pad1 text pad2 : string) :
  Url.all_chars Py.isspace pad1 = true -> Url.all_chars Py.isspace pad2 = true ->
  Py.strip (pad1 +:+ text +:+ pad2) = Py.strip text.
Proof.
  intros H1 H2. unfold Py.strip. rewrite lstrip_pad by done.
  destruct (string_dec (Py.lstrip_by Py.isspace text) "") as [E|E].
  - rewrite E. apply lstrip_empty_all in E.
    replace (Py.lstrip_by Py.isspace (text +:+ pad2)) with "".
    + done.
    + symmetry. rewrite <- (append_nil_r (text +:+ pad2)).
      rewrite lstrip_pad; [done|]. rewrite all_chars_app. by rewrite E, H2.
  - rewrite lstrip_app by done. by apply rstrip_pad.
Qed.

(** X11.  Whitespace before and after the text of a message never changes
    what [handle_message] does: the handler works on the stripped text. *)
Theorem handle_message_ignores_padding (env : Env) (chat : Z) (pad1 text pad2 : string)
    (w : World) :
  Url.all_chars Py.isspace pad1 = true ->
  Url.all_chars Py.isspace pad2 = true ->
  handle_message env (text_update chat (pad1 +:+ text +:+ pad2)) w =
  handle_message env (text_update chat text) w.
Proof.
  intros H1 H2. unfold handle_message. cbn [text_update message msg_text].
  rewrite strip_padding by done.
  unfold reply_text, reply. cbn [text_update message msg_chat]. done.
Qed.

Lemma handle_message_ignores_padding_witness :
  handle_message quiet_env
    (text_update 7 ((String "009" " ") +:+ "https://youtu.be/abc" +:+ (String "010" ""))) fresh_world =
  handle_message quiet_env (text_update 7 "https://youtu.be/abc") fresh_world.
Proof.
  exact (handle_message_ignores_padding quiet_env 7 (String "009" " ") "https://youtu.be/abc"
           (String "010" "") fresh_world eq_refl eq_refl).
Defined.

(** ** What the classifier looks at *)

Lemma remove_app (c : ascii) (a b : string) :
  Py.remove c (a +:+ b) = Py.remove c a +:+ Py.remove c b.
Proof.
  induction a as [|x a IH]; rewrite ?append_nil, ?append_cons; [done|].
  cbn [Py.remove]. destruct (Ascii.eqb x c); [done|]. by rewrite append_cons, IH.
Qed.

Lemma remove_absent (c : ascii) (s : string) : Py.mem c s = false -> Py.remove c s = s.
Proof.
  induction s as [|x s IH]; [done|]. cbn [Py.mem Py.remove].
  intros [-> H]%orb_false_iff. by rewrite IH.
Qed.

Lemma all_chars_mem_false (p : ascii -> bool) (c : ascii) (s : string) :
  (forall x, p x = true -> Ascii.eqb x c = false) ->
  Url.all_chars p s = true -> Py.mem c s = false.
Proof.
  intros Hp. induction s as [|x s IH]; [done|]. cbn [Url.all_chars Py.mem].
  intros [Hx H]%andb_true_iff. by rewrite (Hp x Hx), IH.
Qed.

Lemma scheme_char_facts (c : ascii) :
  Url.scheme_char c = true ->
  Ascii.eqb c "009" = false /\ Ascii.eqb c "010" = false /\ Ascii.eqb c "013" = false /\
  Ascii.eqb c ":" = false /\ Url.c0_or_space c = false.
Proof. revert c. intros [[] [] [] [] [] [] [] []]; by vm_compute. Qed.

Lemma host_char_facts (c : ascii) :
  host_char c = true ->
  Ascii.eqb c "009" = false /\ Ascii.eqb c "010" = false /\ Ascii.eqb c "013" = false /\
  Ascii.eqb c "[" = false /\ Ascii.eqb c "]" = false /\ Url.is_delim c = false.
Proof. revert c. intros [[] [] [] [] [] [] [] []]; by vm_compute. Qed.

Lemma delim_facts (c : ascii) :
  Url.is_delim c = true ->
  Ascii.eqb c "009" = false /\ Ascii.eqb c "010" = false /\ Ascii.eqb c "013" = false.
Proof. revert c. intros [[] [] [] [] [] [] [] []]; by vm_compute. Qed.

Lemma break_app (p : ascii -> bool) (l r : string) :
  Url.all_chars (fun c => negb (p c)) l = true ->
  match r with EmptyString => true | String c _ => p c end = true ->
  Py.break p (l +:+ r) = (l, r).
Proof.
  intros Hl Hr. induction l as [|a l IH]; rewrite ?append_nil, ?append_cons.
  - destruct r as [|c r]; [done|]. cbn [Py.break]. by rewrite Hr.
  - cbn [Url.all_chars] in Hl. apply andb_true_iff in Hl as [Ha Hl].
    cbn [Py.break]. apply negb_true_iff in Ha. by rewrite Ha, IH.
Qed.

Lemma all_chars_impl (p q : ascii -> bool) (s : string) :
  (forall c, p c = true -> q c = true) ->
  Url.all_chars p s = true -> Url.all_chars q s = true.
Proof.
  intros H. induction s as [|a s IH]; [done|]. cbn [Url.all_chars].
  intros [Ha Hs]%andb_true_iff. by rewrite (H a Ha), IH.
Qed.

Lemma after_host_remove (c : ascii) (rest : string) :
  Ascii.eqb c "009" || Ascii.eqb c "010" || Ascii.eqb c "013" = true ->
  after_host rest = true -> after_host (Py.remove c rest) = true.
Proof.
  intros Hc. destruct rest as [|x rest]; [done|]. cbn [after_host Py.remove].
  intros Hx. destruct (Ascii.eqb_spec x c) as [->|_]; [|done].
  destruct (delim_facts c Hx) as (H1 & H2 & H3). by rewrite H1, H2, H3 in Hc.
Qed.

Lemma authority_char_facts (c : ascii) :
  authority_char c = true ->
  Ascii.eqb c "009" = false /\ Ascii.eqb c "010" = false /\ Ascii.eqb c "013" = false /\
  Url.is_delim c = false.
Proof. revert c. intros [[] [] [] [] [] [] [] []]; by vm_compute. Qed.

(** The network location of [scheme://host rest] is [host], unless [host]
    has a bracket of one kind only. *)
Lemma netloc_url_of_authority (scheme host rest : string) (a : ascii) (pre : string) :
  scheme = String a pre -> Py.isalpha a = true ->
  Url.all_chars Url.scheme_char scheme = true ->
  Url.all_chars authority_char host = true ->
  after_host rest = true ->
  Url.netloc (url_of scheme host rest) =
  if xorb (Py.mem "[" host) (Py.mem "]" host)
  then Raise (ValueError "Invalid IPv6 URL") else Ret host.
Proof.
  intros Hsch Ha Hs Hh Hr.
  assert (Hs_no : forall c, Ascii.eqb c "009" || Ascii.eqb c "010" || Ascii.eqb c "013"
                            || Ascii.eqb c ":" = true ->
                            Py.mem c scheme = false).
  { intros c Hc. apply (all_chars_mem_false Url.scheme_char); [|done].
    intros x Hx. destruct (scheme_char_facts x Hx) as (H1 & H2 & H3 & H4 & _).
    destruct (Ascii.eqb_spec x c) as [<-|]; [|done]. by rewrite H1, H2, H3, H4 in Hc. }
  assert (Hh_no : forall c, Ascii.eqb c "009" || Ascii.eqb c "010" || Ascii.eqb c "013" = true ->
                            Py.mem c host = false).
  { intros c Hc. apply (all_chars_mem_false authority_char); [|done].
    intros x Hx. destruct (authority_char_facts x Hx) as (H1 & H2 & H3 & _).
    destruct (Ascii.eqb_spec x c) as [<-|]; [|done]. by rewrite H1, H2, H3 in Hc. }
  set (rest' := Py.remove "013" (Py.remove "010" (Py.remove "009" rest))).
  assert (Hr' : after_host rest' = true).
  { unfold rest'. by repeat apply after_host_remove. }
  unfold Url.netloc. cbv zeta.
  assert (Py.lstrip_by Url.c0_or_space (url_of scheme host rest) = url_of scheme host rest) as ->.
  { unfold url_of. rewrite Hsch, append_cons. cbn [Py.lstrip_by].
    cbn [Url.all_chars] in Hs. rewrite Hsch in Hs. cbn [Url.all_chars] in Hs.
    apply andb_true_iff in Hs as [Hsa _].
    destruct (scheme_char_facts a Hsa) as (_ & _ & _ & _ & ->). done. }
  assert (Py.remove "013" (Py.remove "010" (Py.remove "009" (url_of scheme host rest)))
          = scheme +:+ String ":" ("//" +:+ host +:+ rest')) as ->.
  { unfold url_of, rest'. rewrite !remove_app.
    rewrite !(remove_absent _ scheme) by (by apply Hs_no).
    rewrite !(remove_absent _ host) by (by apply Hh_no). done. }
  assert (Url.drop_scheme (scheme +:+ String ":" ("//" +:+ host +:+ rest'))
          = "//" +:+ host +:+ rest') as ->.
  { unfold Url.drop_scheme. rewrite break_at_sep by (by apply Hs_no).
    rewrite Hsch. rewrite <- Hsch. by rewrite Ha, Hs. }
  rewrite startswith_app.
  unfold Url.splitnetloc.
  change (Py.drop 2 ("//" +:+ host +:+ rest')) with (host +:+ rest').
  rewrite break_app; [done| |done].
  apply (all_chars_impl authority_char); [|done].
  intros c Hc. destruct (authority_char_facts c Hc) as (_ & _ & _ & ->). done.
Qed.

(** The network location of [scheme://host rest] is [host]. *)
Lemma netloc_url_of (scheme host rest : string) (a : ascii) (pre : string) :
  scheme = String a pre -> Py.isalpha a = true ->
  Url.all_chars Url.scheme_char scheme = true ->
  Url.all_chars host_char host = true ->
  after_host rest = true ->
  Url.netloc (url_of scheme host rest) = Ret host.
Proof.
  intros Hsch Ha Hs Hh Hr.
  rewrite (netloc_url_of_authority scheme host rest a pre); [|done|done|done| |done].
  - rewrite !(all_chars_mem_false host_char _ host); [done| |done| |done];
      intros x Hx; destruct (host_char_facts x Hx) as (_ & _ & _ & H4 & H5 & _); done.
  - apply (all_chars_impl host_char); [|done].
    revert Hh. clear. intros _. intros [[] [] [] [] [] [] [] []]; by vm_compute.
Qed.

(** X12.  For a text [http://host rest] or [https://host rest], where the
    host is made of ASCII characters other than [/], [?], [#], the
    brackets, TAB, LF and CR, and [rest] is empty or begins a path, a query
    or a fragment, the classifier never raises and
    looks at the host alone: Spotify if the host contains [spotify.com] as
    written, otherwise Pinterest if its lower-cased form contains
    [pinterest.] or [pin.it], otherwise YouTube if that form contains
    [youtube.com] or [youtu.be], otherwise unsupported.  Nothing after the
    host has any influence. *)
Theorem classify_by_host (secure : bool) (host rest : string) :
  Url.all_chars host_char host = true ->
  after_host rest = true ->
  classify (url_of (if secure then "https" else "http") host rest) =
  Ret (if Py.contains "spotify.com" host then PlatformA
       else if Py.contains "pinterest." (Py.lower host) || Py.contains "pin.it" (Py.lower host)
            then PlatformB
       else if Py.contains "youtube.com" (Py.lower host) || Py.contains "youtu.be" (Py.lower host)
            then PlatformC
       else Unsupported).
Proof.
  intros Hh Hr.
  assert (Hn : Url.netloc (url_of (if secure then "https" else "http") host rest) = Ret host).
  { destruct secure.
    - by apply (netloc_url_of "https" host rest "h" "ttps").
    - by apply (netloc_url_of "http" host rest "h" "ttp"). }
  assert (Hs : has_scheme (url_of (if secure then "https" else "http") host rest) = true).
  { unfold has_scheme, url_of. destruct secure.
    - change ("https" +:+ "://" +:+ host +:+ rest) with ("https://" +:+ host +:+ rest).
      by rewrite startswith_app, orb_true_r.
    - change ("http" +:+ "://" +:+ host +:+ rest) with ("http://" +:+ host +:+ rest).
      by rewrite startswith_app. }
  unfold classify, is_spotify_url, is_pinterest_url, is_youtube_url.
  rewrite Hs, Hn. cbv zeta. cbn [negb].
  destruct (Py.contains "spotify.com" host); [done|].
  destruct (Py.contains "pinterest." (Py.lower host) || Py.contains "pin.it" (Py.lower host));
    [done|].
  by destruct (Py.contains "youtube.com" (Py.lower host) || Py.contains "youtu.be" (Py.lower host)).
Qed.

Lemma classify_by_host_witness :
  classify (url_of "https" "example.org" "/open.spotify.com/track/1?v=youtube.com") =
  Ret (if Py.contains "spotify.com" "example.org" then PlatformA
       else if Py.contains "pinterest." (Py.lower "example.org")
               || Py.contains "pin.it" (Py.lower "example.org")
            then PlatformB
       else if Py.contains "youtube.com" (Py.lower "example.org")
               || Py.contains "youtu.be" (Py.lower "example.org")
            then PlatformC
       else Unsupported).
Proof.
  exact (classify_by_host true "example.org" "/open.spotify.com/track/1?v=youtube.com"
           eq_refl eq_refl).
Defined.

(** ** Scraping a pin *)

Lemma main_image_nonempty (soup : list tag) (s : string) :
  main_image soup s -> String.eqb s "" = false.
Proof.
  intros (t & Hf & Hs). unfold soup_find in Hf.
  apply List.find_some in Hf as [_ Hf]. rewrite Hs in Hf. simpl in Hf.
  apply andb_true_iff in Hf as [_ Hf]. apply andb_true_iff in Hf as [Hf _].
  by apply negb_true_iff in Hf.
Qed.

Lemma pin_parent (env : Env) (url ext : string) :
  Url.all_chars name_char ext = true ->
  PyPath.parent (pin_file env url ext) = DOWNLOAD_DIR.
Proof. intros H. by rewrite pin_file_eq. Qed.

Lemma open_wb_run (p : path) (w : World) :
  FS.is_dir (fs w) p = false -> FS.is_dir (fs w) (PyPath.parent p) = true ->
  Os.open_wb p w = (Ret tt, with_fs w (<[p := File (Bytes "")]> (fs w))).
Proof. intros H1 H2. unfold Os.open_wb, bind, get_fs. simpl. by rewrite H1, H2. Qed.

Lemma fetch_to_run (env : Env) (f : path) (u b : string) (w : World) :
  FS.is_dir (fs w) f = false -> FS.is_dir (fs w) (PyPath.parent f) = true ->
  http_get env u = Ret b ->
  fetch_to env f u w =
  (Ret tt, with_fs (logged w (HttpGet u)) (<[f := File (Bytes b)]> (fs w))).
Proof.
  intros H1 H2 Hg. unfold fetch_to.
  rewrite (bind_run _ _ _ _ _ (open_wb_run f w H1 H2)).
  unfold requests_get. rewrite bind_assoc, emit_then.
  unfold bind at 1. unfold lift at 1. rewrite Hg.
  rewrite write_run. unfold with_fs, logged. cbn [fs trace].
  by rewrite insert_insert_eq.
Qed.

Lemma fetch_to_fails (env : Env) (f : path) (u : string) (e : exn) (w : World) :
  FS.is_dir (fs w) f = false -> FS.is_dir (fs w) (PyPath.parent f) = true ->
  http_get env u = Raise e ->
  fetch_to env f u w =
  (Raise e, with_fs (logged w (HttpGet u)) (<[f := File (Bytes "")]> (fs w))).
Proof.
  intros H1 H2 Hg. unfold fetch_to.
  rewrite (bind_run _ _ _ _ _ (open_wb_run f w H1 H2)).
  unfold requests_get. rewrite bind_assoc, emit_then.
  unfold bind at 1. unfold lift at 1. by rewrite Hg.
Qed.

Lemma download_pinterest_image_run (env : Env) (url page : string) (soup : list tag)
    (s bytes : string) (w : World) :
  http_get env url = Ret page ->
  html_parser env page = Ret soup ->
  main_image soup s -> no_video soup ->
  http_get env (absolute s) = Ret bytes ->
  FS.is_dir (fs w) DOWNLOAD_DIR = true ->
  FS.is_dir (fs w) (pin_file env url ".jpg") = false ->
  download_pinterest env url w =
  (Ret (Some [pin_file env url ".jpg"]),
   with_fs (logged (logged w (HttpGet url)) (HttpGet (absolute s)))
     (<[pin_file env url ".jpg" := File (Bytes bytes)]> (fs w))).
Proof.
  intros Hg Hp Hi Hv Hb Hd Hf.
  pose proof (main_image_nonempty _ _ Hi) as Hne. destruct Hi as (t & Ht & Hs).
  unfold download_pinterest. apply try_except_ret.
  unfold requests_get. rewrite bind_assoc, emit_then.
  unfold bind at 1. unfold lift at 1. rewrite Hg.
  unfold bind at 1. unfold lift at 1. rewrite Hp.
  rewrite Ht, Hs, Hne, Hv.
  rewrite bind_assoc.
  erewrite bind_run; [|apply fetch_to_run; [exact Hf| by rewrite pin_parent |exact Hb]].
  done.
Qed.


(** X13.  A page whose first acceptable [img] tag has the source [s] and
    that has no [video] tag with a source: when the download folder exists
    and the image request answers, the scraper returns the single file
    [downloads/pin_<hash>.jpg], that file holds the bytes received from the
    image address (the source itself if it starts with [http], the source
    behind [https:] otherwise), and nothing else on the disk changes; two
    requests were made and nothing was logged. *)
Theorem download_pinterest_image (env : Env) (url page : string) (soup : list tag)
    (s bytes : string) (w : World) :
  http_get env url = Ret page ->
  html_parser env page = Ret soup ->
  main_image soup s -> no_video soup ->
  http_get env (absolute s) = Ret bytes ->
  FS.is_dir (fs w) DOWNLOAD_DIR = true ->
  FS.is_dir (fs w) (pin_file env url ".jpg") = false ->
  let r := download_pinterest env url w in
  let f := pin_file env url ".jpg" in
  r.1 = Ret (Some [f]) /\
  fs r.2 !! f = Some (File (Bytes bytes)) /\
  (forall p, p <> f -> fs r.2 !! p = fs w !! p) /\
  trace r.2 = trace w ++ [HttpGet url; HttpGet (absolute s)].
Proof.
  intros Hg Hp Hi Hv Hb Hd Hf r f. unfold r.
  rewrite (download_pinterest_image_run env url page soup s bytes w) by done.
  unfold with_fs, logged. cbn [fst snd fs trace]. fold f.
  split; [done|]. split; [by rewrite lookup_insert_eq|]. split.
  - intros p Hne. by rewrite lookup_insert_ne.
  - by rewrite <- app_assoc.
Qed.

Lemma download_pinterest_image_witness :
  let r := download_pinterest image_page_env "https://pin.it/xyz" fresh_world in
  let f := pin_file image_page_env "https://pin.it/xyz" ".jpg" in
  r.1 = Ret (Some [f]) /\
  fs r.2 !! f = Some (File (Bytes "JPEG")) /\
  (forall p, p <> f -> fs r.2 !! p = fs fresh_world !! p) /\
  trace r.2 = trace fresh_world ++
    [HttpGet "https://pin.it/xyz"; HttpGet (absolute "//i.pinimg.com/736x/a.jpg")].
Proof.
  apply (download_pinterest_image image_page_env "https://pin.it/xyz" "<html>"
           [ {| tag_name := "div"; src := None |};
             {| tag_name := "img"; src := Some "//i.pinimg.com/736x/a.jpg" |} ]
           "//i.pinimg.com/736x/a.jpg" "JPEG" fresh_world);
    try reflexivity.
  by eexists.
Defined.

(** X14.  When the page names an image but the request for the image
    raises, the scraper logs the error and returns nothing, yet the file
    [downloads/pin_<hash>.jpg] has already been opened for writing: it is
    left behind, empty (replacing whatever file had that name). *)
Theorem download_pinterest_leaves_empty_file (env : Env) (url page : string)
    (soup : list tag) (s : string) (e : exn) (w : World) :
  http_get env url = Ret page ->
  html_parser env page = Ret soup ->
  main_image soup s ->
  http_get env (absolute s) = Raise e -> is_exception e = true ->
  FS.is_dir (fs w) DOWNLOAD_DIR = true ->
  FS.is_dir (fs w) (pin_file env url ".jpg") = false ->
  download_pinterest env url w =
  (Ret None,
   with_fs (logged (logged (logged w (HttpGet url)) (HttpGet (absolute s)))
              (Log ("Pinterest error: " +:+ exn_msg e)))
     (<[pin_file env url ".jpg" := File (Bytes "")]> (fs w))).
Proof.
  intros Hg Hp Hi Hb Hx Hd Hf.
  pose proof (main_image_nonempty _ _ Hi) as Hne. destruct Hi as (t & Ht & Hs).
  unfold download_pinterest.
  match goal with |- try_except ?b ?h w = _ =>
    assert (E : b w = (Raise e,
              with_fs (logged (logged w (HttpGet url)) (HttpGet (absolute s)))
                (<[pin_file env url ".jpg" := File (Bytes "")]> (fs w)))) end.
  { unfold requests_get. rewrite bind_assoc, emit_then.
    unfold bind at 1. unfold lift at 1. rewrite Hg.
    unfold bind at 1. unfold lift at 1. rewrite Hp.
    rewrite Ht, Hs, Hne.
    rewrite bind_assoc.
    assert (Hpar : FS.is_dir (fs w) (PyPath.parent (pin_file env url ".jpg")) = true)
      by (by rewrite pin_parent).
    apply bind_run_raise.
    exact (fetch_to_fails env _ _ e (logged w (HttpGet url)) Hf Hpar Hb). }
  unfold try_except. by rewrite E, Hx.
Qed.

Lemma download_pinterest_leaves_empty_file_witness :
  download_pinterest broken_image_env "https://pin.it/xyz" fresh_world =
  (Ret None,
   with_fs (logged (logged (logged fresh_world (HttpGet "https://pin.it/xyz"))
                      (HttpGet (absolute "//i.pinimg.com/736x/a.jpg")))
              (Log ("Pinterest error: " +:+ exn_msg (Exn Exception "Read timed out."))))
     (<[pin_file broken_image_env "https://pin.it/xyz" ".jpg" := File (Bytes "")]>
        (fs fresh_world))).
Proof.
  apply (download_pinterest_leaves_empty_file broken_image_env "https://pin.it/xyz" "<html>"
           [ {| tag_name := "div"; src := None |};
             {| tag_name := "img"; src := Some "//i.pinimg.com/736x/a.jpg" |} ]
           "//i.pinimg.com/736x/a.jpg" (Exn Exception "Read timed out.") fresh_world);
    try reflexivity.
  by eexists.
Defined.

(** ** A pin, from the message to the photo *)

Lemma classify_pinterest_inv (url : string) :
  classify url = Ret PlatformB ->
  has_scheme url = true /\ is_spotify_url url = Ret false /\ is_pinterest_url url = Ret true.
Proof.
  unfold classify. destruct (has_scheme url); [|done]. cbn [negb].
  destruct (is_spotify_url url) as [[]|]; [done| |done].
  destruct (is_pinterest_url url) as [[]|]; [done| |done].
  by destruct (is_youtube_url url) as [[]|].
Qed.

Lemma from_last_dot_ext (l r : string) :
  PyPath.from_last_dot r = None ->
  PyPath.from_last_dot (l +:+ String "." r) = Some (String "." r).
Proof.
  intros H. induction l as [|a l IH]; rewrite ?append_nil, ?append_cons.
  - cbn [PyPath.from_last_dot]. by rewrite H.
  - cbn [PyPath.from_last_dot]. by rewrite IH.
Qed.

Lemma from_last_dot_ext2 (l1 l2 r : string) :
  PyPath.from_last_dot r = None ->
  PyPath.from_last_dot (l1 +:+ l2 +:+ String "." r) = Some (String "." r).
Proof.
  intros H. induction l1 as [|a l IH]; rewrite ?append_nil, ?append_cons.
  - by apply from_last_dot_ext.
  - cbn [PyPath.from_last_dot]. by rewrite IH.
Qed.

Lemma pin_suffix_jpg (env : Env) (url : string) :
  PyPath.suffix (pin_file env url ".jpg") = ".jpg".
Proof.
  rewrite pin_file_eq by done. unfold PyPath.suffix, PyPath.name. cbn [List.last].
  change (PyPath.is_root ("pin_" +:+ Py.str_of_int (hash env url) +:+ ".jpg")) with false.
  cbv zeta iota.
  rewrite (from_last_dot_ext2 "pin_" (Py.str_of_int (hash env url)) "jpg") by done.
  done.
Qed.

Lemma handle_message_pinterest_steps (env : Env) (chat : Z) (text url page : string)
    (soup : list tag) (s bytes : string) (w : World) :
  Py.strip text = url ->
  classify url = Ret PlatformB ->
  http_get env url = Ret page ->
  html_parser env page = Ret soup ->
  main_image soup s -> no_video soup ->
  http_get env (absolute s) = Ret bytes ->
  FS.is_dir (fs w) DOWNLOAD_DIR = true ->
  FS.is_dir (fs w) (pin_file env url ".jpg") = false ->
  transport env chat (Text "Pinterest detected → fetching media...") = None ->
  handle_message env (text_update chat text) w =
  (send env chat (Photo (Bytes bytes)) >> Os.unlink_missing_ok (pin_file env url ".jpg"))
    (with_fs (logged (logged (logged w
        (Sent chat (Text "Pinterest detected → fetching media...") true))
        (HttpGet url)) (HttpGet (absolute s)))
       (<[pin_file env url ".jpg" := File (Bytes bytes)]> (fs w))).
Proof.
  intros Hst Hc Hg Hp Hi Hv Hb Hd Hf Ht.
  destruct (classify_pinterest_inv _ Hc) as (Hsch & Hsp & Hpi).
  unfold handle_message. cbn [message text_update msg_text]. rewrite Hst, Hsch. cbn [negb].
  unfold bind at 1. unfold lift at 1. rewrite Hsp.
  unfold bind at 1. unfold lift at 1. rewrite Hpi.
  rewrite (bind_run _ _ _ _ _ (reply_text_run env chat text _ w Ht)).
  rewrite (bind_run _ _ _ _ _
             (download_pinterest_image_run env url page soup s bytes
                (logged w (Sent chat (Text "Pinterest detected → fetching media...") true))
                Hg Hp Hi Hv Hb Hd Hf)).
  change (fs (logged w (Sent chat (Text "Pinterest detected → fetching media...") true)))
    with (fs w).
  set (w1 := with_fs _ _). cbn [for_each].
  unfold send_file. rewrite pin_suffix_jpg.
  change (String.eqb (Py.lower ".jpg") ".mp4") with false. cbv iota.
  assert (Hne : pin_file env url ".jpg" <> []) by (by rewrite pin_file_eq).
  assert (Hr : Os.open_rb (pin_file env url ".jpg") w1 = (Ret (Bytes bytes), w1)).
  { unfold Os.open_rb, bind, get_fs. cbn [fst snd]. rewrite node_at_lookup by done.
    unfold w1, with_fs. cbn [fs]. by rewrite lookup_insert_eq. }
  unfold bind at 1 2 3. rewrite Hr. unfold reply. cbn [message text_update msg_chat].
  unfold bind.
  destruct (send env chat (Photo (Bytes bytes)) w1) as [[[]|e] w2]; [|done].
  cbn [ret].
  by destruct (Os.unlink_missing_ok (pin_file env url ".jpg") w2) as [[[]|e] w3].
Qed.

(** X15.  A message whose stripped text is a Pinterest link to a page with
    an image and no video: the notice is sent, the image is fetched into
    [downloads/pin_<hash>.jpg], its bytes are sent as a photo (the suffix
    is not [.mp4]), and the file is deleted afterwards.  The handler
    returns; on the disk only that name is gone. *)
Theorem handle_message_pinterest_photo (env : Env) (chat : Z) (text url page : string)
    (soup : list tag) (s bytes : string) (w : World) :
  Py.strip text = url ->
  classify url = Ret PlatformB ->
  http_get env url = Ret page ->
  html_parser env page = Ret soup ->
  main_image soup s -> no_video soup ->
  http_get env (absolute s) = Ret bytes ->
  FS.is_dir (fs w) DOWNLOAD_DIR = true ->
  FS.is_dir (fs w) (pin_file env url ".jpg") = false ->
  transport env chat (Text "Pinterest detected → fetching media...") = None ->
  transport env chat (Photo (Bytes bytes)) = None ->
  handle_message env (text_update chat text) w =
  (Ret tt,
   with_fs (logged (logged (logged (logged w
       (Sent chat (Text "Pinterest detected → fetching media...") true))
       (HttpGet url)) (HttpGet (absolute s))) (Sent chat (Photo (Bytes bytes)) true))
     (delete (pin_file env url ".jpg") (fs w))).
Proof.
  intros Hst Hc Hg Hp Hi Hv Hb Hd Hf Ht Hph.
  rewrite (handle_message_pinterest_steps env chat text url page soup s bytes w) by done.
  rewrite (bind_run _ _ _ _ _ (send_run env chat _ _ Hph)).
  assert (Hne : pin_file env url ".jpg" <> []) by (by rewrite pin_file_eq).
  erewrite unlink_file_run; [|done|by apply lookup_insert_eq].
  unfold with_fs, logged. cbn [fs trace]. by rewrite delete_insert_eq.
Qed.

Lemma handle_message_pinterest_photo_witness :
  handle_message image_page_env (text_update 7 " https://pin.it/xyz ") fresh_world =
  (Ret tt,
   with_fs (logged (logged (logged (logged fresh_world
       (Sent 7 (Text "Pinterest detected → fetching media...") true))
       (HttpGet "https://pin.it/xyz")) (HttpGet (absolute "//i.pinimg.com/736x/a.jpg")))
       (Sent 7 (Photo (Bytes "JPEG")) true))
     (delete (pin_file image_page_env "https://pin.it/xyz" ".jpg") (fs fresh_world))).
Proof.
  apply (handle_message_pinterest_photo image_page_env 7 " https://pin.it/xyz "
           "https://pin.it/xyz" "<html>"
           [ {| tag_name := "div"; src := None |};
             {| tag_name := "img"; src := Some "//i.pinimg.com/736x/a.jpg" |} ]
           "//i.pinimg.com/736x/a.jpg" "JPEG" fresh_world);
    try reflexivity.
  by eexists.
Defined.

(** X16.  In the same situation, when sending the photo raises, the
    exception leaves the handler and the deletion loop is never reached:
    the downloaded image stays in the download folder. *)
Theorem handle_message_pinterest_send_fails (env : Env) (chat : Z) (text url page : string)
    (soup : list tag) (s bytes : string) (e : exn) (w : World) :
  Py.strip text = url ->
  classify url = Ret PlatformB ->
  http_get env url = Ret page ->
  html_parser env page = Ret soup ->
  main_image soup s -> no_video soup ->
  http_get env (absolute s) = Ret bytes ->
  FS.is_dir (fs w) DOWNLOAD_DIR = true ->
  FS.is_dir (fs w) (pin_file env url ".jpg") = false ->
  transport env chat (Text "Pinterest detected → fetching media...") = None ->
  transport env chat (Photo (Bytes bytes)) = Some e ->
  handle_message env (text_update chat text) w =
  (Raise e,
   with_fs (logged (logged (logged (logged w
       (Sent chat (Text "Pinterest detected → fetching media...") true))
       (HttpGet url)) (HttpGet (absolute s))) (Sent chat (Photo (Bytes bytes)) false))
     (<[pin_file env url ".jpg" := File (Bytes bytes)]> (fs w))).
Proof.
  intros Hst Hc Hg Hp Hi Hv Hb Hd Hf Ht Hph.
  rewrite (handle_message_pinterest_steps env chat text url page soup s bytes w) by done.
  by rewrite (bind_run_raise _ _ _ _ _ (send_raises env chat _ e _ Hph)).
Qed.

Lemma handle_message_pinterest_send_fails_witness :
  handle_message timeout_env (text_update 7 "https://pin.it/xyz") fresh_world =
  (Raise (Exn Exception "Timed out"),
   with_fs (logged (logged (logged (logged fresh_world
       (Sent 7 (Text "Pinterest detected → fetching media...") true))
       (HttpGet "https://pin.it/xyz")) (HttpGet (absolute "//i.pinimg.com/736x/a.jpg")))
       (Sent 7 (Photo (Bytes "JPEG")) false))
     (<[pin_file timeout_env "https://pin.it/xyz" ".jpg" := File (Bytes "JPEG")]>
        (fs fresh_world))).
Proof.
  apply (handle_message_pinterest_send_fails timeout_env 7 "https://pin.it/xyz"
           "https://pin.it/xyz" "<html>"
           [ {| tag_name := "div"; src := None |};
             {| tag_name := "img"; src := Some "//i.pinimg.com/736x/a.jpg" |} ]
           "//i.pinimg.com/736x/a.jpg" "JPEG" (Exn Exception "Timed out") fresh_world);
    try reflexivity.
  by eexists.
Defined.

(** ** The name of an extracted audio file *)

Lemma rsplit1_head_no_sep (sep : ascii) (s : string) :
  Py.mem sep s = false -> Py.rsplit1_head sep s = s.
Proof.
  destruct s as [|a s]; [done|]. cbn [Py.mem Py.rsplit1_head].
  intros [Ha Hs]%orb_false_iff. rewrite Hs.
  by rewrite (ascii_eqb_sym a sep), Ha || by rewrite Ha.
Qed.

(** X17.  For the format [mp3] the path returned after a successful
    extraction is not the file name the extractor reports: everything from
    the last dot of the whole reported text on is replaced by [.mp3], and a
    reported text without any dot gets [.mp3] appended. *)
Theorem download_youtube_mp3_name (env : Env) (url filename : string)
    (update : Update) (w : World) :
  result (extract_info env (ydl_opts_of "mp3") url) = Ret filename ->
  (forall stem ext, filename = stem +:+ "." +:+ ext -> Py.mem "." ext = false ->
     (download_youtube env url "mp3" update w).1 =
     Ret (Some (PyPath.Path (stem +:+ ".mp3")))) /\
  (Py.mem "." filename = false ->
     (download_youtube env url "mp3" update w).1 =
     Ret (Some (PyPath.Path (filename +:+ ".mp3")))).
Proof.
  intros Hr. split.
  - intros stem ext -> Hext.
    by rewrite (download_youtube_audio env url _ update w Hr), rsplit1_head_stem.
  - intros Hn.
    by rewrite (download_youtube_audio env url _ update w Hr), rsplit1_head_no_sep.
Qed.

Lemma download_youtube_mp3_name_witness :
  (download_youtube webm_env "https://youtu.be/x" "mp3" (text_update 7 "") fresh_world).1 =
  Ret (Some (PyPath.Path ("downloads/My.Song" +:+ ".mp3"))).
Proof.
  exact (proj1 (download_youtube_mp3_name webm_env "https://youtu.be/x"
                  "downloads/My.Song.webm" (text_update 7 "") fresh_world eq_refl)
           "downloads/My.Song" "webm" eq_refl eq_refl).
Defined.

(** ** The figure in the size report *)

Lemma tenths_monotone (size1 size2 : Z) :
  size1 <= size2 -> tenths (file_size_mb size1) <= tenths (file_size_mb size2).
Proof.
  intros H. destruct (Z.eq_dec size1 size2) as [->|Hne]; [lia|].
  pose proof (tenths_nearest size1). pose proof (tenths_nearest size2). lia.
Qed.

(** X18.  The report is chosen exactly for archives of at least 48 MiB, and
    the figure it prints is then never below [48.0]; an archive that is
    sent would print at most [48.0].  The printed figure never decreases
    when the size grows. *)
Theorem size_report_figure (size : Z) :
  (48 * 1048576 <= size ->
     below_ceiling (file_size_mb size) = false /\ 480 <= tenths (file_size_mb size)) /\
  (size < 48 * 1048576 ->
     below_ceiling (file_size_mb size) = true /\ tenths (file_size_mb size) <= 480) /\
  (forall bigger, size <= bigger ->
     tenths (file_size_mb size) <= tenths (file_size_mb bigger)).
Proof.
  pose proof (tenths_nearest size) as Hn. rewrite below_ceiling_spec.
  split; [|split].
  - intros H. split; [lia|lia].
  - intros H. split; [lia|lia].
  - intros bigger. apply tenths_monotone.
Qed.

Lemma size_report_figure_witness :
  below_ceiling (file_size_mb (48 * 1048576)) = false /\
  480 <= tenths (file_size_mb (48 * 1048576)).
Proof. apply (proj1 (size_report_figure (48 * 1048576))). lia. Defined.

(** ** A failed extraction behind a button *)

(** X19.  A button press carries no [message].  When the extraction for
    such a press raises an [Exception], the handler of [download_youtube]
    fails on [update.message.reply_text]: [button_callback] ends with that
    [AttributeError], the requester gets no failure text, and the message
    with the buttons, by then edited to [Downloading as ...], is not
    deleted. *)
Theorem button_callback_failure_unreported (env : Env) (update : Update)
    (query : CallbackQuery) (fmt url : string) (e : exn) (w : World) :
  callback_query update = Some query ->
  message update = None ->
  cq_data query = "yt|" +:+ fmt +:+ "|" +:+ url ->
  Py.mem "|" fmt = false ->
  transport env (cq_from query) Answer = None ->
  transport env (cq_from query)
    (EditText ("Downloading as " +:+ Py.upper fmt +:+ "...")) = None ->
  result (extract_info env (ydl_opts_of fmt) url) = Raise e ->
  is_exception e = true ->
  let r := button_callback env update w in
  r.1 = Raise (AttributeError "reply_text") /\
  trace r.2 = trace w ++
    [ Sent (cq_from query) Answer true;
      Sent (cq_from query) (EditText ("Downloading as " +:+ Py.upper fmt +:+ "...")) true;
      Extract (ydl_opts_of fmt) url ].
Proof.
  intros Hq Hm Hd Hf Ha Hedit Hr Hx r. unfold r, button_callback. rewrite Hq.
  erewrite bind_run by (by apply send_run). rewrite Hd.
  assert (Py.startswith "yt|" ("yt|" +:+ fmt +:+ "|" +:+ url) = true) as ->
    by apply startswith_app.
  cbn [negb]. rewrite payload_split by done.
  erewrite bind_run by (by apply send_run).
  match goal with |- context [bind _ _ ?w0] => set (w2 := w0) end.
  destruct (call_extract_result env (ydl_opts_of fmt) url w2) as (w3 & E & T).
  rewrite Hr in E.
  assert (Hdl : download_youtube env url fmt update w2 =
                (Raise (AttributeError "reply_text"), w3)).
  { unfold download_youtube, try_except. cbv zeta. unfold bind at 1.
    rewrite E, Hx. unfold reply_text, reply. by rewrite Hm. }
  rewrite (bind_run_raise _ _ _ _ _ Hdl). cbn [fst snd].
  split; [done|]. rewrite T. unfold w2, logged. cbn [trace]. by rewrite <- !app_assoc.
Qed.

Lemma button_callback_failure_unreported_witness :
  let r := button_callback quiet_env (button_update 7 "yt|mp4|https://youtu.be/abc")
             fresh_world in
  r.1 = Raise (AttributeError "reply_text") /\
  trace r.2 = trace fresh_world ++
    [ Sent 7 Answer true;
      Sent 7 (EditText ("Downloading as " +:+ Py.upper "mp4" +:+ "...")) true;
      Extract (ydl_opts_of "mp4") "https://youtu.be/abc" ].
Proof.
  exact (button_callback_failure_unreported quiet_env
           (button_update 7 "yt|mp4|https://youtu.be/abc")
           {| cq_from := 7; cq_data := "yt|mp4|https://youtu.be/abc";
              cq_message := Some {| msg_chat := 7;
                                    msg_text := "YouTube detected → choose format:" |} |}
           "mp4" "https://youtu.be/abc" (Exn Exception "Video unavailable") fresh_world
           eq_refl eq_refl eq_refl eq_refl eq_refl eq_refl eq_refl eq_refl).
Defined.

(** ** A pin with a picture and a clip *)

Lemma pin_files_differ (env : Env) (url : string) :
  pin_file env url ".jpg" <> pin_file env url ".mp4".
Proof.
  rewrite !pin_file_eq by done. intros [= H].
  apply append_inj_l in H. by apply append_inj_l in H.
Qed.

Lemma is_dir_insert_ne (s : storage) (p q : path) (n : node) :
  p <> q -> FS.is_dir (<[p := n]> s) q = FS.is_dir s q.
Proof.
  intros H. unfold FS.is_dir, FS.node_at. destruct q; [done|]. by rewrite lookup_insert_ne.
Qed.

(** X20.  A page with an acceptable image and a [video] tag with a source:
    when both requests answer, the scraper returns two files, the image
    [pin_<hash>.jpg] first and the clip [pin_<hash>.mp4] second, each
    holding the bytes of its own address; the page is requested first, the
    image second, the clip third, and no other path changes. *)
Theorem download_pinterest_image_and_video (env : Env) (url page : string)
    (soup : list tag) (s v picture clip : string) (w : World) :
  http_get env url = Ret page ->
  html_parser env page = Ret soup ->
  main_image soup s -> main_video soup v ->
  http_get env (absolute s) = Ret picture ->
  http_get env (absolute v) = Ret clip ->
  FS.is_dir (fs w) DOWNLOAD_DIR = true ->
  FS.is_dir (fs w) (pin_file env url ".jpg") = false ->
  FS.is_dir (fs w) (pin_file env url ".mp4") = false ->
  let r := download_pinterest env url w in
  let jpg := pin_file env url ".jpg" in
  let mp4 := pin_file env url ".mp4" in
  r.1 = Ret (Some [jpg; mp4]) /\
  fs r.2 !! jpg = Some (File (Bytes picture)) /\
  fs r.2 !! mp4 = Some (File (Bytes clip)) /\
  (forall p, p <> jpg -> p <> mp4 -> fs r.2 !! p = fs w !! p) /\
  trace r.2 = trace w ++ [HttpGet url; HttpGet (absolute s); HttpGet (absolute v)].
Proof.
  intros Hg Hp Hi Hv Hb Hc Hd Hf Hf' r jpg mp4.
  pose proof (main_image_nonempty _ _ Hi) as Hne. destruct Hi as (t & Ht & Hs).
  destruct Hv as (t' & Ht' & Hs').
  pose proof (pin_files_differ env url) as Hdiff. fold jpg mp4 in Hdiff.
  assert (jpg <> DOWNLOAD_DIR) as Hjd by (unfold jpg; by rewrite pin_file_eq).
  assert (E : r = (Ret (Some [jpg; mp4]),
                   with_fs (logged (logged (logged w (HttpGet url)) (HttpGet (absolute s)))
                              (HttpGet (absolute v)))
                     (<[mp4 := File (Bytes clip)]> (<[jpg := File (Bytes picture)]> (fs w))))).
  { unfold r, download_pinterest. apply try_except_ret.
    unfold requests_get. rewrite bind_assoc, emit_then.
    unfold bind at 1. unfold lift at 1. rewrite Hg.
    unfold bind at 1. unfold lift at 1. rewrite Hp.
    rewrite Ht, Hs, Hne, Ht', Hs'. fold jpg mp4.
    rewrite bind_assoc.
    erewrite bind_run;
      [|apply fetch_to_run; [exact Hf| unfold jpg; by rewrite pin_parent |exact Hb]].
    cbn beta. unfold bind at 1. cbn [ret].
    rewrite bind_assoc.
    match goal with |- bind _ _ ?w0 = _ => set (w1 := w0) end.
    assert (H1 : FS.is_dir (fs w1) mp4 = false).
    { unfold w1, with_fs, logged. cbn [fs]. by rewrite is_dir_insert_ne. }
    assert (H2 : FS.is_dir (fs w1) (PyPath.parent mp4) = true).
    { unfold w1, mp4, with_fs, logged. cbn [fs]. rewrite pin_parent by done.
      by rewrite is_dir_insert_ne. }
    by rewrite (bind_run _ _ _ _ _ (fetch_to_run env mp4 (absolute v) clip w1 H1 H2 Hc)). }
  rewrite E. unfold with_fs, logged. cbn [fst snd fs trace].
  split; [done|]. split; [by rewrite lookup_insert_ne, lookup_insert_eq|].
  split; [by rewrite lookup_insert_eq|]. split.
  - intros p H1 H2. by rewrite !lookup_insert_ne.
  - by rewrite <- !app_assoc.
Qed.

Lemma download_pinterest_image_and_video_witness :
  let r := download_pinterest clip_page_env "https://pin.it/xyz" fresh_world in
  let jpg := pin_file clip_page_env "https://pin.it/xyz" ".jpg" in
  let mp4 := pin_file clip_page_env "https://pin.it/xyz" ".mp4" in
  r.1 = Ret (Some [jpg; mp4]) /\
  fs r.2 !! jpg = Some (File (Bytes "JPEG")) /\
  fs r.2 !! mp4 = Some (File (Bytes "MP4")) /\
  (forall p, p <> jpg -> p <> mp4 -> fs r.2 !! p = fs fresh_world !! p) /\
  trace r.2 = trace fresh_world ++
    [HttpGet "https://pin.it/xyz"; HttpGet (absolute "//i.pinimg.com/736x/a.jpg");
     HttpGet (absolute "https://v.pinimg.com/a.mp4")].
Proof.
  apply (download_pinterest_image_and_video clip_page_env "https://pin.it/xyz" "<html>"
           [ {| tag_name := "video"; src := None |};
             {| tag_name := "img"; src := Some "//i.pinimg.com/736x/a.jpg" |};
             {| tag_name := "video"; src := Some "https://v.pinimg.com/a.mp4" |} ]
           "//i.pinimg.com/736x/a.jpg" "https://v.pinimg.com/a.mp4" "JPEG" "MP4" fresh_world);
    try reflexivity.
  - by eexists.
  - by eexists.
Defined.

(** ** An artist whose name has a slash *)








(** ** A requester who cannot be reached *)

(** X22.  When tracks were found but the [Found ... track(s)] text cannot
    be sent, nothing is downloaded and no workspace is made: the error of
    the transport is caught and a [Spotify error: ...] text with its first
    300 characters is attempted; if that text cannot be sent either, its
    exception leaves [process_spotify]. *)
Theorem process_spotify_ack_fails (env : Env) (url : string) (chat : Z) (text : string)
    (songs : list Song) (e : exn) (w : World) :
  let found := Text ("Found " +:+ fmt_len songs +:+ " track(s). Downloading...") in
  let report := Text ("Spotify error: " +:+ Py.take 300 (exn_msg e)) in
  search env url = Ret songs -> songs <> [] ->
  transport env chat found = Some e -> is_exception e = true ->
  let r := process_spotify env url (text_update chat text) w in
  r.1 = match transport env chat report with None => Ret tt | Some e' => Raise e' end /\
  trace r.2 = trace w ++
    [Search url; Sent chat found false; Sent chat report (delivered env chat report)] /\
  fs r.2 = fs w.
Proof.
  intros found report Hs Hne Ht Hx r.
  unfold r, process_spotify. cbn [effective_chat text_update message msg_chat].
  unfold try_except.
  match goal with |- context [match ?body w with _ => _ end] =>
    assert (Hbody : body w = (Raise e, logged (logged w (Search url)) (Sent chat found false)))
  end.
  { erewrite bind_run by (by apply call_search_run).
    destruct songs as [|s0 rest]; [done|]. cbv iota.
    apply bind_run_raise. unfold reply_text, reply. cbn [text_update message msg_chat].
    by apply send_raises. }
  rewrite Hbody, Hx. unfold reply_text, reply, send, delivered.
  cbn [text_update message msg_chat]. fold report.
  destruct (transport env chat report) as [e'|]; cbn; by rewrite <- !app_assoc.
Qed.

Lemma process_spotify_ack_fails_witness :
  let url := "https://open.spotify.com/track/abc" in
  let e := Exn Exception "Forbidden: bot was blocked by the user" in
  let found := Text ("Found " +:+ fmt_len [one_track] +:+ " track(s). Downloading...") in
  let report := Text ("Spotify error: " +:+ Py.take 300 (exn_msg e)) in
  let r := process_spotify blocked_env url (text_update 7 url) fresh_world in
  r.1 = match transport blocked_env 7 report with None => Ret tt | Some e' => Raise e' end /\
  trace r.2 = trace fresh_world ++
    [Search url; Sent 7 found false; Sent 7 report (delivered blocked_env 7 report)] /\
  fs r.2 = fs fresh_world.
Proof.
  intros url e.
  apply (process_spotify_ack_fails blocked_env url 7 url [one_track] e fresh_world);
    [reflexivity|discriminate|reflexivity|reflexivity].
Defined.

(** ** A bracket without its partner *)

(** X23.  A link whose host has an opening bracket without a closing one,
    or the reverse, is not classified at all: splitting the URL raises
    [ValueError], nothing catches it, and [handle_message] ends with it
    before any reply. *)
Theorem handle_message_unbalanced_bracket (env : Env) (chat : Z) (text : string)
    (secure : bool) (host rest : string) (w : World) :
  Py.strip text = url_of (if secure then "https" else "http") host rest ->
  Url.all_chars authority_char host = true ->
  after_host rest = true ->
  xorb (Py.mem "[" host) (Py.mem "]" host) = true ->
  handle_message env (text_update chat text) w =
  (Raise (ValueError "Invalid IPv6 URL"), w).
Proof.
  intros Hst Hh Hr Hx.
  assert (Hn : Url.netloc (url_of (if secure then "https" else "http") host rest) =
               Raise (ValueError "Invalid IPv6 URL")).
  { destruct secure.
    - rewrite (netloc_url_of_authority "https" host rest "h" "ttps") by done. by rewrite Hx.
    - rewrite (netloc_url_of_authority "http" host rest "h" "ttp") by done. by rewrite Hx. }
  assert (Hs : has_scheme (url_of (if secure then "https" else "http") host rest) = true).
  { unfold has_scheme, url_of. destruct secure.
    - change ("https" +:+ "://" +:+ host +:+ rest) with ("https://" +:+ host +:+ rest).
      by rewrite startswith_app, orb_true_r.
    - change ("http" +:+ "://" +:+ host +:+ rest) with ("http://" +:+ host +:+ rest).
      by rewrite startswith_app. }
  unfold handle_message. cbn [message text_update msg_text]. rewrite Hst, Hs. cbn [negb].
  unfold bind at 1. unfold lift at 1. unfold is_spotify_url. by rewrite Hn.
Qed.

Lemma handle_message_unbalanced_bracket_witness :
  handle_message quiet_env (text_update 7 "http://[::1/watch") fresh_world =
  (Raise (ValueError "Invalid IPv6 URL"), fresh_world).
Proof.
  exact (handle_message_unbalanced_bracket quiet_env 7 "http://[::1/watch" false
           "[::1" "/watch" fresh_world eq_refl eq_refl eq_refl eq_refl).
Defined.

(** ** A pin that is a clip *)

Lemma pin_suffix_mp4 (env : Env) (url : string) :
  PyPath.suffix (pin_file env url ".mp4") = ".mp4".
Proof.
  rewrite pin_file_eq by done. unfold PyPath.suffix, PyPath.name. cbn [List.last].
  change (PyPath.is_root ("pin_" +:+ Py.str_of_int (hash env url) +:+ ".mp4")) with false.
  cbv zeta iota.
  rewrite (from_last_dot_ext2 "pin_" (Py.str_of_int (hash env url)) "mp4") by done.
  done.
Qed.

Lemma download_pinterest_video_run (env : Env) (url page : string) (soup : list tag)
    (v clip : string) (w : World) :
  http_get env url = Ret page ->
  html_parser env page = Ret soup ->
  no_image soup -> main_video soup v ->
  http_get env (absolute v) = Ret clip ->
  FS.is_dir (fs w) DOWNLOAD_DIR = true ->
  FS.is_dir (fs w) (pin_file env url ".mp4") = false ->
  download_pinterest env url w =
  (Ret (Some [pin_file env url ".mp4"]),
   with_fs (logged (logged w (HttpGet url)) (HttpGet (absolute v)))
     (<[pin_file env url ".mp4" := File (Bytes clip)]> (fs w))).
Proof.
  intros Hg Hp Hi (t & Ht & Hs) Hb Hd Hf.
  unfold download_pinterest. apply try_except_ret.
  unfold requests_get. rewrite bind_assoc, emit_then.
  unfold bind at 1. unfold lift at 1. rewrite Hg.
  unfold bind at 1. unfold lift at 1. rewrite Hp.
  rewrite Hi, Ht, Hs.
  unfold bind at 1. cbn [ret].
  rewrite bind_assoc.
  assert (Hpar : FS.is_dir (fs w) (PyPath.parent (pin_file env url ".mp4")) = true)
    by (by rewrite pin_parent).
  by rewrite (bind_run _ _ _ _ _
                (fetch_to_run env _ (absolute v) clip (logged w (HttpGet url)) Hf Hpar Hb)).
Qed.

(** X24.  A Pinterest link to a page without an acceptable image but with
    a [video] tag that has a source: the clip is fetched into
    [downloads/pin_<hash>.mp4] and, its suffix being [.mp4], sent as a
    video, not as a photo; then the file is deleted and the handler
    returns. *)
Theorem handle_message_pinterest_clip (env : Env) (chat : Z) (text url page : string)
    (soup : list tag) (v clip : string) (w : World) :
  Py.strip text = url ->
  classify url = Ret PlatformB ->
  http_get env url = Ret page ->
  html_parser env page = Ret soup ->
  no_image soup -> main_video soup v ->
  http_get env (absolute v) = Ret clip ->
  FS.is_dir (fs w) DOWNLOAD_DIR = true ->
  FS.is_dir (fs w) (pin_file env url ".mp4") = false ->
  transport env chat (Text "Pinterest detected → fetching media...") = None ->
  transport env chat (Video (Bytes clip)) = None ->
  handle_message env (text_update chat text) w =
  (Ret tt,
   with_fs (logged (logged (logged (logged w
       (Sent chat (Text "Pinterest detected → fetching media...") true))
       (HttpGet url)) (HttpGet (absolute v))) (Sent chat (Video (Bytes clip)) true))
     (delete (pin_file env url ".mp4") (fs w))).
Proof.
  intros Hst Hc Hg Hp Hi Hv Hb Hd Hf Ht Hvid.
  destruct (classify_pinterest_inv _ Hc) as (Hsch & Hsp & Hpi).
  unfold handle_message. cbn [message text_update msg_text]. rewrite Hst, Hsch. cbn [negb].
  unfold bind at 1. unfold lift at 1. rewrite Hsp.
  unfold bind at 1. unfold lift at 1. rewrite Hpi.
  rewrite (bind_run _ _ _ _ _ (reply_text_run env chat text _ w Ht)).
  rewrite (bind_run _ _ _ _ _
             (download_pinterest_video_run env url page soup v clip
                (logged w (Sent chat (Text "Pinterest detected → fetching media...") true))
                Hg Hp Hi Hv Hb Hd Hf)).
  change (fs (logged w (Sent chat (Text "Pinterest detected → fetching media...") true)))
    with (fs w).
  set (w1 := with_fs _ _). cbn [for_each].
  unfold send_file. rewrite pin_suffix_mp4.
  change (String.eqb (Py.lower ".mp4") ".mp4") with true. cbv iota.
  assert (Hne : pin_file env url ".mp4" <> []) by (by rewrite pin_file_eq).
  assert (Hr : Os.open_rb (pin_file env url ".mp4") w1 = (Ret (Bytes clip), w1)).
  { unfold Os.open_rb, bind, get_fs. cbn [fst snd]. rewrite node_at_lookup by done.
    unfold w1, with_fs. cbn [fs]. by rewrite lookup_insert_eq. }
  rewrite bind_assoc. rewrite bind_assoc. rewrite (bind_run _ _ _ _ _ Hr).
  unfold reply. cbn [message text_update msg_chat].
  rewrite (bind_run _ _ _ _ _ (send_run env chat _ w1 Hvid)).
  unfold bind at 1. cbn [ret].
  erewrite bind_run.
  2:{ apply (unlink_file_run _ (Bytes clip)); [done|].
      unfold w1, with_fs, logged. cbn [fs]. by rewrite lookup_insert_eq. }
  unfold w1, with_fs, logged. cbn [fs trace ret]. by rewrite delete_insert_eq.
Qed.

Lemma handle_message_pinterest_clip_witness :
  handle_message clip_only_env (text_update 7 "https://pin.it/xyz") fresh_world =
  (Ret tt,
   with_fs (logged (logged (logged (logged fresh_world
       (Sent 7 (Text "Pinterest detected → fetching media...") true))
       (HttpGet "https://pin.it/xyz")) (HttpGet (absolute "//v.pinimg.com/a.mp4")))
       (Sent 7 (Video (Bytes "MP4")) true))
     (delete (pin_file clip_only_env "https://pin.it/xyz" ".mp4") (fs fresh_world))).
Proof.
  apply (handle_message_pinterest_clip clip_only_env 7 "https://pin.it/xyz"
           "https://pin.it/xyz" "<html>"
           [ {| tag_name := "img"; src := Some "/static/logo.svg" |};
             {| tag_name := "video"; src := Some "//v.pinimg.com/a.mp4" |} ]
           "//v.pinimg.com/a.mp4" "MP4" fresh_world);
    try reflexivity.
  by eexists.
Defined.
